(** * NexenPlayer: gesture, control-visibility and playback state

    A shallow embedding of the [NexenPlayer] component
    (components/NexenPlayer.tsx): the React state and refs of the player
    shell, its event handlers, the effects that run after a render, and
    the props handed to the native video element.

    Conventions.
    - JavaScript numbers that carry times, volumes and brightness are
      exact rationals ([Q]); playlist indices are integers ([Z]), since
      the render path indexes [items] with them.
    - Option bags ([NexenConfig]) are finite maps from field names to
      JavaScript values; object spread is right-biased map union.
    - Every call that leaves the component (native video element, native
      module, host callbacks, child component refs, timers, animations)
      is appended to a log, in program order.
    - [x?.f(...)] on a child ref is performed only when the child is
      mounted; [cb?.(...)] only when the host supplied the callback.
    - A handler reads state through the closure of the render it was
      created in (the state at its entry) and refs through [.current];
      state setters take effect in program order. *)

From Stdlib Require Import QArith ZArith Lia Lqa.
From stdpp Require Import gmap strings list.

Open Scope Z_scope.

(** ** JavaScript values and option bags *)

Inductive JSVal :=
| VUndef
| VBool (b : bool)
| VNum (q : Q)
| VStr (s : string).

(** Truthiness, as used by [if (x)], [!x] and [x ? a : b]. *)
Definition truthy (v : JSVal) : bool :=
  match v with
  | VUndef => false
  | VBool b => b
  | VNum q => negb (Qeq_bool q 0)
  | VStr s => negb (String.eqb s "")
  end.

(** [===] (also what [Array.prototype.indexOf] uses); on the values of
    this model [==] agrees with it whenever both sides have one type. *)
Definition strict_eq (a b : JSVal) : bool :=
  match a, b with
  | VUndef, VUndef => true
  | VBool x, VBool y => Bool.eqb x y
  | VNum x, VNum y => Qeq_bool x y
  | VStr x, VStr y => String.eqb x y
  | _, _ => false
  end.

Abbreviation Config := (gmap string JSVal).

(** [c?.k]: a missing key reads as [undefined]. *)
Definition get (c : Config) (k : string) : JSVal := default VUndef (c !! k).

(** [{...a, ...b}] *)
Definition spread (a b : Config) : Config := b ∪ a.

(** [{...a, k: v}] *)
Definition with_field (a : Config) (k : string) (v : JSVal) : Config := <[k := v]> a.

(** ** Types of the component *)

(** The two event enumerations are declared by the gesture view, which
    is not among these sources; these are the members the player's
    [switch] statements name. *)
Inductive TapEventType := SINGLE_TAP | DOUBLE_TAP_LEFT | DOUBLE_TAP_RIGHT | DOUBLE_TAP_MIDDLE.
Inductive GestureEventType := TRACK | VOLUME | BRIGHTNESS.

Record NexenSource := {
  uri : string;
  title : option string;
  poster : option string;
}.

Record PlayList := {
  items : option (list NexenSource);
  currentIndex : option Z;
}.

Record TrackInfo := {
  trackTime : Q;
  totalTrackTime : Q;
  cachedTrackTime : Q;
}.

Record LoadError := { errorString : string }.

(** Which optional callbacks the host passed, and the props it controls. *)
Record NexenPlayerProps := {
  source : NexenSource;
  config : option Config;
  playListProp : option PlayList;
  onFullScreenModeUpdate : bool;
  onPlay : bool;
  onPause : bool;
  onStop : bool;
  onSkipNext : bool;
  onSkipBack : bool;
  onVolumeUpdate : bool;
  onBrightnessUpdate : bool;
  onError : bool;
}.

Definition FORWARD_OR_REWIND_DURATION : Q := 10.
Definition RESIZE_MODE_VALUES : list JSVal := [VStr "contain"; VStr "cover"; VStr "stretch"].

(** The literal of the [useState] call that initialises [nexenConfig],
    before [...playerConfig] is spread over it. *)
Definition DEFAULT_CONFIG : Config :=
  list_to_map [
    ("loaderText", VStr "Loading...");
    ("errorText", VStr "Error...!");
    ("doubleTapTime", VNum 300);
    ("controlTimeout", VNum 5000);
    ("controlHideMode", VStr "touch");
    ("layoutMode", VStr "intermediate");
    ("posterResizeMode", VStr "cover");
    ("resizeMode", VStr "contain");
    ("volume", VNum 80);
    ("brightness", VNum 25);
    ("playbackSpeed", VStr "1.0");
    ("muted", VBool false);
    ("repeat", VBool false);
    ("autoPlay", VBool false);
    ("disableOnScreenPlayButton", VBool false);
    ("disableBack", VBool false);
    ("disableResizeMode", VBool false);
    ("disableMore", VBool false);
    ("disableSkip", VBool false);
    ("disableStop", VBool false);
    ("disableVolume", VBool false);
    ("disableFullscreen", VBool false);
    ("disablePlayList", VBool false);
    ("disableSubtitle", VBool false)
  ].

(** [{ ...defaults, ...playerConfig }]; spreading [undefined] adds nothing. *)
Definition initial_config (playerConfig : option Config) : Config :=
  spread DEFAULT_CONFIG (default ∅ playerConfig).

(** ** React state ([useState]) and refs ([useRef]) *)

Record PlayerState := {
  showControl : bool;
  showSpeedControl : bool;
  showTrackControl : bool;
  showPlaylistControl : bool;
  showMoreControl : bool;
  loading : bool;
  error : bool;
  locked : bool;
  disablePlaylistAndSkip : bool;
  nexenSource : NexenSource;
  nexenConfig : Config;
  fullScreen : bool;
  paused : bool;
  trackInfo : TrackInfo;
  playList : option PlayList;
}.

Record Refs := {
  isSeeking : bool;
  isSliding : bool;
  isSeekable : bool;
  gestureEnabled : bool;
  isStopped : bool;
  isEnded : bool;
  isVolumeSeekable : bool;
  showPoster : bool;
  isFullscreen : bool;
  controlTimeoutRef : option nat;
}.

(** ** Calls that leave the component

    The icon builders [getVolumeIcon] / [getBrightnessIcon] and their
    bounds [MAX_VOLUME] / [MAX_BRIGHTNESS] come from modules outside
    these sources; a header icon update is logged with the value it was
    built from. *)

Inductive Panel := MorePanel | SpeedPanel | TrackPanel | PlaylistPanel.

Inductive Event :=
| VideoSeek (t : Q)                       (* videoRef.current.seek(t) *)
| VideoSeekTolerance (t tol : Q)          (* videoRef.current.seek(t, tol) *)
| VideoSetNativeVolume (v : Q)            (* videoRef.current.setNativeProps({ volume: v }) *)
| SetBrightness (b : Q)                   (* NexenPlayerModule.setBrightness(b) *)
| SetBrightnessNaN                        (* NexenPlayerModule.setBrightness(undefined / 100) *)
| HeaderVolumeIcon (v : Q)                (* headerControlRef.current.updateIconTagView({ volumeIcon: getVolumeIcon(v, ...) }) *)
| HeaderBrightnessIcon (v : Q)            (* ... ({ brightnessIcon: getBrightnessIcon(v, ...) }) *)
| HeaderTagIcons (volume brightness : JSVal) (repeatActive speedActive : bool)
| TipShow (text : string)                 (* tipViewRef.current.updateState({ showTip: true, tipText, autoHide: true, ... }) *)
| ControlShowAnimation                    (* startControlShowAnimation() *)
| ControlHideAnimation                    (* startControlHideAnimation(cb) *)
| PanelHide (p : Panel)                   (* <panel>Ref.current.hide(cb) *)
| SetTimeout (handle : nat) (ms : JSVal)  (* setTimeout(hideMainControl, ms) *)
| ClearTimeout (handle : nat)             (* clearTimeout(handle) *)
| ShowSystemBar                           (* NexenPlayerModule.showSystemBar() *)
| HideSystemBar                           (* NexenPlayerModule.hideSystemBar() *)
| BackHandlerRemove                       (* backHandler.remove() *)
| AppStateSubscriptionRemove              (* subscription.remove() *)
| HostFullScreenModeUpdate (f : bool) (index : JSVal)
| HostPlay (index : JSVal)
| HostPause (index : JSVal)
| HostStop (index : JSVal)
| HostSkipNext (index : Z)
| HostSkipBack (index : Z)
| HostVolumeUpdate (v : Q)
| HostBrightnessUpdate (v : Q)
| HostError (msg : string).

(** Completion callbacks handed to an animation: each is a single state
    setter in the source. *)
Inductive Callback :=
| HideControlDone          (* () => setShowControl(false) *)
| HidePanelDone (p : Panel). (* () => setShow<Panel>Control(false) *)

(** The component, the timers it has pending in the host's timer queue
    (every one of them was created by [setControlTimeout], so its
    callback is [hideMainControl]), and the animation callbacks that
    have not fired yet. [configId] stands for the identity of the object
    held in [nexenConfig]: every [setNexenConfig] stores a fresh object,
    which is what the dependency arrays of the effects compare. *)
Record World := {
  st : PlayerState;
  refs : Refs;
  props : NexenPlayerProps;
  configId : nat;
  timers : list (nat * JSVal);
  nextTimer : nat;
  animating : list Callback;
  log : list Event;
}.

(** ** Field updates *)

Definition set_showControl (p : PlayerState) (v : bool) : PlayerState :=
  {| showControl := v; showSpeedControl := showSpeedControl p;
     showTrackControl := showTrackControl p;
     showPlaylistControl := showPlaylistControl p;
     showMoreControl := showMoreControl p; loading := loading p; error := error p;
     locked := locked p; disablePlaylistAndSkip := disablePlaylistAndSkip p;
     nexenSource := nexenSource p; nexenConfig := nexenConfig p;
     fullScreen := fullScreen p; paused := paused p; trackInfo := trackInfo p;
     playList := playList p |}.

Definition set_showSpeedControl (p : PlayerState) (v : bool) : PlayerState :=
  {| showControl := showControl p; showSpeedControl := v;
     showTrackControl := showTrackControl p;
     showPlaylistControl := showPlaylistControl p;
     showMoreControl := showMoreControl p; loading := loading p; error := error p;
     locked := locked p; disablePlaylistAndSkip := disablePlaylistAndSkip p;
     nexenSource := nexenSource p; nexenConfig := nexenConfig p;
     fullScreen := fullScreen p; paused := paused p; trackInfo := trackInfo p;
     playList := playList p |}.

Definition set_showTrackControl (p : PlayerState) (v : bool) : PlayerState :=
  {| showControl := showControl p; showSpeedControl := showSpeedControl p;
     showTrackControl := v; showPlaylistControl := showPlaylistControl p;
     showMoreControl := showMoreControl p; loading := loading p; error := error p;
     locked := locked p; disablePlaylistAndSkip := disablePlaylistAndSkip p;
     nexenSource := nexenSource p; nexenConfig := nexenConfig p;
     fullScreen := fullScreen p; paused := paused p; trackInfo := trackInfo p;
     playList := playList p |}.

Definition set_showPlaylistControl (p : PlayerState) (v : bool) : PlayerState :=
  {| showControl := showControl p; showSpeedControl := showSpeedControl p;
     showTrackControl := showTrackControl p; showPlaylistControl := v;
     showMoreControl := showMoreControl p; loading := loading p; error := error p;
     locked := locked p; disablePlaylistAndSkip := disablePlaylistAndSkip p;
     nexenSource := nexenSource p; nexenConfig := nexenConfig p;
     fullScreen := fullScreen p; paused := paused p; trackInfo := trackInfo p;
     playList := playList p |}.

Definition set_showMoreControl (p : PlayerState) (v : bool) : PlayerState :=
  {| showControl := showControl p; showSpeedControl := showSpeedControl p;
     showTrackControl := showTrackControl p;
     showPlaylistControl := showPlaylistControl p; showMoreControl := v;
     loading := loading p; error := error p; locked := locked p;
     disablePlaylistAndSkip := disablePlaylistAndSkip p; nexenSource := nexenSource p;
     nexenConfig := nexenConfig p; fullScreen := fullScreen p; paused := paused p;
     trackInfo := trackInfo p; playList := playList p |}.

Definition set_error (p : PlayerState) (v : bool) : PlayerState :=
  {| showControl := showControl p; showSpeedControl := showSpeedControl p;
     showTrackControl := showTrackControl p;
     showPlaylistControl := showPlaylistControl p;
     showMoreControl := showMoreControl p; loading := loading p; error := v;
     locked := locked p; disablePlaylistAndSkip := disablePlaylistAndSkip p;
     nexenSource := nexenSource p; nexenConfig := nexenConfig p;
     fullScreen := fullScreen p; paused := paused p; trackInfo := trackInfo p;
     playList := playList p |}.

Definition set_nexenSource (p : PlayerState) (v : NexenSource) : PlayerState :=
  {| showControl := showControl p; showSpeedControl := showSpeedControl p;
     showTrackControl := showTrackControl p;
     showPlaylistControl := showPlaylistControl p;
     showMoreControl := showMoreControl p; loading := loading p; error := error p;
     locked := locked p; disablePlaylistAndSkip := disablePlaylistAndSkip p;
     nexenSource := v; nexenConfig := nexenConfig p;
     fullScreen := fullScreen p; paused := paused p; trackInfo := trackInfo p;
     playList := playList p |}.

Definition set_disablePlaylistAndSkip (p : PlayerState) (v : bool) : PlayerState :=
  {| showControl := showControl p; showSpeedControl := showSpeedControl p;
     showTrackControl := showTrackControl p;
     showPlaylistControl := showPlaylistControl p;
     showMoreControl := showMoreControl p; loading := loading p; error := error p;
     locked := locked p; disablePlaylistAndSkip := v; nexenSource := nexenSource p;
     nexenConfig := nexenConfig p; fullScreen := fullScreen p; paused := paused p;
     trackInfo := trackInfo p; playList := playList p |}.

Definition set_nexenConfig (p : PlayerState) (v : Config) : PlayerState :=
  {| showControl := showControl p; showSpeedControl := showSpeedControl p;
     showTrackControl := showTrackControl p;
     showPlaylistControl := showPlaylistControl p;
     showMoreControl := showMoreControl p; loading := loading p; error := error p;
     locked := locked p; disablePlaylistAndSkip := disablePlaylistAndSkip p;
     nexenSource := nexenSource p; nexenConfig := v; fullScreen := fullScreen p;
     paused := paused p; trackInfo := trackInfo p; playList := playList p |}.

Definition set_fullScreen (p : PlayerState) (v : bool) : PlayerState :=
  {| showControl := showControl p; showSpeedControl := showSpeedControl p;
     showTrackControl := showTrackControl p;
     showPlaylistControl := showPlaylistControl p;
     showMoreControl := showMoreControl p; loading := loading p; error := error p;
     locked := locked p; disablePlaylistAndSkip := disablePlaylistAndSkip p;
     nexenSource := nexenSource p; nexenConfig := nexenConfig p; fullScreen := v;
     paused := paused p; trackInfo := trackInfo p; playList := playList p |}.

Definition set_paused (p : PlayerState) (v : bool) : PlayerState :=
  {| showControl := showControl p; showSpeedControl := showSpeedControl p;
     showTrackControl := showTrackControl p;
     showPlaylistControl := showPlaylistControl p;
     showMoreControl := showMoreControl p; loading := loading p; error := error p;
     locked := locked p; disablePlaylistAndSkip := disablePlaylistAndSkip p;
     nexenSource := nexenSource p; nexenConfig := nexenConfig p;
     fullScreen := fullScreen p; paused := v; trackInfo := trackInfo p;
     playList := playList p |}.

Definition set_trackInfo (p : PlayerState) (v : TrackInfo) : PlayerState :=
  {| showControl := showControl p; showSpeedControl := showSpeedControl p;
     showTrackControl := showTrackControl p;
     showPlaylistControl := showPlaylistControl p;
     showMoreControl := showMoreControl p; loading := loading p; error := error p;
     locked := locked p; disablePlaylistAndSkip := disablePlaylistAndSkip p;
     nexenSource := nexenSource p; nexenConfig := nexenConfig p;
     fullScreen := fullScreen p; paused := paused p; trackInfo := v;
     playList := playList p |}.

Definition set_playList (p : PlayerState) (v : option PlayList) : PlayerState :=
  {| showControl := showControl p; showSpeedControl := showSpeedControl p;
     showTrackControl := showTrackControl p;
     showPlaylistControl := showPlaylistControl p;
     showMoreControl := showMoreControl p; loading := loading p; error := error p;
     locked := locked p; disablePlaylistAndSkip := disablePlaylistAndSkip p;
     nexenSource := nexenSource p; nexenConfig := nexenConfig p;
     fullScreen := fullScreen p; paused := paused p; trackInfo := trackInfo p;
     playList := v |}.

Definition set_gestureEnabled (r : Refs) (v : bool) : Refs :=
  {| isSeeking := isSeeking r; isSliding := isSliding r; isSeekable := isSeekable r;
     gestureEnabled := v; isStopped := isStopped r; isEnded := isEnded r;
     isVolumeSeekable := isVolumeSeekable r; showPoster := showPoster r;
     isFullscreen := isFullscreen r; controlTimeoutRef := controlTimeoutRef r |}.

Definition set_isStopped (r : Refs) (v : bool) : Refs :=
  {| isSeeking := isSeeking r; isSliding := isSliding r; isSeekable := isSeekable r;
     gestureEnabled := gestureEnabled r; isStopped := v; isEnded := isEnded r;
     isVolumeSeekable := isVolumeSeekable r; showPoster := showPoster r;
     isFullscreen := isFullscreen r; controlTimeoutRef := controlTimeoutRef r |}.

Definition set_showPoster (r : Refs) (v : bool) : Refs :=
  {| isSeeking := isSeeking r; isSliding := isSliding r; isSeekable := isSeekable r;
     gestureEnabled := gestureEnabled r; isStopped := isStopped r;
     isEnded := isEnded r; isVolumeSeekable := isVolumeSeekable r; showPoster := v;
     isFullscreen := isFullscreen r; controlTimeoutRef := controlTimeoutRef r |}.

Definition set_isFullscreen (r : Refs) (v : bool) : Refs :=
  {| isSeeking := isSeeking r; isSliding := isSliding r; isSeekable := isSeekable r;
     gestureEnabled := gestureEnabled r; isStopped := isStopped r;
     isEnded := isEnded r; isVolumeSeekable := isVolumeSeekable r;
     showPoster := showPoster r; isFullscreen := v;
     controlTimeoutRef := controlTimeoutRef r |}.

Definition set_controlTimeoutRef (r : Refs) (v : option nat) : Refs :=
  {| isSeeking := isSeeking r; isSliding := isSliding r; isSeekable := isSeekable r;
     gestureEnabled := gestureEnabled r; isStopped := isStopped r;
     isEnded := isEnded r; isVolumeSeekable := isVolumeSeekable r;
     showPoster := showPoster r; isFullscreen := isFullscreen r;
     controlTimeoutRef := v |}.

Definition set_st (w : World) (v : PlayerState) : World :=
  {| st := v; refs := refs w; props := props w; configId := configId w;
     timers := timers w; nextTimer := nextTimer w; animating := animating w;
     log := log w |}.

Definition set_refs (w : World) (v : Refs) : World :=
  {| st := st w; refs := v; props := props w; configId := configId w;
     timers := timers w; nextTimer := nextTimer w; animating := animating w;
     log := log w |}.

Definition set_props (w : World) (v : NexenPlayerProps) : World :=
  {| st := st w; refs := refs w; props := v; configId := configId w;
     timers := timers w; nextTimer := nextTimer w; animating := animating w;
     log := log w |}.

Definition set_configId (w : World) (v : nat) : World :=
  {| st := st w; refs := refs w; props := props w; configId := v; timers := timers w;
     nextTimer := nextTimer w; animating := animating w; log := log w |}.

Definition set_timers (w : World) (v : list (nat * JSVal)) : World :=
  {| st := st w; refs := refs w; props := props w; configId := configId w; timers := v;
     nextTimer := nextTimer w; animating := animating w; log := log w |}.

Definition set_nextTimer (w : World) (v : nat) : World :=
  {| st := st w; refs := refs w; props := props w; configId := configId w;
     timers := timers w; nextTimer := v; animating := animating w; log := log w |}.

Definition set_animating (w : World) (v : list Callback) : World :=
  {| st := st w; refs := refs w; props := props w; configId := configId w;
     timers := timers w; nextTimer := nextTimer w; animating := v; log := log w |}.

Definition set_log (w : World) (v : list Event) : World :=
  {| st := st w; refs := refs w; props := props w; configId := configId w;
     timers := timers w; nextTimer := nextTimer w; animating := animating w;
     log := v |}.

(** ** Actions *)

Definition Action := World -> World.

(** Statements of a handler body, run in program order. *)
Definition run (acts : list Action) : Action :=
  fun w => foldl (fun w' a => a w') w acts.

Definition when (b : bool) (a : Action) : Action :=
  if b then a else (fun w => w).

Definition emit (e : Event) : Action :=
  fun w => set_log w (log w ++ [e]).

Definition setState (f : PlayerState -> PlayerState) : Action :=
  fun w => set_st w (f (st w)).

Definition setRef (f : Refs -> Refs) : Action :=
  fun w => set_refs w (f (refs w)).

(** [setNexenConfig(...)]: the state holds a new object afterwards. *)
Definition setNexenConfig (f : Config -> Config) : Action :=
  fun w => set_configId (set_st w (set_nexenConfig (st w) (f (nexenConfig (st w)))))
                        (S (configId w)).

Definition setTrackTime (t : Q) : Action :=
  setState (fun p => set_trackInfo p
    {| trackTime := t;
       totalTrackTime := totalTrackTime (trackInfo p);
       cachedTrackTime := cachedTrackTime (trackInfo p) |}).

(** [setPlayList(prev => ({ ...prev, currentIndex: index }))] *)
Definition setCurrentIndex (index : option Z) : Action :=
  setState (fun p => set_playList p
    (Some {| items := match playList p with Some l => items l | None => None end;
             currentIndex := index |})).

(** ** Which child refs are attached

    A ref is attached exactly while its element is part of the last
    committed render; [s] is the state of that render. *)

(** [<Video ref={videoRef} />] is omitted only in optimize mode when
    [index !== activeIndex]. *)
Definition videoRef_current (s : PlayerState) : bool :=
  if truthy (get (nexenConfig s) "optimize")
  then strict_eq (get (nexenConfig s) "index") (get (nexenConfig s) "activeIndex")
  else true.

(** [{showControl && <HeaderControl ref={headerControlRef} />}] *)
Definition headerControlRef_current (s : PlayerState) : bool := showControl s.

(** [{nexenConfig?.layoutMode !== 'basic' && <TipView ref={tipViewRef} />}] *)
Definition tipViewRef_current (s : PlayerState) : bool :=
  negb (strict_eq (get (nexenConfig s) "layoutMode") (VStr "basic")).

Definition panelRef_current (s : PlayerState) (p : Panel) : bool :=
  match p with
  | MorePanel => showMoreControl s
  | SpeedPanel => showSpeedControl s
  | TrackPanel => showTrackControl s
  | PlaylistPanel => showPlaylistControl s
  end.

(** [nexenConfig?.optimize ? nexenConfig.index : playList?.currentIndex] *)
Definition js_of_index (i : option Z) : JSVal :=
  match i with
  | Some z => VNum (inject_Z z)
  | None => VUndef
  end.

Definition reported_index (s : PlayerState) : JSVal :=
  if truthy (get (nexenConfig s) "optimize")
  then get (nexenConfig s) "index"
  else match playList s with
       | Some l => js_of_index (currentIndex l)
       | None => VUndef
       end.

(** ** Showing and hiding *)

Definition showMainControl : Action :=
  setState (fun p => set_showControl p true).

(** [startControlHideAnimation(() => setShowControl(false))]: the setter
    runs when the animation reports completion. *)
Definition hideMainControl : Action :=
  run [emit ControlHideAnimation;
       fun w => set_animating w (animating w ++ [HideControlDone])].

(** [<panel>Ref.current?.hide(() => setShow<Panel>Control(false))]: on an
    attached panel the call is logged and the callback it passes joins
    the pending ones. The panels' [hide] belongs to the modal animation
    wrapper (hoc/withAnimation), which is not among these sources:
    whether and when it calls back is not decided here, and the callback
    runs only when an [AnimationsEnd] input delivers the pending
    callbacks. *)
Definition hidePanel (s : PlayerState) (p : Panel) : Action :=
  when (panelRef_current s p)
    (run [emit (PanelHide p);
          fun w => set_animating w (animating w ++ [HidePanelDone p])]).

Definition run_callback (c : Callback) : Action :=
  match c with
  | HideControlDone => setState (fun p => set_showControl p false)
  | HidePanelDone MorePanel => setState (fun p => set_showMoreControl p false)
  | HidePanelDone SpeedPanel => setState (fun p => set_showSpeedControl p false)
  | HidePanelDone TrackPanel => setState (fun p => set_showTrackControl p false)
  | HidePanelDone PlaylistPanel => setState (fun p => set_showPlaylistControl p false)
  end.

(** All running animations complete and call back, oldest first. *)
Definition animations_end : Action :=
  fun w => run (map run_callback (animating w)) (set_animating w []).

(** ** The control timer *)

(** [controlTimeoutRef.current = setTimeout(() => hideMainControl(),
    nexenConfig?.controlTimeout)] *)
Definition setControlTimeout (s : PlayerState) : Action :=
  fun w =>
    let h := nextTimer w in
    let ms := get (nexenConfig s) "controlTimeout" in
    run [emit (SetTimeout h ms);
         fun w' => set_timers w' (timers w' ++ [(h, ms)]);
         fun w' => set_nextTimer w' (S h);
         setRef (fun r => set_controlTimeoutRef r (Some h))] w.

Definition clearTimeout (h : nat) : Action :=
  run [emit (ClearTimeout h);
       fun w => set_timers w (filter (fun t => t.1 ≠ h) (timers w))].

(** [if (controlTimeoutRef.current) clearTimeout(controlTimeoutRef.current)];
    a timer handle is never falsy. The ref keeps the handle. *)
Definition clearControlTimeout : Action :=
  fun w =>
    match controlTimeoutRef (refs w) with
    | Some h => clearTimeout h w
    | None => w
    end.

(** Declared in the source but called from nowhere. *)
Definition resetControlTimeout (s : PlayerState) : Action :=
  run [clearControlTimeout; setControlTimeout s].

(** A pending timer expires: it leaves the queue and its callback runs. *)
Definition timer_fires (h : nat) : Action :=
  fun w =>
    if bool_decide (h ∈ (timers w).*1)
    then run [fun w' => set_timers w' (filter (fun t => t.1 ≠ h) (timers w'));
              hideMainControl] w
    else w.

(** ** Gesture handlers *)

Definition handleDoubleTapPlayPause (s : PlayerState) : Action :=
  if paused s
  then run [setState (fun p => set_paused p false);
            when (tipViewRef_current s) (emit (TipShow "播放"))]
  else run [setState (fun p => set_paused p true);
            when (tipViewRef_current s) (emit (TipShow "暂停"))].

(** [value?: number]; [if (value)] rejects [undefined] and [0]. *)
Definition _onTapDetected (event : TapEventType) (value : option Q) : Action :=
  fun w =>
    let s := st w in
    match event with
    | SINGLE_TAP =>
        if showMoreControl s then
          run [hidePanel s MorePanel; setRef (fun r => set_gestureEnabled r true)] w
        else if showSpeedControl s then
          run [hidePanel s SpeedPanel; setRef (fun r => set_gestureEnabled r true)] w
        else if showTrackControl s then
          run [hidePanel s TrackPanel; setRef (fun r => set_gestureEnabled r true)] w
        else if showPlaylistControl s then
          run [hidePanel s PlaylistPanel; setRef (fun r => set_gestureEnabled r true)] w
        else if showControl s then hideMainControl w
        else showMainControl w
    | DOUBLE_TAP_LEFT | DOUBLE_TAP_RIGHT =>
        match value with
        | Some v =>
            if Qeq_bool v 0 then w
            else run [when (videoRef_current s) (emit (VideoSeek v)); setTrackTime v] w
        | None => w
        end
    | DOUBLE_TAP_MIDDLE => handleDoubleTapPlayPause s w
    end.

Definition _onGestureMove (event : GestureEventType) (value : Q) : Action :=
  fun w =>
    let s := st w in
    match event with
    | TRACK =>
        run [when (videoRef_current s) (emit (VideoSeek value)); setTrackTime value] w
    | VOLUME =>
        run [when (headerControlRef_current s) (emit (HeaderVolumeIcon value));
             when (videoRef_current s) (emit (VideoSetNativeVolume (value / 100)))] w
    | BRIGHTNESS =>
        run [when (headerControlRef_current s) (emit (HeaderBrightnessIcon value));
             emit (SetBrightness (value / 100))] w
    end.

Definition _onGestureEnd (event : GestureEventType) (value : Q) : Action :=
  fun w =>
    let s := st w in
    match event with
    | TRACK =>
        run [when (videoRef_current s) (emit (VideoSeek value)); setTrackTime value] w
    | VOLUME =>
        run [when (headerControlRef_current s) (emit (HeaderVolumeIcon value));
             when (videoRef_current s) (emit (VideoSetNativeVolume (value / 100)));
             setNexenConfig (fun c => with_field c "volume" (VNum value));
             when (onVolumeUpdate (props w)) (emit (HostVolumeUpdate value))] w
    | BRIGHTNESS =>
        run [when (headerControlRef_current s) (emit (HeaderBrightnessIcon value));
             emit (SetBrightness (value / 100));
             setNexenConfig (fun c => with_field c "brightness" (VNum value));
             when (onBrightnessUpdate (props w)) (emit (HostBrightnessUpdate value))] w
    end.

(** ** Playback handlers *)

Definition handleStopPlayback : Action :=
  fun w =>
    let s := st w in
    run [setRef (fun r => set_isStopped r true);
         fun w' =>
           if paused s then
             run [when (videoRef_current (st w')) (emit (VideoSeekTolerance 0 0));
                  when (onStop (props w')) (emit (HostStop (reported_index s)))] w'
           else if isEnded (refs w') && truthy (get (nexenConfig s) "repeat") then
             run [setState (fun p => set_paused p false);
                  when (videoRef_current (st w')) (emit (VideoSeekTolerance 0 0));
                  when (onStop (props w')) (emit (HostStop (reported_index s)))] w'
           else setState (fun p => set_paused p true) w'] w.

(** [RESIZE_MODE_VALUES.indexOf(x)] and [RESIZE_MODE_VALUES[i]] *)
Fixpoint indexOf_from (l : list JSVal) (x : JSVal) (i : Z) : Z :=
  match l with
  | [] => -1
  | y :: l' => if strict_eq y x then i else indexOf_from l' x (i + 1)
  end.

Definition indexOf (l : list JSVal) (x : JSVal) : Z := indexOf_from l x 0.

Definition at_index (l : list JSVal) (i : Z) : JSVal :=
  if i <? 0 then VUndef else default VUndef (l !! Z.to_nat i).

Definition handleResizeMode (resizeMode : JSVal) : Action :=
  let currentIndex := indexOf RESIZE_MODE_VALUES resizeMode in
  if currentIndex <? Z.of_nat (length RESIZE_MODE_VALUES) - 1
  then setNexenConfig (fun c =>
         with_field c "resizeMode" (at_index RESIZE_MODE_VALUES (currentIndex + 1)))
  else setNexenConfig (fun c =>
         with_field c "resizeMode" (at_index RESIZE_MODE_VALUES 0)).

Definition _onAspectRatioPress : Action :=
  fun w => handleResizeMode (get (nexenConfig (st w)) "resizeMode") w.

Definition _onRewind : Action :=
  fun w =>
    let s := st w in
    let time := (trackTime (trackInfo s) - FORWARD_OR_REWIND_DURATION)%Q in
    run [when (videoRef_current s) (emit (VideoSeek time)); setTrackTime time] w.

Definition _onFastForward : Action :=
  fun w =>
    let s := st w in
    let time := (trackTime (trackInfo s) + FORWARD_OR_REWIND_DURATION)%Q in
    run [when (videoRef_current s) (emit (VideoSeek time)); setTrackTime time] w.

(** [playList.currentIndex! < playList.items?.length! - 1]: a comparison
    with a missing operand is false. *)
Definition _onSkipNext : Action :=
  fun w =>
    match playList (st w) with
    | Some l =>
        match currentIndex l, items l with
        | Some i, Some its =>
            if i <? Z.of_nat (length its) - 1 then
              let index := i + 1 in
              run [setCurrentIndex (Some index);
                   when (onSkipNext (props w)) (emit (HostSkipNext index))] w
            else w
        | _, _ => w
        end
    | None => w
    end.

Definition _onSkipBack : Action :=
  fun w =>
    match playList (st w) with
    | Some l =>
        match currentIndex l with
        | Some i =>
            if 0 <? i then
              let index := i - 1 in
              run [setCurrentIndex (Some index);
                   when (onSkipBack (props w)) (emit (HostSkipBack index))] w
            else w
        | None => w
        end
    | None => w
    end.

(** Header "more" button. *)
Definition _onMorePress : Action :=
  run [setState (fun p => set_showMoreControl p true);
       hideMainControl;
       setRef (fun r => set_gestureEnabled r false)].

(** Footer play/pause and full-screen buttons. *)
Definition _onTogglePlayPause : Action :=
  setState (fun p => set_paused p (negb (paused p))).

Definition _onToggleFullScreen : Action :=
  fun w =>
    let s := st w in
    run [emit (if fullScreen s then ShowSystemBar else HideSystemBar);
         when (onFullScreenModeUpdate (props w))
              (emit (HostFullScreenModeUpdate (negb (fullScreen s)) (reported_index s)));
         setState (fun p => set_fullScreen p (negb (fullScreen p)))] w.

(** ** Video callbacks *)

Definition _onError (e : LoadError) : Action :=
  fun w =>
    run [setState (fun p => set_error p true);
         when (onError (props w)) (emit (HostError (errorString e)))] w.

(** ** The imperative handle *)

Inductive Method :=
| Thunk (a : Action)
| OfBool (a : bool -> Action).

Definition setFullScreenMode (fullScreen' : bool) : Action :=
  fun w =>
    let s := st w in
    run [setState (fun p => set_fullScreen p fullScreen');
         when (onFullScreenModeUpdate (props w))
              (emit (HostFullScreenModeUpdate fullScreen' (reported_index s)))] w.

(** The object built by [useImperativeHandle], key by key. *)
Definition NexenPlayerRef : list (string * Method) :=
  [("play", Thunk (setState (fun p => set_paused p false)));
   ("pause", Thunk (setState (fun p => set_paused p true)));
   ("stop", Thunk handleStopPlayback);
   ("skipNext", Thunk _onSkipNext);
   ("skipBack", Thunk _onSkipBack);
   ("setFullScreenMode", OfBool setFullScreenMode)].

(** [ref.current[name]] *)
Definition method (name : string) : option Method :=
  (list_to_map NexenPlayerRef : gmap string Method) !! name.

(** ** Effects that run after a commit *)

(** [useEffect(..., [paused])] *)
Definition effect_paused : Action :=
  fun w =>
    let s := st w in
    if paused s then
      run [fun w' =>
             when (isStopped (refs w'))
               (run [when (videoRef_current s) (emit (VideoSeekTolerance 0 0));
                     when (onStop (props w')) (emit (HostStop (reported_index s)))]) w';
           when (onPause (props w)) (emit (HostPause (reported_index s)))] w
    else
      run [setRef (fun r => set_isStopped r false);
           when (onPlay (props w)) (emit (HostPlay (reported_index s)))] w.

(** [useEffect(..., [showControl, fullScreen, locked, nexenConfig])] *)
Definition effect_showControl : Action :=
  fun w =>
    let s := st w in
    let c := nexenConfig s in
    let auto := strict_eq (get c "controlHideMode") (VStr "auto") in
    run [setRef (fun r => set_isFullscreen r (fullScreen s));
         if showControl s
         then run [emit ControlShowAnimation; when auto (setControlTimeout s)]
         else when auto clearControlTimeout;
         when (strict_eq (get c "layoutMode") (VStr "advanced")
               && headerControlRef_current s)
           (emit (HeaderTagIcons (get c "volume") (get c "brightness")
                    (truthy (get c "repeat"))
                    (negb (strict_eq (get c "playbackSpeed") (VStr "1.0")))))] w.

(** [x / 100] for a config field declared [number]: [undefined] gives
    [NaN] ([None]). *)
Definition div100 (v : JSVal) : option Q :=
  match v with
  | VNum q => Some (q / 100)%Q
  | _ => None
  end.

(** A config [number] used as [currentIndex]. A fractional index cannot
    be rendered ([items[index]] is [undefined]) and has no image here. *)
Definition js_to_index (v : JSVal) : option Z :=
  match v with
  | VNum q => if (Zpos (Qden (Qred q)) =? 1) then Some (Qnum (Qred q)) else None
  | _ => None
  end.

(** [useEffect(..., [playerConfig])]. The source compares with the loose
    [newConfig?.index != newConfig?.activeIndex]; both fields are
    declared [number | undefined], and on such operands the loose
    comparison agrees with the strict one used here. *)
Definition effect_playerConfig (playerConfig : option Config) : Action :=
  fun w =>
    let newConfig := spread (nexenConfig (st w)) (default ∅ playerConfig) in
    run [emit (match div100 (get newConfig "brightness") with
               | Some b => SetBrightness b
               | None => SetBrightnessNaN
               end);
         setNexenConfig (fun _ => newConfig);
         when (truthy (get newConfig "optimize"))
           (if negb (strict_eq (get newConfig "index") (get newConfig "activeIndex"))
            then run [setRef (fun r => set_showPoster r true);
                      setState (fun p => set_paused p true);
                      hideMainControl]
            else setCurrentIndex (js_to_index (get newConfig "activeIndex")))] w.

(** [useEffect(..., [playerSource])]: [{ ...nexenSource, ...playerSource }] *)
Definition effect_playerSource (playerSource : NexenSource) : Action :=
  fun w =>
    let old := nexenSource (st w) in
    let newSource :=
      {| uri := uri playerSource;
         title := match title playerSource with Some t => Some t | None => title old end;
         poster := match poster playerSource with Some t => Some t | None => poster old end |} in
    run [setRef (fun r => set_showPoster r
                   (match poster newSource with
                    | Some u => negb (String.eqb u "")
                    | None => false
                    end));
         setState (fun p => set_nexenSource p newSource)] w.

(** [useEffect(..., [playerPlayList])] *)
Definition effect_playerPlayList (playerPlayList : option PlayList) : Action :=
  fun w =>
    let empty :=
      match playerPlayList with
      | Some l => match items l with
                  | Some its => Nat.eqb (length its) 0
                  | None => true
                  end
      | None => true
      end in
    run [setState (fun p => set_disablePlaylistAndSkip p empty);
         setState (fun p => set_playList p
           (Some {| items :=
                      match playerPlayList ≫= items with
                      | Some its => Some its
                      | None => playList p ≫= items
                      end;
                    currentIndex :=
                      match playerPlayList ≫= currentIndex with
                      | Some i => Some i
                      | None => playList p ≫= currentIndex
                      end |}))] w.

(** The cleanup returned by [useEffect(..., [])]. *)
Definition unmount : Action :=
  fun w =>
    run [emit BackHandlerRemove;
         emit AppStateSubscriptionRemove;
         fun w' =>
           match controlTimeoutRef (refs w') with
           | Some h => clearTimeout h w'
           | None => w'
           end] w.

(** ** What is rendered *)

(** [newSource]: [None] when [items[currentIndex].itemSource] reads a
    property of [undefined] and the render throws. *)
Definition newSource (s : PlayerState) : option NexenSource :=
  match playList s ≫= items with
  | Some its =>
      if negb (Nat.eqb (length its) 0) then
        match playList s ≫= currentIndex with
        | Some i => if i <? 0 then None else its !! Z.to_nat i
        | None => None
        end
      else Some (nexenSource s)
  | None => Some (nexenSource s)
  end.

Module Video.
(** Props of [<Video />]. [rate] holds the argument of [Number(...)];
    an [option] prop is [None] when the attribute is not written. *)
Record Props := {
  source : NexenSource;
  paused : bool;
  resizeMode : JSVal;
  muted : JSVal;
  volume : option Q;
  repeat : JSVal;
  rate : JSVal;
  progressUpdateInterval : Z;
  minLoadRetryCount : option Z;
  mixWithOthers : option string;
  ignoreSilentSwitch : option string;
  pictureInPicture : bool;
  playInBackground : bool;
  allowsExternalPlayback : bool;
  disableFocus : option bool;
  playWhenInactive : bool;
}.
End Video.

Definition video_element (s : PlayerState) (src : NexenSource) : option Video.Props :=
  let c := nexenConfig s in
  if truthy (get c "optimize") then
    if strict_eq (get c "index") (get c "activeIndex") then
      Some {| Video.source := src;
              Video.paused := paused s;
              Video.resizeMode := get c "resizeMode";
              Video.muted := get c "muted";
              Video.volume := div100 (get c "volume");
              Video.repeat := get c "repeat";
              Video.rate := get c "playbackSpeed";
              Video.progressUpdateInterval := 1000;
              Video.minLoadRetryCount := None;
              Video.mixWithOthers := None;
              Video.ignoreSilentSwitch := None;
              Video.pictureInPicture := true;
              Video.playInBackground := true;
              Video.allowsExternalPlayback := true;
              Video.disableFocus := None;
              Video.playWhenInactive := true |}
    else None
  else
    Some {| Video.source := src;
            Video.paused := paused s;
            Video.resizeMode := get c "resizeMode";
            Video.muted := get c "muted";
            Video.volume := div100 (get c "volume");
            Video.repeat := get c "repeat";
            Video.rate := get c "playbackSpeed";
            Video.progressUpdateInterval := 1000;
            Video.minLoadRetryCount := Some 1000;
            Video.mixWithOthers := Some "duck";
            Video.ignoreSilentSwitch := Some "ignore";
            Video.pictureInPicture := true;
            Video.playInBackground := true;
            Video.allowsExternalPlayback := true;
            Video.disableFocus := Some true;
            Video.playWhenInactive := true |}.

(** ** Mounting, and one turn of the event loop *)

(** [NexenPlayer.defaultProps.playList] *)
Definition DEFAULT_PLAYLIST : PlayList := {| items := Some []; currentIndex := Some 0 |}.

Definition initial_state (pr : NexenPlayerProps) : PlayerState :=
  let c := initial_config (config pr) in
  {| showControl := false;
     showSpeedControl := false;
     showTrackControl := false;
     showPlaylistControl := false;
     showMoreControl := false;
     loading := false;
     error := false;
     locked := false;
     disablePlaylistAndSkip := false;
     nexenSource := source pr;
     nexenConfig := c;
     fullScreen := false;
     paused := negb (truthy (get c "autoPlay"));
     trackInfo := {| trackTime := 0; totalTrackTime := 0; cachedTrackTime := 0 |};
     playList := Some (default DEFAULT_PLAYLIST (playListProp pr)) |}.

Definition initial_refs : Refs :=
  {| isSeeking := false;
     isSliding := false;
     isSeekable := false;
     gestureEnabled := false;
     isStopped := false;
     isEnded := false;
     isVolumeSeekable := true;
     showPoster := true;
     isFullscreen := false;
     controlTimeoutRef := None |}.

Definition initial_world (pr : NexenPlayerProps) : World :=
  {| st := initial_state pr;
     refs := initial_refs;
     props := pr;
     configId := 0;
     timers := [];
     nextTimer := 1;
     animating := [];
     log := [] |}.

(** The effects whose dependencies differ between the render [before]
    and the current state run again, in the order they are declared. *)
Definition rerender (before : World) : Action :=
  fun w =>
    run [when (negb (Bool.eqb (paused (st before)) (paused (st w)))) effect_paused;
         when (negb (Bool.eqb (showControl (st before)) (showControl (st w)))
               || negb (Bool.eqb (fullScreen (st before)) (fullScreen (st w)))
               || negb (Bool.eqb (locked (st before)) (locked (st w)))
               || negb (Nat.eqb (configId before) (configId w)))
           effect_showControl] w.

(** First render: every effect runs once, then those whose dependencies
    the effects themselves changed. Effects that only drive child refs
    (panel [show()], tip text) or copy [trackInfo] into refs are left out. *)
Definition mount (pr : NexenPlayerProps) : World :=
  let w0 := initial_world pr in
  rerender w0
    (run [effect_paused;
          effect_showControl;
          effect_playerConfig (config pr);
          effect_playerSource (source pr);
          effect_playerPlayList (Some (default DEFAULT_PLAYLIST (playListProp pr)))]
       w0).

Inductive Input :=
| Tap (event : TapEventType) (value : option Q)
| GestureMove (event : GestureEventType) (value : Q)
| GestureEnd (event : GestureEventType) (value : Q)
| AnimationsEnd
| TimerFires (handle : nat)
| HostConfig (playerConfig : option Config)
| AspectRatioPress
| MorePress
| Rewind
| FastForward
| SkipNext
| SkipBack
| StopPress
| TogglePlayPause
| ToggleFullScreen
| RefPlay
| RefPause
| RefSetFullScreenMode (f : bool)
| VideoError (e : LoadError)
| Unmount.

Definition handle (i : Input) : Action :=
  match i with
  | Tap event value => _onTapDetected event value
  | GestureMove event value => _onGestureMove event value
  | GestureEnd event value => _onGestureEnd event value
  | AnimationsEnd => animations_end
  | TimerFires h => timer_fires h
  | HostConfig c =>
      run [fun w => set_props w
             {| source := source (props w); config := c;
                playListProp := playListProp (props w);
                onFullScreenModeUpdate := onFullScreenModeUpdate (props w);
                onPlay := onPlay (props w); onPause := onPause (props w);
                onStop := onStop (props w); onSkipNext := onSkipNext (props w);
                onSkipBack := onSkipBack (props w);
                onVolumeUpdate := onVolumeUpdate (props w);
                onBrightnessUpdate := onBrightnessUpdate (props w);
                onError := onError (props w) |};
           effect_playerConfig c]
  | AspectRatioPress => _onAspectRatioPress
  | MorePress => _onMorePress
  | Rewind => _onRewind
  | FastForward => _onFastForward
  | SkipNext => _onSkipNext
  | SkipBack => _onSkipBack
  | StopPress => handleStopPlayback
  | TogglePlayPause => _onTogglePlayPause
  | ToggleFullScreen => _onToggleFullScreen
  | RefPlay => setState (fun p => set_paused p false)
  | RefPause => setState (fun p => set_paused p true)
  | RefSetFullScreenMode f => setFullScreenMode f
  | VideoError e => _onError e
  | Unmount => unmount
  end.

(** A handler runs to completion, React re-renders, effects follow. *)
Definition step (i : Input) (w : World) : World := rerender w (handle i w).

Definition steps (inputs : list Input) (w : World) : World :=
  foldl (fun w' i => step i w') w inputs.

(** ** Further field updates *)

Definition set_locked (p : PlayerState) (v : bool) : PlayerState :=
  {| showControl := showControl p; showSpeedControl := showSpeedControl p;
     showTrackControl := showTrackControl p;
     showPlaylistControl := showPlaylistControl p;
     showMoreControl := showMoreControl p; loading := loading p; error := error p;
     locked := v; disablePlaylistAndSkip := disablePlaylistAndSkip p;
     nexenSource := nexenSource p; nexenConfig := nexenConfig p;
     fullScreen := fullScreen p; paused := paused p; trackInfo := trackInfo p;
     playList := playList p |}.

Definition set_isSeeking (r : Refs) (v : bool) : Refs :=
  {| isSeeking := v; isSliding := isSliding r; isSeekable := isSeekable r;
     gestureEnabled := gestureEnabled r; isStopped := isStopped r;
     isEnded := isEnded r; isVolumeSeekable := isVolumeSeekable r;
     showPoster := showPoster r; isFullscreen := isFullscreen r;
     controlTimeoutRef := controlTimeoutRef r |}.

Definition set_isSeekable (r : Refs) (v : bool) : Refs :=
  {| isSeeking := isSeeking r; isSliding := isSliding r; isSeekable := v;
     gestureEnabled := gestureEnabled r; isStopped := isStopped r;
     isEnded := isEnded r; isVolumeSeekable := isVolumeSeekable r;
     showPoster := showPoster r; isFullscreen := isFullscreen r;
     controlTimeoutRef := controlTimeoutRef r |}.

Definition set_isEnded (r : Refs) (v : bool) : Refs :=
  {| isSeeking := isSeeking r; isSliding := isSliding r; isSeekable := isSeekable r;
     gestureEnabled := gestureEnabled r; isStopped := isStopped r; isEnded := v;
     isVolumeSeekable := isVolumeSeekable r; showPoster := showPoster r;
     isFullscreen := isFullscreen r; controlTimeoutRef := controlTimeoutRef r |}.

Definition set_isVolumeSeekable (r : Refs) (v : bool) : Refs :=
  {| isSeeking := isSeeking r; isSliding := isSliding r; isSeekable := isSeekable r;
     gestureEnabled := gestureEnabled r; isStopped := isStopped r;
     isEnded := isEnded r; isVolumeSeekable := v; showPoster := showPoster r;
     isFullscreen := isFullscreen r; controlTimeoutRef := controlTimeoutRef r |}.

(** ** Further handlers *)

(** A handler that is not among the [Input]s, followed by the re-render
    it causes. *)
Definition after (a : Action) : Action := fun w => rerender w (a w).

(** [handleStopPlayback] as seen from a callback that was memoised in an
    earlier render: [s] is the state that render closed over. The video
    ref is read when the call is made. *)
Definition handleStopPlayback_in (s : PlayerState) : Action :=
  fun w =>
    run [setRef (fun r => set_isStopped r true);
         fun w' =>
           if paused s then
             run [when (videoRef_current (st w')) (emit (VideoSeekTolerance 0 0));
                  when (onStop (props w')) (emit (HostStop (reported_index s)))] w'
           else if isEnded (refs w') && truthy (get (nexenConfig s) "repeat") then
             run [setState (fun p => set_paused p false);
                  when (videoRef_current (st w')) (emit (VideoSeekTolerance 0 0));
                  when (onStop (props w')) (emit (HostStop (reported_index s)))] w'
           else setState (fun p => set_paused p true) w'] w.

(** [_onEnd] is memoised on [[paused, nexenConfig]]: the closure [s] has
    the current [paused] and [nexenConfig], the rest of it may be older. *)
Definition _onEnd (s : PlayerState) : Action :=
  run [setRef (fun r => set_isEnded r true); handleStopPlayback_in s].

(** [OnSeekData] *)
Record OnSeekData := { seekTime : Q; seek_currentTime : Q }.

Definition _onSeek (data : OnSeekData) : Action :=
  fun w =>
    if isStopped (refs w) && Qeq_bool (seekTime data) 0
       && Qeq_bool (seek_currentTime data) 0
    then run [setState (fun p => set_trackInfo p
                {| trackTime := 0;
                   totalTrackTime := totalTrackTime (trackInfo p);
                   cachedTrackTime := 0 |});
              setRef (fun r => set_isEnded r false);
              setRef (fun r => set_isStopped r false)] w
    else w.

(** [OnProgressData] *)
Record OnProgressData := {
  progress_currentTime : Q;
  playableDuration : Q;
  seekableDuration : Q;
}.

(** [if (showPoster)] tests the ref object, which is always there. *)
Definition _onProgress (data : OnProgressData) : Action :=
  fun w =>
    run [setRef (fun r => set_showPoster r false);
         fun w' =>
           if negb (isSeeking (refs w')) then
             setState (fun p => set_trackInfo p
               {| trackTime := progress_currentTime data;
                  totalTrackTime := seekableDuration data;
                  cachedTrackTime := playableDuration data |}) w'
           else w'] w.

Definition _onPlayPress : Action := setState (fun p => set_paused p false).

Definition _onCcPress : Action :=
  run [hideMainControl;
       setState (fun p => set_showTrackControl p true);
       setRef (fun r => set_gestureEnabled r false)].

Definition _onVideoListPress : Action :=
  run [hideMainControl;
       setState (fun p => set_showPlaylistControl p true);
       setRef (fun r => set_gestureEnabled r false)].

(** The lock slider reached its end: unlock. *)
Definition _onReachedToEnd : Action :=
  fun w =>
    run [setState (fun p => set_locked p false);
         setRef (fun r => set_isSeekable r true);
         setRef (fun r => set_gestureEnabled r true);
         when (tipViewRef_current (st w)) (emit (TipShow "解锁"))] w.

(** ** Handlers that call further host callbacks

    The props below are the optional callbacks the log has no entry
    for. A handler that may call one of them returns the calls it made
    beside the new world; the order of these calls relative to the log
    is not recorded. *)

Record MoreCallbacks := {
  onBackPress : bool;
  onMuteUpdate : bool;
  onRepeatUpdate : bool;
  onSpeedUpdate : bool;
  onPlayListItemSelect : bool;
  onScreenLockUpdate : bool;
}.

Inductive HostCall :=
| BackPress                          (* onBackPress() *)
| MuteUpdate (muted : bool)          (* onMuteUpdate(muted) *)
| RepeatUpdate (repeat : bool)       (* onRepeatUpdate(repeat) *)
| SpeedUpdate (speed : string)       (* onSpeedUpdate(speed) *)
| PlayListItemSelect (index : Z)     (* onPlayListItemSelect(index) *)
| ScreenLockUpdate (locked : bool)   (* onScreenLockUpdate(locked) *)
| LoadCall (index : JSVal)           (* onLoad(index) *)
| Airplay (source : NexenSource).    (* onAirplay(newSource) *)

Definition Handler := MoreCallbacks -> World -> World * list HostCall.

Definition called (present : bool) (c : HostCall) : list HostCall :=
  if present then [c] else [].

Definition handleMuteVideo (mute : bool) : Handler :=
  fun cb w =>
    (run [when (tipViewRef_current (st w))
            (emit (TipShow (if mute then "禁音" else "打开声音")));
          setRef (fun r => set_isVolumeSeekable r (negb mute));
          setNexenConfig (fun c => with_field c "muted" (VBool mute))] w,
     called (onMuteUpdate cb) (MuteUpdate mute)).

(** Footer volume button: [handleMuteVideo(!nexenConfig?.muted)] *)
Definition _onToggleVolume : Handler :=
  fun cb w => handleMuteVideo (negb (truthy (get (nexenConfig (st w)) "muted"))) cb w.

Definition handleRepeatVideo (repeat : bool) : Handler :=
  fun cb w =>
    (run [when (tipViewRef_current (st w))
            (emit (TipShow (if repeat then "开启重复" else "关闭重复")));
          setNexenConfig (fun c => with_field c "repeat" (VBool repeat))] w,
     called (onRepeatUpdate cb) (RepeatUpdate repeat)).

Definition handleLockScreen : Handler :=
  fun cb w =>
    (run [when (tipViewRef_current (st w)) (emit (TipShow "加锁"));
          setState (fun p => set_locked p true)] w,
     called (onScreenLockUpdate cb) (ScreenLockUpdate true)).

(** An item of the more panel was pressed; [id] is [item.id]. *)
Definition _onMoreItemPress (id : string) : Handler :=
  fun cb w =>
    let s := st w in
    if String.eqb id "lock" then
      let (w1, calls) := handleLockScreen cb (hidePanel s MorePanel w) in
      (run [setRef (fun r => set_isSeekable r false);
            setRef (fun r => set_gestureEnabled r false)] w1,
       calls)
    else if String.eqb id "speed" then
      (run [hidePanel s MorePanel;
            setState (fun p => set_showSpeedControl p true);
            setRef (fun r => set_gestureEnabled r false)] w,
       [])
    else if String.eqb id "repeat" then
      let (w1, calls) :=
        handleRepeatVideo (negb (truthy (get (nexenConfig s) "repeat"))) cb
          (hidePanel s MorePanel w) in
      (setRef (fun r => set_gestureEnabled r true) w1, calls)
    else (w, []).

(** [`${newSpeed}x 倍速`] *)
Definition _onSpeedUpdate (value : string) : Handler :=
  fun cb w =>
    (run [when (tipViewRef_current (st w)) (emit (TipShow (value ++ "x 倍速")));
          setNexenConfig (fun c => with_field c "playbackSpeed" (VStr value))] w,
     called (onSpeedUpdate cb) (SpeedUpdate value)).

Definition _onPlaylistItemPress (index : Z) : Handler :=
  fun cb w =>
    (setCurrentIndex (Some index) w,
     called (onPlayListItemSelect cb) (PlayListItemSelect index)).

(** A [Handler] followed by the re-render it causes. *)
Definition pressed (h : Handler) (cb : MoreCallbacks) : Action :=
  after (fun w => (h cb w).1).

(** [_onBackPress] is memoised with no dependencies: [s0] is the state of
    the first render, which it closed over; the full-screen mode it reads
    from the ref. Its result is what it returns to the back handler. *)
Definition _onBackPress (s0 : PlayerState) (cb : MoreCallbacks) (w : World)
    : World * list HostCall * bool :=
  if isFullscreen (refs w) then
    (run [setState (fun p => set_fullScreen p false);
          emit ShowSystemBar;
          when (onFullScreenModeUpdate (props w))
            (emit (HostFullScreenModeUpdate false (reported_index s0)))] w,
     [], true)
  else (w, called (onBackPress cb) BackPress, true).

(** ** The overlay

    Which children the render places over the video, for the source
    [src] it plays. [posterDisabled.current] is assigned during the
    render from [newSource.poster]. *)

Definition posterDisabled (src : NexenSource) : bool :=
  match poster src with
  | Some u => String.eqb u ""
  | None => true
  end.

Record Overlay := {
  posterView : bool;
  headerControl : bool;
  footerControl : bool;
  lineSeekBar : bool;
  moreControl : bool;
  speedControl : bool;
  trackControl : bool;
  playlistControl : bool;
  playButton : bool;
  loader : bool;
  tipView : bool;
}.

Definition render_overlay (s : PlayerState) (r : Refs) (src : NexenSource) : Overlay :=
  {| posterView := negb (posterDisabled src) && showPoster r && negb (error s);
     headerControl := showControl s;
     footerControl := showControl s;
     lineSeekBar := negb (showControl s) && negb (showMoreControl s)
                    && negb (showSpeedControl s) && negb (showTrackControl s);
     moreControl := showMoreControl s;
     speedControl := showSpeedControl s;
     trackControl := showTrackControl s;
     playlistControl := showPlaylistControl s;
     playButton := paused s && negb (showControl s) && negb (showMoreControl s)
                   && negb (showSpeedControl s) && negb (showTrackControl s)
                   && negb (showPlaylistControl s) && negb (locked s)
                   && negb (loading s) && negb (error s)
                   && negb (truthy (get (nexenConfig s) "disableOnScreenPlayButton"));
     loader := negb (error s) && loading s;
     tipView := negb (strict_eq (get (nexenConfig s) "layoutMode") (VStr "basic")) |}.

(** ** The playlist panel (components/PlaylistControl.tsx) *)

Definition DEFAULT_ITEM_IMAGE : string :=
  "https://console.dagouzhi.com/config/assets/rooms_icon.png".

(** What [renderPlayListItem] decides for one item. *)
Record PlaylistItemView := {
  itemOn : bool;         (* styles.itemOn is applied *)
  imageUri : string;     (* <Image source={{ uri }} /> *)
  titleText : option string;
  playIcon : bool;       (* <IconPlayCircle /> is drawn *)
}.

(** [index === playlistIndex] with [playlistIndex?: number] *)
Definition is_playlistIndex (playlistIndex : option Z) (index : nat) : bool :=
  match playlistIndex with
  | Some i => i =? Z.of_nat index
  | None => false
  end.

Definition renderPlayListItem
    (playlistIndex : option Z) (index : nat) (item : NexenSource) : PlaylistItemView :=
  {| itemOn := is_playlistIndex playlistIndex index;
     imageUri := match poster item with
                 | Some u => if String.eqb u "" then DEFAULT_ITEM_IMAGE else u
                 | None => DEFAULT_ITEM_IMAGE
                 end;
     titleText := title item;
     playIcon := negb (is_playlistIndex playlistIndex index) |}.

(** The items the [FlatList] renders; no [data], no items. *)
Definition PlaylistControl_items
    (playlist : option (list NexenSource)) (playlistIndex : option Z)
    : list PlaylistItemView :=
  imap (renderPlayListItem playlistIndex) (default [] playlist).

(** The panel as the player mounts it:
    [playlist={playList?.items} playlistIndex={playList?.currentIndex}]. *)
Definition playlist_panel (s : PlayerState) : list PlaylistItemView :=
  PlaylistControl_items (playList s ≫= items) (playList s ≫= currentIndex).

(** ** The remaining handlers

    State that this model does not hold ([dimension], the track lists of
    the dropdowns, the selected tracks of [nexenSource],
    [appState.current]) is left out together with the writes to it.

    The seek bars of the footer drive the tip view with updates that are
    not [TipShow] calls; a handler that makes one returns it beside the
    new world, like the host calls above. The time text is built by
    [getTimeTipText], which is outside these sources: the update carries
    the two numbers it is built from. *)

(** [TipTimeShow]: [{ showTip: true, tipText: getTimeTipText(value, total),
    autoHide: false }]; [TipTimeText]: [{ tipText: getTimeTipText(value,
    total) }]; [TipVolumeShow]: [{ showTip: true, tipText: `音量 :
    ${value}%`, autoHide: false }]; [TipHide]: [{ showTip: false,
    autoHide: true }]. *)
Inductive TipUpdate :=
| TipTimeShow (value total : Q)
| TipTimeText (value total : Q)
| TipVolumeShow (value : Q)
| TipHide.

(** [tipViewRef.current?.updateState(u)] *)
Definition tip (present : bool) (u : TipUpdate) : list TipUpdate :=
  if present then [u] else [].

Definition set_loading (p : PlayerState) (v : bool) : PlayerState :=
  {| showControl := showControl p; showSpeedControl := showSpeedControl p;
     showTrackControl := showTrackControl p;
     showPlaylistControl := showPlaylistControl p;
     showMoreControl := showMoreControl p; loading := v; error := error p;
     locked := locked p; disablePlaylistAndSkip := disablePlaylistAndSkip p;
     nexenSource := nexenSource p; nexenConfig := nexenConfig p;
     fullScreen := fullScreen p; paused := paused p; trackInfo := trackInfo p;
     playList := playList p |}.

Definition set_isSliding (r : Refs) (v : bool) : Refs :=
  {| isSeeking := isSeeking r; isSliding := v; isSeekable := isSeekable r;
     gestureEnabled := gestureEnabled r; isStopped := isStopped r;
     isEnded := isEnded r; isVolumeSeekable := isVolumeSeekable r;
     showPoster := showPoster r; isFullscreen := isFullscreen r;
     controlTimeoutRef := controlTimeoutRef r |}.

Definition _onLoadStart : Action :=
  run [setState (fun p => set_loading p true);
       setRef (fun r => set_showPoster r true)].

(** [OnLoadData]; its [textTracks] and [audioTracks] only reach state
    outside this model. *)
Record OnLoadData := { load_currentTime : Q; duration : Q }.

(** [_onLoad] is memoised with no dependencies: [nexenConfig] and
    [playList] are those of the first render, [s0]. [handleTextTracks]
    and [handleAudioTracks] set the dropdowns' track lists and the
    selected tracks of [nexenSource]. *)
Definition _onLoad (s0 : PlayerState) (onLoad : bool) (data : OnLoadData)
    : World -> World * list HostCall :=
  fun w =>
    (run [setState (fun p => set_loading p false);
          setState (fun p => set_error p false);
          when (truthy (get (nexenConfig s0) "autoPlay"))
            (setState (fun p => set_paused p false));
          setState (fun p => set_trackInfo p
            {| trackTime := load_currentTime data;
               totalTrackTime := duration data;
               cachedTrackTime := cachedTrackTime (trackInfo p) |});
          setRef (fun r => set_isSeekable r true);
          setRef (fun r => set_gestureEnabled r true);
          setRef (fun r => set_isStopped r false)] w,
     called onLoad (LoadCall (reported_index s0))).

(** [onAirplay?.(newSource)]; the button exists only in a render that
    found its source. *)
Definition _onAirplayPress (onAirplay : bool) : World -> World * list HostCall :=
  fun w =>
    (w, match newSource (st w) with
        | Some src => called onAirplay (Airplay src)
        | None => []
        end).

(** [setNexenSource(prev => ({ ...prev, selectedTextTrack }))] and its
    audio twin: the fields held here are copied. *)
Definition _onTextTrackSelect : Action :=
  setState (fun p => set_nexenSource p (nexenSource p)).

Definition _onAudioTrackSelect : Action :=
  setState (fun p => set_nexenSource p (nexenSource p)).

(** The track seek bar of the footer. *)
Definition _onSeekStart (value total : Q) : World -> World * list TipUpdate :=
  fun w =>
    (setRef (fun r => set_isSeeking r true) w,
     tip (tipViewRef_current (st w)) (TipTimeShow value total)).

Definition _onSeekUpdate (value total : Q) : World -> World * list TipUpdate :=
  fun w =>
    (w, if isSeeking (refs w)
        then tip (tipViewRef_current (st w)) (TipTimeText value total)
        else []).

Definition _onSeekEnd (value : Q) : World -> World * list TipUpdate :=
  fun w =>
    (run [setRef (fun r => set_isSeeking r false);
          when (videoRef_current (st w)) (emit (VideoSeek value));
          setTrackTime value] w,
     tip (tipViewRef_current (st w)) TipHide).

(** The volume seek bar of the footer. *)
Definition _onVolumeSeekStart (value total : Q) : World -> World * list TipUpdate :=
  fun w =>
    (run [when (videoRef_current (st w)) (emit (VideoSetNativeVolume (value / 100)));
          when (onVolumeUpdate (props w)) (emit (HostVolumeUpdate value))] w,
     tip (tipViewRef_current (st w)) (TipVolumeShow value)).

Definition _onVolumeSeekUpdate (value total : Q) : World -> World * list TipUpdate :=
  fun w =>
    (run [when (videoRef_current (st w)) (emit (VideoSetNativeVolume (value / 100)));
          when (onVolumeUpdate (props w)) (emit (HostVolumeUpdate value))] w,
     tip (tipViewRef_current (st w)) (TipVolumeShow value)).

Definition _onVolumeSeekEnd (value : Q) : World -> World * list TipUpdate :=
  fun w =>
    (run [setNexenConfig (fun c => with_field c "volume" (VNum value));
          when (videoRef_current (st w)) (emit (VideoSetNativeVolume (value / 100)));
          when (onVolumeUpdate (props w)) (emit (HostVolumeUpdate value))] w,
     tip (tipViewRef_current (st w)) TipHide).

(** The lock slider. *)
Definition _onSlideStart : Action := setRef (fun r => set_isSliding r true).
Definition _onSlideEnd : Action := setRef (fun r => set_isSliding r false).
Definition _onReachedToStart : Action := fun w => w.

(** [setDimension] is all it does. *)
Definition _onLayoutChange : Action := fun w => w.

(** The app-state listener installed at mount. [was_away] says whether
    [appState.current] matched [/inactive|background/] when the event
    arrived. *)
Definition onAppStateChange (was_away : bool) (nextAppState : string) : Action :=
  fun w =>
    when (was_away && String.eqb nextAppState "active" && isFullscreen (refs w))
      (emit HideSystemBar) w.

(** The host passes a new [source] or [playList] prop: the effect on it
    runs. An omitted [playList] is replaced by [defaultProps]. *)
Definition host_source (src : NexenSource) : Action :=
  run [fun w => set_props w
         {| source := src; config := config (props w);
            playListProp := playListProp (props w);
            onFullScreenModeUpdate := onFullScreenModeUpdate (props w);
            onPlay := onPlay (props w); onPause := onPause (props w);
            onStop := onStop (props w); onSkipNext := onSkipNext (props w);
            onSkipBack := onSkipBack (props w);
            onVolumeUpdate := onVolumeUpdate (props w);
            onBrightnessUpdate := onBrightnessUpdate (props w);
            onError := onError (props w) |};
       effect_playerSource src].

Definition host_playList (l : option PlayList) : Action :=
  run [fun w => set_props w
         {| source := source (props w); config := config (props w);
            playListProp := l;
            onFullScreenModeUpdate := onFullScreenModeUpdate (props w);
            onPlay := onPlay (props w); onPause := onPause (props w);
            onStop := onStop (props w); onSkipNext := onSkipNext (props w);
            onSkipBack := onSkipBack (props w);
            onVolumeUpdate := onVolumeUpdate (props w);
            onBrightnessUpdate := onBrightnessUpdate (props w);
            onError := onError (props w) |};
       effect_playerPlayList (Some (default DEFAULT_PLAYLIST l))].

(** ** Sessions

    An input through which the host does not ask for auto-hide: every
    input but a config update whose [controlHideMode] is 'auto'. *)
Definition keeps_touch (i : Input) : bool :=
  match i with
  | HostConfig c => negb (strict_eq (get (default ∅ c) "controlHideMode") (VStr "auto"))
  | _ => true
  end.

(** Everything that can happen to a mounted player: the inputs above,
    the hardware back button, the events of the video element, the
    callbacks of the header, the footer, the panels and the lock slider,
    a layout pass, an app-state change, and a new [source] or [playList]
    prop. *)
Inductive Turn :=
| OfInput (i : Input)
| BackPressed                                   (* BackHandler: _onBackPress *)
| LoadStart                                     (* <Video onLoadStart> *)
| Loaded (data : OnLoadData)                    (* <Video onLoad> *)
| Progress (data : OnProgressData)              (* <Video onProgress> *)
| Seeked (data : OnSeekData)                    (* <Video onSeek> *)
| Ended                                         (* <Video onEnd> *)
| PlayPress                                     (* <PlayButton onPlayPress> *)
| CcPress
| VideoListPress
| VolumePress
| AirplayPress
| MoreItemPress (id : string)                   (* <MoreControl onItemPress> *)
| SpeedChange (value : string)                  (* <SpeedControl onSpeedChange> *)
| PlaylistItemPress (index : Z)                 (* <PlaylistControl onPlayListItemPress> *)
| TextTrackSelect
| AudioTrackSelect
| SeekStart (value total : Q)
| SeekUpdate (value total : Q)
| SeekEnd (value : Q)
| VolumeSeekStart (value total : Q)
| VolumeSeekUpdate (value total : Q)
| VolumeSeekEnd (value : Q)
| SlideStart
| SlideEnd
| ReachedToStart
| ReachedToEnd
| LayoutChange
| AppStateChange (was_away : bool) (nextAppState : string)
| HostSource (src : NexenSource)
| HostPlayList (l : option PlayList).

(** The optional callbacks of the host that the props record above does
    not list. *)
Record HostCallbacks := {
  more : MoreCallbacks;
  onLoad : bool;
  onAirplay : bool;
}.

(** The handler behind a turn. [pr] are the props of the first render,
    whose state the callbacks memoised without dependencies keep; [c] is
    the state held by the closure of [_onEnd]. *)
Definition act (pr : NexenPlayerProps) (hc : HostCallbacks) (c : PlayerState)
    (t : Turn) : Action :=
  let s0 := initial_state pr in
  match t with
  | OfInput i => handle i
  | BackPressed => fun w => (_onBackPress s0 (more hc) w).1.1
  | LoadStart => _onLoadStart
  | Loaded data => fun w => (_onLoad s0 (onLoad hc) data w).1
  | Progress data => _onProgress data
  | Seeked data => _onSeek data
  | Ended => _onEnd c
  | PlayPress => _onPlayPress
  | CcPress => _onCcPress
  | VideoListPress => _onVideoListPress
  | VolumePress => fun w => (_onToggleVolume (more hc) w).1
  | AirplayPress => fun w => (_onAirplayPress (onAirplay hc) w).1
  | MoreItemPress id => fun w => (_onMoreItemPress id (more hc) w).1
  | SpeedChange value => fun w => (_onSpeedUpdate value (more hc) w).1
  | PlaylistItemPress index => fun w => (_onPlaylistItemPress index (more hc) w).1
  | TextTrackSelect => _onTextTrackSelect
  | AudioTrackSelect => _onAudioTrackSelect
  | SeekStart value total => fun w => (_onSeekStart value total w).1
  | SeekUpdate value total => fun w => (_onSeekUpdate value total w).1
  | SeekEnd value => fun w => (_onSeekEnd value w).1
  | VolumeSeekStart value total => fun w => (_onVolumeSeekStart value total w).1
  | VolumeSeekUpdate value total => fun w => (_onVolumeSeekUpdate value total w).1
  | VolumeSeekEnd value => fun w => (_onVolumeSeekEnd value w).1
  | SlideStart => _onSlideStart
  | SlideEnd => _onSlideEnd
  | ReachedToStart => _onReachedToStart
  | ReachedToEnd => _onReachedToEnd
  | LayoutChange => _onLayoutChange
  | AppStateChange was_away nextAppState => onAppStateChange was_away nextAppState
  | HostSource src => host_source src
  | HostPlayList l => host_playList l
  end.

(** A mounted player between two turns: its world, and the state that
    the current [_onEnd] closed over. [_onEnd] is memoised on
    [[paused, nexenConfig]], so a render in which one of the two differs
    from the render before replaces the closure. *)
Record Running := {
  world : World;
  onEnd_closure : PlayerState;
}.

Definition turn (pr : NexenPlayerProps) (hc : HostCallbacks) (t : Turn) (x : Running)
    : Running :=
  let w := world x in
  let w' := after (act pr hc (onEnd_closure x) t) w in
  {| world := w';
     onEnd_closure :=
       if Bool.eqb (paused (st w)) (paused (st w')) && Nat.eqb (configId w) (configId w')
       then onEnd_closure x
       else st w' |}.

Definition started (pr : NexenPlayerProps) : Running :=
  {| world := mount pr; onEnd_closure := st (mount pr) |}.

Definition resume (pr : NexenPlayerProps) (hc : HostCallbacks) (ts : list Turn)
    (x : Running) : Running :=
  foldl (fun x' t => turn pr hc t x') x ts.

Definition play (pr : NexenPlayerProps) (hc : HostCallbacks) (ts : list Turn) : Running :=
  resume pr hc ts (started pr).

(** A turn through which the host does not ask for auto-hide. *)
Definition turn_keeps_touch (t : Turn) : bool :=
  match t with
  | OfInput i => keeps_touch i
  | _ => true
  end.

(** No auto-hide timer exists, none was ever created, and the config
    does not ask for one. *)
Definition never_timed (w : World) : Prop :=
  timers w = []
  /\ controlTimeoutRef (refs w) = None
  /\ nextTimer w = 1%nat
  /\ strict_eq (get (nexenConfig (st w)) "controlHideMode") (VStr "auto") = false.

(** The video element reports that its source has loaded. *)
Definition is_load (t : Turn) : bool :=
  match t with
  | Loaded _ => true
  | _ => false
  end.

(** [index?: number] *)
Definition optional_number (v : JSVal) : bool :=
  match v with
  | VUndef | VNum _ => true
  | _ => false
  end.

(** ** Reading the log *)

(** What [cb?.(...)] or [ref.current?.f(...)] adds to the log. *)
Definition opt (present : bool) (e : Event) : list Event :=
  if present then [e] else [].

(** ** Sample hosts and sessions *)

Definition demo_source : NexenSource :=
  {| uri := "https://example.org/movie.mp4"; title := Some "Movie"; poster := None |}.

(** A host that passes every callback and the given config. *)
Definition demo_props (c : option Config) : NexenPlayerProps :=
  {| source := demo_source;
     config := c;
     playListProp := None;
     onFullScreenModeUpdate := true;
     onPlay := true;
     onPause := true;
     onStop := true;
     onSkipNext := true;
     onSkipBack := true;
     onVolumeUpdate := true;
     onBrightnessUpdate := true;
     onError := true |}.

Definition demo_playlist : PlayList :=
  {| items := Some [demo_source; demo_source; demo_source]; currentIndex := Some 1 |}.

Definition demo_playlist_props : NexenPlayerProps :=
  {| source := demo_source;
     config := None;
     playListProp := Some demo_playlist;
     onFullScreenModeUpdate := true;
     onPlay := true;
     onPause := true;
     onStop := true;
     onSkipNext := true;
     onSkipBack := true;
     onVolumeUpdate := true;
     onBrightnessUpdate := true;
     onError := true |}.

(** A host that also passes every callback of the second list. *)
Definition demo_callbacks : HostCallbacks :=
  {| more := {| onBackPress := true; onMuteUpdate := true; onRepeatUpdate := true;
                onSpeedUpdate := true; onPlayListItemSelect := true;
                onScreenLockUpdate := true |};
     onLoad := true;
     onAirplay := true |}.

Definition auto_config : Config := {[ "controlHideMode" := VStr "auto" ]}.
Definition touch_config : Config := {[ "controlHideMode" := VStr "touch" ]}.

(** Mounted with defaults; the user taps (controls appear), opens the
    "more" panel from the header, and the hide animation completes. *)
Definition more_panel_open : World :=
  steps [Tap SINGLE_TAP None; MorePress; AnimationsEnd] (mount (demo_props None)).

(** Mounted in auto mode; the user taps and the controls appear. *)
Definition controls_shown_auto : World :=
  steps [Tap SINGLE_TAP None] (mount (demo_props (Some auto_config))).



(** ... or instead the user presses the aspect-ratio button in the
    header, then taps, and the hide animation completes. *)
Definition hidden_after_resize : World :=
  steps [AspectRatioPress; Tap SINGLE_TAP None; AnimationsEnd] controls_shown_auto.

(** ** Readings that the code does not bear out *)

(** A single tap flips the visibility of the main controls, at once or
    when the hide animation has completed. *)
Definition single_tap_toggles (w : World) : Prop :=
  showControl (st (step (Tap SINGLE_TAP None) w)) = negb (showControl (st w))
  \/ showControl (st (steps [Tap SINGLE_TAP None; AnimationsEnd] w))
     = negb (showControl (st w)).

(** No retry behaviour is configured on the rendered video element. *)
Definition no_retry_configured (s : PlayerState) (src : NexenSource) : Prop :=
  forall p, video_element s src = Some p -> Video.minLoadRetryCount p = None.


(** * Properties *)

Ltac unfold_handlers :=
  unfold _onGestureEnd, _onGestureMove, _onError, _onRewind, _onFastForward,
    _onSkipNext, _onSkipBack, setFullScreenMode, setTrackTime, setNexenConfig,
    setCurrentIndex, setState, setRef, run, with_field; simpl.

Ltac solve_log :=
  simpl; rewrite <- ?app_assoc; simpl; rewrite ?app_nil_r; reflexivity.

Ltac case_all :=
  repeat match goal with
  | |- context [if ?b then _ else _] => destruct b
  | |- context [match ?x with _ => _ end] => destruct x
  end.

Lemma log_when_emit (b : bool) (e : Event) (w : World) :
  log (when b (emit e) w) = log w ++ opt b e.
Proof. destruct b; simpl; [reflexivity | by rewrite app_nil_r]. Qed.

Lemma when_emit_frame (b : bool) (e : Event) (w : World) :
  st (when b (emit e) w) = st w
  /\ refs (when b (emit e) w) = refs w
  /\ props (when b (emit e) w) = props w
  /\ configId (when b (emit e) w) = configId w
  /\ timers (when b (emit e) w) = timers w
  /\ nextTimer (when b (emit e) w) = nextTimer w
  /\ animating (when b (emit e) w) = animating w.
Proof. destruct b; repeat split. Qed.

(** ** Drag gestures *)

Lemma get_insert_eq (c : Config) (k : string) (v : JSVal) : get (<[k := v]> c) k = v.
Proof. unfold get. by rewrite lookup_insert_eq. Qed.

(** C1. The end of a drag with value [v]:
    VOLUME calls [setNativeProps({volume: v / 100})] on the video
    element, stores [v] under [volume] in the config and calls
    [onVolumeUpdate(v)]; BRIGHTNESS stores [v] under [brightness], calls
    [setBrightness(v / 100)] and [onBrightnessUpdate(v)]; TRACK seeks the
    video to [v] and sets [trackTime] to [v]. Calls on the video element
    and the header happen when these are mounted, callbacks when the host
    passed them, each exactly once and with nothing else logged; every
    other config field keeps its value, and the video element rendered
    from the new state has [volume = v / 100]. *)
Theorem gesture_end_spec (w : World) (v : Q) :
  (let w' := _onGestureEnd VOLUME v w in
     log w' = log w
                ++ opt (headerControlRef_current (st w)) (HeaderVolumeIcon v)
                ++ opt (videoRef_current (st w)) (VideoSetNativeVolume (v / 100))
                ++ opt (onVolumeUpdate (props w)) (HostVolumeUpdate v)
     /\ get (nexenConfig (st w')) "volume" = VNum v
     /\ (forall k, k ≠ "volume" ->
           nexenConfig (st w') !! k = nexenConfig (st w) !! k)
     /\ (forall src p, video_element (st w') src = Some p ->
           Video.volume p = Some (v / 100)%Q))
  /\ (let w' := _onGestureEnd BRIGHTNESS v w in
     log w' = log w
                ++ opt (headerControlRef_current (st w)) (HeaderBrightnessIcon v)
                ++ [SetBrightness (v / 100)]
                ++ opt (onBrightnessUpdate (props w)) (HostBrightnessUpdate v)
     /\ get (nexenConfig (st w')) "brightness" = VNum v
     /\ (forall k, k ≠ "brightness" ->
           nexenConfig (st w') !! k = nexenConfig (st w) !! k))
  /\ (let w' := _onGestureEnd TRACK v w in
     log w' = log w ++ opt (videoRef_current (st w)) (VideoSeek v)
     /\ trackTime (trackInfo (st w')) = v
     /\ nexenConfig (st w') = nexenConfig (st w)).
Proof.
  split; [split; [|split; [|split]] | split; (split; [|split])].
  - unfold_handlers. unfold headerControlRef_current.
    destruct (showControl (st w)), (videoRef_current (st w)),
      (onVolumeUpdate (props w)); solve_log.
  - unfold_handlers. unfold get.
    destruct (headerControlRef_current (st w)), (videoRef_current (st w)),
      (onVolumeUpdate (props w)); simpl; by rewrite lookup_insert_eq.
  - intros k Hk. unfold_handlers.
    destruct (headerControlRef_current (st w)), (videoRef_current (st w)),
      (onVolumeUpdate (props w)); simpl; by rewrite lookup_insert_ne.
  - intros src p.
    assert (E : nexenConfig (st (_onGestureEnd VOLUME v w))
                = <["volume" := VNum v]> (nexenConfig (st w))).
    { unfold_handlers.
      destruct (headerControlRef_current (st w)), (videoRef_current (st w)),
        (onVolumeUpdate (props w)); reflexivity. }
    unfold video_element. rewrite E, get_insert_eq.
    destruct (truthy _); [destruct (strict_eq _ _)|]; intros [= <-]; reflexivity.
  - unfold_handlers. unfold headerControlRef_current.
    destruct (showControl (st w)), (onBrightnessUpdate (props w)); solve_log.
  - unfold_handlers. unfold get.
    destruct (headerControlRef_current (st w)), (onBrightnessUpdate (props w));
      simpl; by rewrite lookup_insert_eq.
  - intros k Hk. unfold_handlers.
    destruct (headerControlRef_current (st w)), (onBrightnessUpdate (props w));
      simpl; by rewrite lookup_insert_ne.
  - unfold_handlers. destruct (videoRef_current (st w)); solve_log.
  - unfold_handlers. destruct (videoRef_current (st w)); reflexivity.
  - unfold_handlers. destruct (videoRef_current (st w)); reflexivity.
Qed.

(** ** Re-rendering *)

(** No effect runs when none of the dependencies moved. *)
Lemma rerender_unchanged (before w : World) :
  paused (st before) = paused (st w) ->
  showControl (st before) = showControl (st w) ->
  fullScreen (st before) = fullScreen (st w) ->
  locked (st before) = locked (st w) ->
  configId before = configId w ->
  rerender before w = w.
Proof.
  intros Hp Hs Hf Hl Hc. unfold rerender, run. simpl.
  rewrite Hp, Hs, Hf, Hl, Hc, !Bool.eqb_reflx, Nat.eqb_refl. reflexivity.
Qed.

(** Effects leave the React state alone: they write refs, timers and
    the log only. *)
Lemma effect_paused_st (w : World) : st (effect_paused w) = st w.
Proof.
  unfold effect_paused, run, setRef. simpl.
  destruct (paused (st w)); simpl.
  - destruct (isStopped (refs w)), (videoRef_current (st w)), (onStop (props w)),
      (onPause (props w)); reflexivity.
  - destruct (onPlay (props w)); reflexivity.
Qed.

Lemma effect_showControl_st (w : World) : st (effect_showControl w) = st w.
Proof.
  unfold effect_showControl, run, setRef, setControlTimeout, clearControlTimeout,
    clearTimeout, run, headerControlRef_current. simpl.
  destruct (showControl (st w)),
    (strict_eq (get (nexenConfig (st w)) "controlHideMode") (VStr "auto")),
    (strict_eq (get (nexenConfig (st w)) "layoutMode") (VStr "advanced"));
    simpl; try reflexivity;
    destruct (controlTimeoutRef (refs w)); reflexivity.
Qed.

Lemma rerender_st (before w : World) : st (rerender before w) = st w.
Proof.
  unfold rerender, run. simpl.
  repeat match goal with
  | |- context [when ?b _ _] => destruct b; simpl
  end; rewrite ?effect_showControl_st, ?effect_paused_st; reflexivity.
Qed.

Lemma step_st (i : Input) (w : World) : st (step i w) = st (handle i w).
Proof. apply rerender_st. Qed.

(** ** Load errors *)

Lemma step_video_error (w : World) (e : LoadError) :
  step (VideoError e) w
  = when (onError (props w)) (emit (HostError (errorString e)))
      (set_st w (set_error (st w) true)).
Proof.
  unfold step, handle.
  rewrite rerender_unchanged;
    unfold_handlers; destruct (onError (props w)); reflexivity.
Qed.

(** C3. [_onError] sets [error] to [true] and calls [onError] (when the
    host passed one) with [error.error.errorString]; no other state, ref,
    timer or animation changes, also after the re-render that follows. *)
Theorem on_error_spec (w : World) (e : LoadError) :
  let w' := step (VideoError e) w in
  error (st w') = true
  /\ log w' = log w ++ opt (onError (props w)) (HostError (errorString e))
  /\ st w' = set_error (st w) true
  /\ refs w' = refs w
  /\ props w' = props w
  /\ configId w' = configId w
  /\ timers w' = timers w
  /\ nextTimer w' = nextTimer w
  /\ animating w' = animating w.
Proof.
  simpl. rewrite step_video_error.
  destruct (onError (props w)); simpl; rewrite ?app_nil_r; repeat split.
Qed.

(** ** Rewind and fast-forward *)

(** C10. Rewind seeks to, and displays, [trackTime - 10] whatever the
    value: from [trackTime < 10] the requested time is negative.
    Fast-forward uses [trackTime + 10], also past [totalTrackTime]. *)
Theorem rewind_forward_unclamped (w : World) :
  let t := trackTime (trackInfo (st w)) in
  (let w' := _onRewind w in
     trackTime (trackInfo (st w')) = (t - 10)%Q
     /\ log w' = log w ++ opt (videoRef_current (st w)) (VideoSeek (t - 10))
     /\ ((t < 10)%Q -> (trackTime (trackInfo (st w')) < 0)%Q))
  /\ (let w' := _onFastForward w in
     trackTime (trackInfo (st w')) = (t + 10)%Q
     /\ log w' = log w ++ opt (videoRef_current (st w)) (VideoSeek (t + 10))
     /\ totalTrackTime (trackInfo (st w')) = totalTrackTime (trackInfo (st w))
     /\ ((totalTrackTime (trackInfo (st w)) < t + 10)%Q ->
         (totalTrackTime (trackInfo (st w')) < trackTime (trackInfo (st w')))%Q)).
Proof.
  unfold _onRewind, _onFastForward, FORWARD_OR_REWIND_DURATION, setTrackTime,
    setState, run.
  destruct (videoRef_current (st w)); simpl; rewrite ?app_nil_r;
    (split; [split; [|split] | split; [|split; [|split]]]);
    try reflexivity; intros H; lra.
Qed.

(** ** Playlist navigation *)

(** C8. With [0 <= currentIndex <= items.length - 1], skip-next moves to
    [currentIndex + 1] exactly when [currentIndex < items.length - 1] and
    skip-back to [currentIndex - 1] exactly when [currentIndex > 0]; the
    index stays within the bound, the items are untouched, and
    [onSkipNext] / [onSkipBack] is called, with the new index, exactly
    when the index moved. *)
Theorem skip_preserves_bounds
    (w : World) (l : PlayList) (i : Z) (its : list NexenSource) :
  playList (st w) = Some l ->
  currentIndex l = Some i ->
  items l = Some its ->
  0 <= i <= Z.of_nat (length its) - 1 ->
  (let w' := step SkipNext w in
   let moved := i <? Z.of_nat (length its) - 1 in
   let i' := if moved then i + 1 else i in
     playList (st w') = Some {| items := Some its; currentIndex := Some i' |}
     /\ 0 <= i' <= Z.of_nat (length its) - 1
     /\ log w' = log w ++ (if moved then opt (onSkipNext (props w)) (HostSkipNext i')
                           else []))
  /\ (let w' := step SkipBack w in
   let moved := 0 <? i in
   let i' := if moved then i - 1 else i in
     playList (st w') = Some {| items := Some its; currentIndex := Some i' |}
     /\ 0 <= i' <= Z.of_nat (length its) - 1
     /\ log w' = log w ++ (if moved then opt (onSkipBack (props w)) (HostSkipBack i')
                           else [])).
Proof.
  intros Hl Hi Hits Hb. destruct l as [its0 i0]. simpl in Hi, Hits. subst its0 i0.
  unfold step, handle; split.
  - rewrite rerender_unchanged; unfold _onSkipNext; rewrite Hl; simpl;
      destruct (i <? Z.of_nat (length its) - 1) eqn:E;
      unfold setCurrentIndex, setState, run; simpl;
      try destruct (onSkipNext (props w)); simpl; rewrite ?Hl, ?app_nil_r;
      try reflexivity.
    all: repeat split; try reflexivity; try lia.
    all: apply Z.ltb_lt in E; lia.
  - rewrite rerender_unchanged; unfold _onSkipBack; rewrite Hl; simpl;
      destruct (0 <? i) eqn:E;
      unfold setCurrentIndex, setState, run; simpl;
      try destruct (onSkipBack (props w)); simpl; rewrite ?Hl, ?app_nil_r;
      try reflexivity.
    all: repeat split; try reflexivity; try lia.
    all: apply Z.ltb_lt in E; lia.
Qed.

(** ** Aspect ratio *)

Lemma aspect_ratio_press_config (w : World) :
  nexenConfig (st (step AspectRatioPress w))
  = <["resizeMode" :=
        let i := indexOf RESIZE_MODE_VALUES (get (nexenConfig (st w)) "resizeMode") in
        if i <? 2 then at_index RESIZE_MODE_VALUES (i + 1)
        else at_index RESIZE_MODE_VALUES 0]> (nexenConfig (st w)).
Proof.
  rewrite step_st. unfold handle, _onAspectRatioPress, handleResizeMode.
  change (Z.of_nat (length RESIZE_MODE_VALUES) - 1) with 2.
  destruct (indexOf RESIZE_MODE_VALUES (get (nexenConfig (st w)) "resizeMode") <? 2);
    reflexivity.
Qed.

(** C9. The aspect-ratio button takes [resizeMode] from contain to cover,
    from cover to stretch and from stretch to contain, so three presses
    starting at any of the three give back the config they started from. *)
Theorem resize_mode_cycles (w : World) :
  let mode := fun w => get (nexenConfig (st w)) "resizeMode" in
  (mode w = VStr "contain" -> mode (step AspectRatioPress w) = VStr "cover")
  /\ (mode w = VStr "cover" -> mode (step AspectRatioPress w) = VStr "stretch")
  /\ (mode w = VStr "stretch" -> mode (step AspectRatioPress w) = VStr "contain")
  /\ (mode w ∈ RESIZE_MODE_VALUES ->
      nexenConfig (st (steps [AspectRatioPress; AspectRatioPress; AspectRatioPress] w))
      = nexenConfig (st w)).
Proof.
  cbv beta zeta. split; [|split; [|split]].
  1-3: intros H; rewrite aspect_ratio_press_config, get_insert_eq, H; reflexivity.
  intros H. unfold steps. cbn [foldl].
  rewrite !aspect_ratio_press_config, !get_insert_eq, !insert_insert_eq.
  apply insert_id.
  assert (Hm : get (nexenConfig (st w)) "resizeMode" = VStr "contain"
               \/ get (nexenConfig (st w)) "resizeMode" = VStr "cover"
               \/ get (nexenConfig (st w)) "resizeMode" = VStr "stretch").
  { unfold RESIZE_MODE_VALUES in H.
    apply elem_of_cons in H as [H|H]; [by left|].
    apply elem_of_cons in H as [H|H]; [by right; left|].
    apply elem_of_cons in H as [H|H]; [by right; right|].
    by apply elem_of_nil in H. }
  unfold get in *.
  destruct (nexenConfig (st w) !! "resizeMode") as [v|] eqn:E; simpl in *.
  - destruct Hm as [-> | [-> | ->]]; reflexivity.
  - destruct Hm as [Hm | [Hm | Hm]]; discriminate.
Qed.

(** ** The imperative handle *)

(** C6. The handle has the keys play, pause, stop, skipNext, skipBack and
    setFullScreenMode and no other. [play] sets [paused] to [false],
    [pause] sets it to [true]; [setFullScreenMode(f)] sets [fullScreen]
    to [f] and calls [onFullScreenModeUpdate(f, index)], where [index] is
    the config's [index] in optimize mode and the playlist's
    [currentIndex] otherwise. *)
Theorem imperative_handle_spec :
  NexenPlayerRef.*1
    = ["play"; "pause"; "stop"; "skipNext"; "skipBack"; "setFullScreenMode"]
  /\ (forall name, is_Some (method name) <->
        name ∈ ["play"; "pause"; "stop"; "skipNext"; "skipBack"; "setFullScreenMode"])
  /\ (exists a, method "play" = Some (Thunk a)
        /\ forall w, st (a w) = set_paused (st w) false /\ paused (st (a w)) = false)
  /\ (exists a, method "pause" = Some (Thunk a)
        /\ forall w, st (a w) = set_paused (st w) true /\ paused (st (a w)) = true)
  /\ (exists a, method "setFullScreenMode" = Some (OfBool a)
        /\ forall f w,
             st (a f w) = set_fullScreen (st w) f
             /\ fullScreen (st (a f w)) = f
             /\ log (a f w)
                = log w ++ opt (onFullScreenModeUpdate (props w))
                             (HostFullScreenModeUpdate f
                                (if truthy (get (nexenConfig (st w)) "optimize")
                                 then get (nexenConfig (st w)) "index"
                                 else match playList (st w) with
                                      | Some l => js_of_index (currentIndex l)
                                      | None => VUndef
                                      end))).
Proof.
  split; [reflexivity|]. split; [|split; [|split]].
  - intros name. unfold method. rewrite <- elem_of_dom, dom_list_to_map_L.
    rewrite elem_of_list_to_set. reflexivity.
  - eexists. split; [reflexivity|]. intros w. split; reflexivity.
  - eexists. split; [reflexivity|]. intros w. split; reflexivity.
  - eexists. split; [reflexivity|]. intros f w.
    unfold setFullScreenMode, run, setState, reported_index. simpl.
    destruct (onFullScreenModeUpdate (props w)); simpl; rewrite ?app_nil_r;
      repeat split.
Qed.

(** ** Config defaulting *)

Lemma initial_config_omitted (playerConfig : option Config) (k : string) :
  default ∅ playerConfig !! k = None ->
  initial_config playerConfig !! k = DEFAULT_CONFIG !! k.
Proof. intros H. unfold initial_config, spread. by apply lookup_union_r. Qed.

Lemma initial_config_supplied (playerConfig : option Config) (k : string) (v : JSVal) :
  default ∅ playerConfig !! k = Some v ->
  initial_config playerConfig !! k = Some v.
Proof. intros H. unfold initial_config, spread. by apply lookup_union_Some_l. Qed.

(** C7. In the config the player starts with, a field the host left out
    has the value of the built-in literal (volume 80, brightness 25,
    playbackSpeed '1.0', muted, repeat and autoPlay false, controlTimeout
    5000, doubleTapTime 300, controlHideMode 'touch', layoutMode
    'intermediate', posterResizeMode 'cover', resizeMode 'contain',
    loaderText 'Loading...', errorText 'Error...!'), a field the host
    passed has the host's value, and [paused] starts as the negation of
    the resulting [autoPlay]. *)
Theorem config_defaulting (pr : NexenPlayerProps) :
  let host := default ∅ (config pr) in
  let effective := nexenConfig (initial_state pr) in
  (forall k, host !! k = None -> effective !! k = DEFAULT_CONFIG !! k)
  /\ Forall (fun kv : string * JSVal =>
               host !! kv.1 = None -> get effective kv.1 = kv.2)
       [("volume", VNum 80); ("brightness", VNum 25); ("playbackSpeed", VStr "1.0");
        ("muted", VBool false); ("repeat", VBool false); ("autoPlay", VBool false);
        ("controlTimeout", VNum 5000); ("doubleTapTime", VNum 300);
        ("controlHideMode", VStr "touch"); ("layoutMode", VStr "intermediate");
        ("posterResizeMode", VStr "cover"); ("resizeMode", VStr "contain");
        ("loaderText", VStr "Loading..."); ("errorText", VStr "Error...!")]
  /\ (forall k v, host !! k = Some v -> effective !! k = Some v)
  /\ paused (initial_state pr) = negb (truthy (get effective "autoPlay")).
Proof.
  simpl. split; [|split; [|split]].
  - intros k. apply initial_config_omitted.
  - repeat constructor; simpl; intros H; unfold get;
      rewrite (initial_config_omitted _ _ H); reflexivity.
  - intros k v. apply initial_config_supplied.
  - reflexivity.
Qed.

(** ** Single tap *)

Lemma run_snoc (acts : list Action) (a : Action) (w : World) :
  run (acts ++ [a]) w = a (run acts w).
Proof. unfold run. by rewrite foldl_app. Qed.

(** Pending completion callbacks never show the main controls, and the
    one queued by [hideMainControl] hides them. *)
Lemma animations_end_hides (w : World) (cs : list Callback) :
  animating w = cs ++ [HideControlDone] ->
  showControl (st (animations_end w)) = false.
Proof.
  intros H. unfold animations_end. rewrite H, map_app. simpl.
  rewrite run_snoc. reflexivity.
Qed.

(** C2, counterexample. With the "more" panel open and the main controls
    hidden, a single tap closes the panel and the controls stay hidden. *)
Lemma single_tap_closes_panel_only :
  showMoreControl (st more_panel_open) = true
  /\ showControl (st more_panel_open) = false
  /\ showControl (st (steps [Tap SINGLE_TAP None; AnimationsEnd] more_panel_open)) = false
  /\ showMoreControl (st (steps [Tap SINGLE_TAP None; AnimationsEnd] more_panel_open)) = false
  /\ ~ single_tap_toggles more_panel_open.
Proof.
  repeat split; try (vm_compute; reflexivity).
  unfold single_tap_toggles. intros [H | H]; vm_compute in H; discriminate.
Qed.

(** With a panel open, the tap goes to the panel: the main controls keep
    their visibility through the tap and its re-render. *)
Lemma single_tap_with_panel (w : World) (v : option Q) :
  showMoreControl (st w) || showSpeedControl (st w)
    || showTrackControl (st w) || showPlaylistControl (st w) = true ->
  showControl (st (step (Tap SINGLE_TAP v) w)) = showControl (st w)
  /\ gestureEnabled (refs (handle (Tap SINGLE_TAP v) w)) = true.
Proof.
  intros H. rewrite step_st. unfold handle, _onTapDetected, hidePanel. simpl.
  destruct (showMoreControl (st w)) eqn:Hm; simpl.
  { split; reflexivity. }
  destruct (showSpeedControl (st w)) eqn:Hs; simpl.
  { split; reflexivity. }
  destruct (showTrackControl (st w)) eqn:Ht; simpl.
  { split; reflexivity. }
  destruct (showPlaylistControl (st w)) eqn:Hp; simpl.
  { split; reflexivity. }
  discriminate.
Qed.

(** C2, amended. While none of the more, speed, track and playlist panels
    is open, a single tap on hidden main controls shows them, and a
    single tap on shown main controls starts the hide animation, at the
    end of which they are hidden. While one of those panels is open, a
    single tap does not change the visibility of the main controls. *)
Theorem single_tap_toggles_without_panel (w : World) (v : option Q) :
  (showMoreControl (st w) = false ->
   showSpeedControl (st w) = false ->
   showTrackControl (st w) = false ->
   showPlaylistControl (st w) = false ->
   (showControl (st w) = false ->
      showControl (st (step (Tap SINGLE_TAP v) w)) = true)
   /\ (showControl (st w) = true ->
      let w' := step (Tap SINGLE_TAP v) w in
      log w' = log w ++ [ControlHideAnimation]
      /\ showControl (st w') = true
      /\ showControl (st (step AnimationsEnd w')) = false))
  /\ (showMoreControl (st w) || showSpeedControl (st w)
        || showTrackControl (st w) || showPlaylistControl (st w) = true ->
      showControl (st (step (Tap SINGLE_TAP v) w)) = showControl (st w)).
Proof.
  split; [|intros H; exact (proj1 (single_tap_with_panel w v H))].
  intros Hm Hs Ht Hp. split; intros Hc.
  - rewrite step_st. unfold handle, _onTapDetected.
    rewrite Hm, Hs, Ht, Hp, Hc. reflexivity.
  - assert (E : step (Tap SINGLE_TAP v) w = hideMainControl w).
    { unfold step, handle, _onTapDetected. rewrite Hm, Hs, Ht, Hp, Hc.
      apply rerender_unchanged; reflexivity. }
    simpl. rewrite E. split; [reflexivity|]. split; [exact Hc|].
    rewrite step_st. unfold handle.
    apply (animations_end_hides _ (animating w)). reflexivity.
Qed.

(** ** Retry *)

(** The video element is mounted exactly when its ref is attached. *)
Lemma video_element_mounted (s : PlayerState) (src : NexenSource) :
  is_Some (video_element s src) <-> videoRef_current s = true.
Proof.
  unfold video_element, videoRef_current.
  destruct (truthy (get (nexenConfig s) "optimize"));
    [destruct (strict_eq _ _)|]; split; intros H; try done; try by eexists.
Qed.

(** C4, counterexample. A player mounted with default props renders the
    video element with [minLoadRetryCount = 1000], before and after a
    load error. *)
Lemma retry_count_is_configured :
  let w := mount (demo_props None) in
  let w' := step (VideoError {| errorString := "404" |}) w in
  Video.minLoadRetryCount <$> video_element (st w) demo_source = Some (Some 1000)
  /\ error (st w') = true
  /\ Video.minLoadRetryCount <$> video_element (st w') demo_source = Some (Some 1000)
  /\ ~ no_retry_configured (st w') demo_source.
Proof.
  cbv zeta. split; [|split; [|split]]; try (vm_compute; reflexivity).
  intros H.
  assert (E : exists p,
             video_element
               (st (step (VideoError {| errorString := "404" |}) (mount (demo_props None))))
               demo_source = Some p
             /\ Video.minLoadRetryCount p = Some 1000).
  { vm_compute. eexists. split; reflexivity. }
  destruct E as (p & E1 & E2). rewrite (H p E1) in E2. discriminate.
Qed.

(** C4, amended. The error handler does nothing beyond setting [error]
    and calling [onError]: it seeks nothing, reloads nothing, starts no
    timer, and leaves every other piece of state as it was. What retry
    there is, is the [minLoadRetryCount = 1000] prop that the video
    element is rendered with outside optimize mode; in optimize mode the
    element gets no retry prop. *)
Theorem error_handler_no_recovery (w : World) (e : LoadError) (src : NexenSource) :
  let w' := step (VideoError e) w in
  let c := nexenConfig (st w) in
  st w' = set_error (st w) true
  /\ log w' = log w ++ opt (onError (props w)) (HostError (errorString e))
  /\ refs w' = refs w
  /\ timers w' = timers w
  /\ animating w' = animating w
  /\ Video.minLoadRetryCount <$> video_element (st w') src
     = (if truthy (get c "optimize")
        then (if strict_eq (get c "index") (get c "activeIndex") then Some None else None)
        else Some (Some 1000)).
Proof.
  simpl. rewrite step_video_error.
  destruct (when_emit_frame (onError (props w)) (HostError (errorString e))
              (set_st w (set_error (st w) true)))
    as (Hst & Hrefs & _ & _ & Htm & _ & Han).
  rewrite Hst, Hrefs, Htm, Han, log_when_emit.
  do 5 (split; [reflexivity|]).
  unfold video_element. simpl.
  destruct (truthy (get (nexenConfig (st w)) "optimize"));
    [destruct (strict_eq _ _)|]; reflexivity.
Qed.

(** ** The control timer *)

(** Completion callbacks are state setters: timers and refs stay. *)
Lemma run_callbacks_frame (cs : list Callback) (w : World) :
  timers (run (map run_callback cs) w) = timers w
  /\ refs (run (map run_callback cs) w) = refs w.
Proof.
  revert w. induction cs as [|c cs IH]; intros w; [split; reflexivity|].
  change (run (map run_callback (c :: cs)) w)
    with (run (map run_callback cs) (run_callback c w)).
  destruct (IH (run_callback c w)) as [-> ->].
  destruct c as [|[]]; split; reflexivity.
Qed.

(** No handler touches the timer queue or the handle in the ref; only
    an expiring timer and the unmount cleanup do. *)
Lemma handle_frame (i : Input) (w : World) :
  (forall h, i ≠ TimerFires h) ->
  i ≠ Unmount ->
  timers (handle i w) = timers w
  /\ controlTimeoutRef (refs (handle i w)) = controlTimeoutRef (refs w).
Proof.
  intros Hf Hu.
  destruct i;
    try match goal with
        | H : forall h, TimerFires ?x ≠ TimerFires h |- _ => by destruct (H x)
        end;
    try done;
    try (cbv [handle _onTapDetected _onGestureMove _onGestureEnd
           effect_playerConfig _onAspectRatioPress handleResizeMode _onMorePress
           _onRewind _onFastForward _onSkipNext _onSkipBack handleStopPlayback
           _onTogglePlayPause _onToggleFullScreen setFullScreenMode
           _onError handleDoubleTapPlayPause hidePanel hideMainControl
           showMainControl setTrackTime setNexenConfig setCurrentIndex setState
           setRef run when emit foldl];
         case_all; split; reflexivity).
  unfold handle, animations_end.
  destruct (run_callbacks_frame (animating w) (set_animating w [])) as [-> ->].
  split; reflexivity.
Qed.

Lemma effect_paused_frame (w : World) :
  timers (effect_paused w) = timers w
  /\ nextTimer (effect_paused w) = nextTimer w
  /\ controlTimeoutRef (refs (effect_paused w)) = controlTimeoutRef (refs w)
  /\ animating (effect_paused w) = animating w.
Proof.
  cbv [effect_paused setRef run when emit foldl]. case_all; repeat split.
Qed.

(** What the [showControl] effect does to the timer queue and the ref. *)
Lemma effect_showControl_timers (w : World) :
  let c := nexenConfig (st w) in
  let auto := strict_eq (get c "controlHideMode") (VStr "auto") in
  timers (effect_showControl w)
  = (if auto then
       if showControl (st w) then timers w ++ [(nextTimer w, get c "controlTimeout")]
       else match controlTimeoutRef (refs w) with
            | Some h => filter (fun t => t.1 ≠ h) (timers w)
            | None => timers w
            end
     else timers w)
  /\ controlTimeoutRef (refs (effect_showControl w))
     = (if auto && showControl (st w) then Some (nextTimer w)
        else controlTimeoutRef (refs w))
  /\ animating (effect_showControl w) = animating w.
Proof.
  cbv [effect_showControl setControlTimeout clearControlTimeout clearTimeout
         headerControlRef_current setRef run when emit foldl].
  destruct (showControl (st w)),
    (strict_eq (get (nexenConfig (st w)) "controlHideMode") (VStr "auto")),
    (strict_eq (get (nexenConfig (st w)) "layoutMode") (VStr "advanced"));
    simpl; try (repeat split; reflexivity);
    destruct (controlTimeoutRef (refs w)) eqn:E; simpl; rewrite ?E;
    repeat split; reflexivity.
Qed.


Lemma rerender_timers_cases (before w : World) :
  let w' := rerender before w in
  (timers w' = timers w
   /\ controlTimeoutRef (refs w') = controlTimeoutRef (refs w)
   /\ animating w' = animating w)
  \/ exists w1,
       w' = effect_showControl w1
       /\ st w1 = st w
       /\ timers w1 = timers w
       /\ nextTimer w1 = nextTimer w
       /\ controlTimeoutRef (refs w1) = controlTimeoutRef (refs w)
       /\ animating w1 = animating w.
Proof.
  unfold rerender, run, when. cbn [foldl].
  destruct (negb (Bool.eqb (paused (st before)) (paused (st w))));
    match goal with
    | |- context [if ?b then _ else _] => destruct b
    end.
  - right. exists (effect_paused w). rewrite effect_paused_st.
    destruct (effect_paused_frame w) as (-> & -> & -> & ->). repeat split.
  - left. destruct (effect_paused_frame w) as (-> & _ & -> & ->). repeat split.
  - right. exists w. repeat split.
  - left. repeat split.
Qed.





(** The same survival without any change of mode: pressing the
    aspect-ratio button while the controls are up stores a new config
    object, the effect runs again and overwrites the handle of timer 1
    with that of timer 2; hiding the controls then clears timer 2 only. *)
Remark control_timer_handle_overwritten :
  showControl (st hidden_after_resize) = false
  /\ timers hidden_after_resize = [(1%nat, VNum 5000)]
  /\ controlTimeoutRef (refs hidden_after_resize) = Some 2%nat.
Proof. repeat split; vm_compute; reflexivity. Qed.


(** * The properties at work on the sample sessions *)

(** A volume drag ending at 30 on a freshly mounted player. *)
Lemma gesture_end_spec_witness :
  let w := mount (demo_props None) in
  get (nexenConfig (st (_onGestureEnd VOLUME 30 w))) "volume" = VNum 30
  /\ nexenConfig (st (_onGestureEnd VOLUME 30 w)) !! "muted"
     = nexenConfig (st w) !! "muted".
Proof.
  cbv zeta.
  destruct (gesture_end_spec (mount (demo_props None)) 30) as [(_ & Hv & Hk & _) _].
  split; [exact Hv | apply Hk; discriminate].
Defined.

(** First tap after mounting: no panel is open, the controls appear. *)
Lemma single_tap_toggles_without_panel_witness :
  showControl (st (step (Tap SINGLE_TAP None) (mount (demo_props None)))) = true.
Proof.
  assert (Hm : showMoreControl (st (mount (demo_props None))) = false)
    by (vm_compute; reflexivity).
  assert (Hs : showSpeedControl (st (mount (demo_props None))) = false)
    by (vm_compute; reflexivity).
  assert (Ht : showTrackControl (st (mount (demo_props None))) = false)
    by (vm_compute; reflexivity).
  assert (Hp : showPlaylistControl (st (mount (demo_props None))) = false)
    by (vm_compute; reflexivity).
  assert (Hc : showControl (st (mount (demo_props None))) = false)
    by (vm_compute; reflexivity).
  exact (proj1 (proj1 (single_tap_toggles_without_panel _ None) Hm Hs Ht Hp) Hc).
Defined.


(** The host passes only [controlHideMode]: [volume] is the default 80,
    [controlHideMode] is the host's. *)
Lemma config_defaulting_witness :
  let pr := demo_props (Some auto_config) in
  get (nexenConfig (initial_state pr)) "volume" = VNum 80
  /\ nexenConfig (initial_state pr) !! "controlHideMode" = Some (VStr "auto").
Proof.
  cbv zeta.
  destruct (config_defaulting (demo_props (Some auto_config)))
    as (_ & Hlisted & Hsupplied & _).
  split.
  - apply Forall_inv in Hlisted. apply Hlisted. vm_compute. reflexivity.
  - apply Hsupplied. vm_compute. reflexivity.
Defined.

(** Three items, the second one current: skip-next lands on the third. *)
Lemma skip_preserves_bounds_witness :
  currentIndex <$> playList (st (step SkipNext (mount demo_playlist_props)))
  = Some (Some 2).
Proof.
  destruct (skip_preserves_bounds (mount demo_playlist_props) demo_playlist 1
              [demo_source; demo_source; demo_source])
    as [(Hnext & _) _].
  - vm_compute. reflexivity.
  - reflexivity.
  - reflexivity.
  - simpl. lia.
  - cbv zeta in Hnext. rewrite Hnext. reflexivity.
Defined.

(** The default mode is contain: one press gives cover. *)
Lemma resize_mode_cycles_witness :
  get (nexenConfig (st (step AspectRatioPress (mount (demo_props None))))) "resizeMode"
  = VStr "cover".
Proof.
  destruct (resize_mode_cycles (mount (demo_props None))) as (Hcontain & _).
  apply Hcontain. vm_compute. reflexivity.
Defined.

(** Rewinding at the very start of the track asks for a negative time. *)
Lemma rewind_forward_unclamped_witness :
  (trackTime (trackInfo (st (_onRewind (mount (demo_props None))))) < 0)%Q.
Proof.
  destruct (rewind_forward_unclamped (mount (demo_props None)))
    as ((_ & _ & Hneg) & _).
  apply Hneg. vm_compute. reflexivity.
Defined.

(** * Further properties *)

(** ** Re-rendering, case by case *)

Lemma effect_paused_configId (w : World) : configId (effect_paused w) = configId w.
Proof. cbv [effect_paused setRef run when emit foldl]. case_all; reflexivity. Qed.

Lemma rerender_paused_only (before w : World) :
  showControl (st before) = showControl (st w) ->
  fullScreen (st before) = fullScreen (st w) ->
  locked (st before) = locked (st w) ->
  configId before = configId w ->
  rerender before w
  = when (negb (Bool.eqb (paused (st before)) (paused (st w)))) effect_paused w.
Proof.
  intros Hs Hf Hl Hc. unfold rerender, run. cbn [foldl].
  destruct (negb (Bool.eqb (paused (st before)) (paused (st w)))); cbn [when];
    rewrite ?effect_paused_st, ?effect_paused_configId, Hs, Hf, Hl, Hc,
      !Bool.eqb_reflx, Nat.eqb_refl; reflexivity.
Qed.

(** ** Stop *)

Lemma videoRef_current_set_paused (s : PlayerState) (b : bool) :
  videoRef_current (set_paused s b) = videoRef_current s.
Proof. reflexivity. Qed.

Lemma reported_index_set_paused (s : PlayerState) (b : bool) :
  reported_index (set_paused s b) = reported_index s.
Proof. reflexivity. Qed.

Ltac stop_cases w :=
  destruct (paused (st w)) eqn:Hp, (isEnded (refs w)) eqn:He,
    (truthy (get (nexenConfig (st w)) "repeat")) eqn:Hr,
    (videoRef_current (st w)) eqn:Hv, (onStop (props w)) eqn:Ho,
    (onPause (props w)) eqn:Hq;
    cbv [handleStopPlayback effect_paused setState setRef run when emit foldl];
    cbn; rewrite ?Hp, ?He, ?Hr, ?Hv, ?Ho, ?Hq; cbn;
    rewrite ?videoRef_current_set_paused, ?reported_index_set_paused,
      ?Hp, ?He, ?Hr, ?Hv, ?Ho, ?Hq; cbn;
    rewrite <- ?app_assoc, ?app_nil_r; repeat split; try assumption.

(** X1. The stop button always ends in one [seek(0, 0)] on the mounted
    video and one [onStop]: at once when the
    player is paused or restarts a finished track on repeat, through the
    [paused] effect, followed by [onPause], when it was playing. The
    player is paused afterwards unless it restarted. *)
Theorem stop_rewinds_and_notifies_once (w : World) :
  let s := st w in
  let restart :=
    negb (paused s) && isEnded (refs w) && truthy (get (nexenConfig s) "repeat") in
  let w' := step StopPress w in
  log w' = log w
             ++ opt (videoRef_current s) (VideoSeekTolerance 0 0)
             ++ opt (onStop (props w)) (HostStop (reported_index s))
             ++ (if negb (paused s) && negb restart
                 then opt (onPause (props w)) (HostPause (reported_index s))
                 else [])
  /\ paused (st w') = negb restart
  /\ isStopped (refs w') = true
  /\ trackInfo (st w') = trackInfo (st w).
Proof.
  cbv zeta. unfold step, handle.
  rewrite rerender_paused_only;
    try (cbv [handleStopPlayback setState setRef run when emit foldl];
         case_all; reflexivity).
  stop_cases w.
Qed.

Lemma stop_sets_isStopped (w : World) : isStopped (refs (step StopPress w)) = true.
Proof.
  unfold step, handle.
  rewrite rerender_paused_only;
    try (cbv [handleStopPlayback setState setRef run when emit foldl];
         case_all; reflexivity).
  stop_cases w.
Qed.

(** X2. The video's seek event finishes a stop: while a stop is pending
    ([isStopped]) and the event reports seek time 0 at position 0, the
    displayed and cached times go to 0 and the stopped and ended marks
    are dropped; any other seek event changes nothing. After the stop
    button, such an event always finds the stop pending. *)
Theorem seek_event_completes_stop (w : World) (data : OnSeekData) :
  let w' := after (_onSeek data) w in
  (isStopped (refs w) = true ->
   (seekTime data == 0)%Q ->
   (seek_currentTime data == 0)%Q ->
     trackInfo (st w')
     = {| trackTime := 0;
          totalTrackTime := totalTrackTime (trackInfo (st w));
          cachedTrackTime := 0 |}
     /\ isStopped (refs w') = false
     /\ isEnded (refs w') = false
     /\ log w' = log w)
  /\ (isStopped (refs w) = false \/ ~ (seekTime data == 0)%Q
      \/ ~ (seek_currentTime data == 0)%Q ->
     w' = w)
  /\ ((seekTime data == 0)%Q ->
      (seek_currentTime data == 0)%Q ->
      let w2 := after (_onSeek data) (step StopPress w) in
      trackTime (trackInfo (st w2)) = 0%Q
      /\ cachedTrackTime (trackInfo (st w2)) = 0%Q
      /\ isStopped (refs w2) = false).
Proof.
  assert (Hhit : forall x, isStopped (refs x) = true ->
            (seekTime data == 0)%Q -> (seek_currentTime data == 0)%Q ->
            after (_onSeek data) x
            = set_refs
                (set_st x (set_trackInfo (st x)
                   {| trackTime := 0;
                      totalTrackTime := totalTrackTime (trackInfo (st x));
                      cachedTrackTime := 0 |}))
                (set_isStopped (set_isEnded (refs x) false) false)).
  { intros x Hs H1 H2. apply Qeq_bool_iff in H1, H2.
    unfold after, _onSeek. rewrite Hs, H1, H2. cbn [andb].
    apply rerender_unchanged; reflexivity. }
  cbv zeta. split; [|split].
  - intros Hs H1 H2. rewrite (Hhit w Hs H1 H2). repeat split.
  - intros H. unfold after, _onSeek.
    assert (E : isStopped (refs w) && Qeq_bool (seekTime data) 0
                && Qeq_bool (seek_currentTime data) 0 = false).
    { destruct H as [-> | [H | H]]; [reflexivity | |].
      - destruct (Qeq_bool (seekTime data) 0) eqn:E;
          [apply Qeq_bool_iff in E; contradiction|].
        by rewrite andb_false_r.
      - destruct (Qeq_bool (seek_currentTime data) 0) eqn:E;
          [apply Qeq_bool_iff in E; contradiction|].
        by rewrite andb_false_r. }
    rewrite E. apply rerender_unchanged; reflexivity.
  - intros H1 H2. rewrite (Hhit _ (stop_sets_isStopped w) H1 H2). repeat split.
Qed.

(** ** End of the track *)

Lemma handleStopPlayback_in_current (w : World) :
  handleStopPlayback_in (st w) w = handleStopPlayback w.
Proof. reflexivity. Qed.

(** X3. When the track ends while playing: with [repeat] set the player
    stays unpaused, rewinds the mounted video with [seek(0, 0)] and calls
    [onStop] with the index its closure holds; without [repeat] it
    pauses, and the [paused] effect rewinds and calls [onStop], then
    [onPause], with the current index. Either way [isEnded] and
    [isStopped] are set. *)
Theorem track_end_spec (w : World) (s : PlayerState) :
  paused s = paused (st w) ->
  nexenConfig s = nexenConfig (st w) ->
  paused (st w) = false ->
  let w' := after (_onEnd s) w in
  let rep := truthy (get (nexenConfig (st w)) "repeat") in
  isEnded (refs w') = true
  /\ isStopped (refs w') = true
  /\ paused (st w') = negb rep
  /\ log w' = log w
                ++ opt (videoRef_current (st w)) (VideoSeekTolerance 0 0)
                ++ (if rep
                    then opt (onStop (props w)) (HostStop (reported_index s))
                    else opt (onStop (props w)) (HostStop (reported_index (st w)))
                         ++ opt (onPause (props w)) (HostPause (reported_index (st w)))).
Proof.
  intros Hps Hcs Hp. cbv zeta. unfold after.
  rewrite rerender_paused_only;
    try (cbv [_onEnd handleStopPlayback_in setState setRef run when emit foldl];
         case_all; reflexivity).
  cbv [_onEnd handleStopPlayback_in effect_paused setState setRef run when emit foldl].
  cbn. rewrite Hps, Hcs, Hp. cbn.
  destruct (truthy (get (nexenConfig (st w)) "repeat")) eqn:Hr,
    (videoRef_current (st w)) eqn:Hvw, (onStop (props w)) eqn:Ho,
    (onPause (props w)) eqn:Hq;
    cbn; rewrite ?Hp, ?Hr, ?Hvw, ?Ho, ?Hq; cbn;
    rewrite ?videoRef_current_set_paused, ?reported_index_set_paused,
      ?Hp, ?Hr, ?Hvw, ?Ho, ?Hq; cbn;
    rewrite <- ?app_assoc, ?app_nil_r; repeat split.
Qed.

(** ** Play and pause *)

(** X4. The footer's play/pause button and a double tap in the middle of
    the screen both flip [paused]. The host hears [onPlay] when playback
    resumes (and a pending stop is forgotten) and [onPause] when it
    pauses, once, from the [paused] effect; a pause while a stop is
    pending first rewinds and calls [onStop]. Two flips restore
    [paused]. *)
Theorem play_pause_toggle_spec (w : World) (v : option Q) :
  let s := st w in
  let heard :=
    if paused s then opt (onPlay (props w)) (HostPlay (reported_index s))
    else (if isStopped (refs w)
          then opt (videoRef_current s) (VideoSeekTolerance 0 0)
               ++ opt (onStop (props w)) (HostStop (reported_index s))
          else [])
         ++ opt (onPause (props w)) (HostPause (reported_index s)) in
  (let w' := step TogglePlayPause w in
     paused (st w') = negb (paused s)
     /\ log w' = log w ++ heard
     /\ (paused s = true -> isStopped (refs w') = false)
     /\ paused (st (step TogglePlayPause w')) = paused s)
  /\ (let w' := step (Tap DOUBLE_TAP_MIDDLE v) w in
     paused (st w') = negb (paused s)
     /\ log w' = log w
                   ++ opt (tipViewRef_current s)
                        (TipShow (if paused s then "播放" else "暂停"))
                   ++ heard
     /\ paused (st (step (Tap DOUBLE_TAP_MIDDLE v) w')) = paused s).
Proof.
  cbv zeta. split.
  - unfold step, handle.
    rewrite !rerender_paused_only; try reflexivity.
    destruct (paused (st w)) eqn:Hp, (isStopped (refs w)) eqn:Hs,
      (videoRef_current (st w)) eqn:Hv, (onStop (props w)) eqn:Ho,
      (onPause (props w)) eqn:Hq, (onPlay (props w)) eqn:Hy;
      cbv [_onTogglePlayPause effect_paused setState setRef run when emit foldl];
      cbn; rewrite ?Hp, ?Hs, ?Hv, ?Ho, ?Hq, ?Hy; cbn;
      rewrite ?videoRef_current_set_paused, ?reported_index_set_paused,
        ?Hp, ?Hs, ?Hv, ?Ho, ?Hq, ?Hy; cbn;
      rewrite <- ?app_assoc, ?app_nil_r; repeat split; try discriminate;
      case_all; reflexivity.
  - rewrite !step_st. unfold step, handle.
    rewrite rerender_paused_only;
      try (cbv [_onTapDetected handleDoubleTapPlayPause setState setRef run when
                  emit foldl]; case_all; reflexivity).
    destruct (paused (st w)) eqn:Hp, (isStopped (refs w)) eqn:Hs,
      (videoRef_current (st w)) eqn:Hv, (onStop (props w)) eqn:Ho,
      (onPause (props w)) eqn:Hq, (onPlay (props w)) eqn:Hy,
      (tipViewRef_current (st w)) eqn:Ht;
      cbv [_onTapDetected handleDoubleTapPlayPause effect_paused setState setRef
             run when emit foldl];
      cbn; rewrite ?Hp, ?Hs, ?Hv, ?Ho, ?Hq, ?Hy, ?Ht; cbn;
      rewrite ?videoRef_current_set_paused, ?reported_index_set_paused,
        ?Hp, ?Hs, ?Hv, ?Ho, ?Hq, ?Hy, ?Ht; cbn;
      rewrite <- ?app_assoc, ?app_nil_r; repeat split;
      case_all; reflexivity.
Qed.

(** ** Double-tap seeking *)

(** X5. A double tap on the left or right seeks to [value] and displays
    it, except that a missing [value] and the value 0 are dropped: such a
    tap changes nothing at all, so a double tap cannot take the player to
    the very start. *)
Theorem double_tap_seek_spec (w : World) (e : TapEventType) (value : option Q) :
  e = DOUBLE_TAP_LEFT \/ e = DOUBLE_TAP_RIGHT ->
  let w' := step (Tap e value) w in
  match value with
  | None => w' = w
  | Some v =>
      ((v == 0)%Q -> w' = w)
      /\ (~ (v == 0)%Q ->
          log w' = log w ++ opt (videoRef_current (st w)) (VideoSeek v)
          /\ trackInfo (st w')
             = {| trackTime := v;
                  totalTrackTime := totalTrackTime (trackInfo (st w));
                  cachedTrackTime := cachedTrackTime (trackInfo (st w)) |}
          /\ paused (st w') = paused (st w))
  end.
Proof.
  intros He. cbv zeta. unfold step.
  assert (E : handle (Tap e value) w
              = match value with
                | Some v =>
                    if Qeq_bool v 0 then w
                    else run [when (videoRef_current (st w)) (emit (VideoSeek v));
                              setTrackTime v] w
                | None => w
                end)
    by (destruct He as [-> | ->]; reflexivity).
  rewrite E. destruct value as [v|]; [|apply rerender_unchanged; reflexivity].
  split.
  - intros Hz. apply Qeq_bool_iff in Hz. rewrite Hz.
    apply rerender_unchanged; reflexivity.
  - intros Hnz. destruct (Qeq_bool v 0) eqn:Ez;
      [apply Qeq_bool_iff in Ez; contradiction|].
    rewrite rerender_unchanged;
      cbv [setTrackTime setState run when emit foldl];
      destruct (videoRef_current (st w)); cbn; rewrite ?app_nil_r; repeat split.
Qed.

(** ** Dragging *)

(** X6. While a volume or brightness drag is moving, only the native
    volume or screen brightness and the header icon follow: the React
    state is untouched, nothing re-renders and the host hears nothing.
    The end of the drag makes the same calls and then notifies the host.
    A track drag seeks and displays on every move exactly as at its
    end. *)
Theorem gesture_move_commits_nothing (w : World) (v : Q) :
  (st (step (GestureMove VOLUME v) w) = st w
   /\ log (step (GestureMove VOLUME v) w)
      = log w ++ opt (headerControlRef_current (st w)) (HeaderVolumeIcon v)
              ++ opt (videoRef_current (st w)) (VideoSetNativeVolume (v / 100))
   /\ log (_onGestureEnd VOLUME v w)
      = log (_onGestureMove VOLUME v w)
          ++ opt (onVolumeUpdate (props w)) (HostVolumeUpdate v))
  /\ (st (step (GestureMove BRIGHTNESS v) w) = st w
   /\ log (step (GestureMove BRIGHTNESS v) w)
      = log w ++ opt (headerControlRef_current (st w)) (HeaderBrightnessIcon v)
              ++ [SetBrightness (v / 100)]
   /\ log (_onGestureEnd BRIGHTNESS v w)
      = log (_onGestureMove BRIGHTNESS v w)
          ++ opt (onBrightnessUpdate (props w)) (HostBrightnessUpdate v))
  /\ _onGestureMove TRACK v w = _onGestureEnd TRACK v w.
Proof.
  split; [|split; [|reflexivity]].
  - unfold step, handle.
    rewrite rerender_unchanged;
      try (cbv [_onGestureMove run when emit foldl]; case_all; reflexivity).
    cbv [_onGestureMove _onGestureEnd setNexenConfig headerControlRef_current
           run when emit foldl].
    destruct (showControl (st w)), (videoRef_current (st w)),
      (onVolumeUpdate (props w)); cbn;
      rewrite <- ?app_assoc, ?app_nil_r; repeat split.
  - unfold step, handle.
    rewrite rerender_unchanged;
      try (cbv [_onGestureMove run when emit foldl]; case_all; reflexivity).
    cbv [_onGestureMove _onGestureEnd setNexenConfig headerControlRef_current
           run when emit foldl].
    destruct (showControl (st w)), (onBrightnessUpdate (props w)); cbn;
      rewrite <- ?app_assoc, ?app_nil_r; repeat split.
Qed.

(** ** What handlers leave alone *)

Ltac unfold_handle :=
  cbv [handle _onTapDetected _onGestureMove _onGestureEnd timer_fires unmount
         clearTimeout effect_playerConfig _onAspectRatioPress handleResizeMode
         _onMorePress _onRewind _onFastForward _onSkipNext _onSkipBack
         handleStopPlayback _onTogglePlayPause _onToggleFullScreen
         setFullScreenMode _onError handleDoubleTapPlayPause hidePanel
         hideMainControl showMainControl setTrackTime setNexenConfig
         setCurrentIndex setState setRef run when emit foldl].

Lemma run_callbacks_st (cs : list Callback) (w : World) :
  let w' := run (map run_callback cs) w in
  error (st w') = error (st w)
  /\ fullScreen (st w') = fullScreen (st w)
  /\ paused (st w') = paused (st w)
  /\ nexenConfig (st w') = nexenConfig (st w)
  /\ playList (st w') = playList (st w)
  /\ nextTimer w' = nextTimer w
  /\ configId w' = configId w
  /\ log w' = log w.
Proof.
  revert w. induction cs as [|c cs IH]; intros w; [repeat split|].
  change (run (map run_callback (c :: cs)) w)
    with (run (map run_callback cs) (run_callback c w)).
  cbv zeta. destruct (IH (run_callback c w)) as (-> & -> & -> & -> & -> & -> & -> & ->).
  destruct c as [|[]]; repeat split.
Qed.

(** No handler allocates a timer or writes [isFullscreen.current]. *)
Lemma handle_refs_frame (i : Input) (w : World) :
  nextTimer (handle i w) = nextTimer w
  /\ isFullscreen (refs (handle i w)) = isFullscreen (refs w).
Proof.
  destruct i; try (unfold_handle; case_all; split; reflexivity).
  unfold handle, animations_end.
  destruct (run_callbacks_st (animating w) (set_animating w []))
    as (_ & _ & _ & _ & _ & -> & _ & _).
  destruct (run_callbacks_frame (animating w) (set_animating w [])) as [_ ->].
  split; reflexivity.
Qed.

(** Only a config update from the host can change [controlHideMode]. *)
Lemma handle_mode (i : Input) (w : World) :
  nexenConfig (st (handle i w)) !! "controlHideMode"
  = match i with
    | HostConfig c =>
        match default ∅ c !! "controlHideMode" with
        | Some v => Some v
        | None => nexenConfig (st w) !! "controlHideMode"
        end
    | _ => nexenConfig (st w) !! "controlHideMode"
    end.
Proof.
  destruct i;
    try (unfold_handle; case_all; try reflexivity;
         unfold with_field; simpl; by rewrite lookup_insert_ne).
  - unfold handle, animations_end.
    by destruct (run_callbacks_st (animating w) (set_animating w []))
      as (_ & _ & _ & -> & _).
  - assert (E : nexenConfig (st (handle (HostConfig playerConfig) w))
                = spread (nexenConfig (st w)) (default ∅ playerConfig))
      by (unfold_handle; case_all; reflexivity).
    rewrite E. unfold spread. rewrite lookup_union.
    destruct (default ∅ playerConfig !! "controlHideMode"),
      (nexenConfig (st w) !! "controlHideMode"); reflexivity.
Qed.

(** No handler clears the error mark. *)
Lemma handle_error (i : Input) (w : World) :
  error (st w) = true -> error (st (handle i w)) = true.
Proof.
  intros H.
  destruct i; try (unfold_handle; case_all; cbn; try reflexivity; exact H).
  unfold handle, animations_end.
  by destruct (run_callbacks_st (animating w) (set_animating w [])) as (-> & _).
Qed.

(** ** Mounting *)

Lemma spread_again (c h : Config) : spread (spread c h) h = spread c h.
Proof.
  unfold spread. apply map_eq. intros k. rewrite !lookup_union.
  destruct (h !! k), (c !! k); reflexivity.
Qed.

Lemma lookup_spread (c h : Config) (k : string) :
  spread c h !! k = match h !! k with Some v => Some v | None => c !! k end.
Proof.
  unfold spread. rewrite lookup_union. destruct (h !! k), (c !! k); reflexivity.
Qed.

Lemma effect_showControl_refs (w : World) :
  isFullscreen (refs (effect_showControl w)) = fullScreen (st w)
  /\ (strict_eq (get (nexenConfig (st w)) "controlHideMode") (VStr "auto") = false ->
      nextTimer (effect_showControl w) = nextTimer w).
Proof.
  cbv [effect_showControl setControlTimeout clearControlTimeout clearTimeout
         headerControlRef_current setRef run when emit foldl].
  destruct (showControl (st w)),
    (strict_eq (get (nexenConfig (st w)) "controlHideMode") (VStr "auto")),
    (strict_eq (get (nexenConfig (st w)) "layoutMode") (VStr "advanced"));
    cbn; split; try reflexivity; try discriminate;
    destruct (controlTimeoutRef (refs w)); reflexivity.
Qed.

Lemma effect_paused_isFullscreen (w : World) :
  isFullscreen (refs (effect_paused w)) = isFullscreen (refs w).
Proof. cbv [effect_paused setRef run when emit foldl]. case_all; reflexivity. Qed.

Lemma effect_playerConfig_frame (c : option Config) (w : World) :
  let w' := effect_playerConfig c w in
  nexenConfig (st w') = spread (nexenConfig (st w)) (default ∅ c)
  /\ showControl (st w') = showControl (st w)
  /\ fullScreen (st w') = fullScreen (st w)
  /\ error (st w') = error (st w)
  /\ isFullscreen (refs w') = isFullscreen (refs w)
  /\ controlTimeoutRef (refs w') = controlTimeoutRef (refs w)
  /\ timers w' = timers w
  /\ nextTimer w' = nextTimer w.
Proof.
  cbv [effect_playerConfig hideMainControl setNexenConfig setCurrentIndex setState
         setRef run when emit foldl].
  case_all; repeat split.
Qed.

Lemma effect_playerSource_frame (src : NexenSource) (w : World) :
  let w' := effect_playerSource src w in
  nexenConfig (st w') = nexenConfig (st w)
  /\ showControl (st w') = showControl (st w)
  /\ fullScreen (st w') = fullScreen (st w)
  /\ error (st w') = error (st w)
  /\ isFullscreen (refs w') = isFullscreen (refs w)
  /\ controlTimeoutRef (refs w') = controlTimeoutRef (refs w)
  /\ timers w' = timers w
  /\ nextTimer w' = nextTimer w.
Proof. repeat split. Qed.

Lemma effect_playerPlayList_frame (l : option PlayList) (w : World) :
  let w' := effect_playerPlayList l w in
  nexenConfig (st w') = nexenConfig (st w)
  /\ showControl (st w') = showControl (st w)
  /\ fullScreen (st w') = fullScreen (st w)
  /\ error (st w') = error (st w)
  /\ isFullscreen (refs w') = isFullscreen (refs w)
  /\ controlTimeoutRef (refs w') = controlTimeoutRef (refs w)
  /\ timers w' = timers w
  /\ nextTimer w' = nextTimer w.
Proof. repeat split. Qed.

Lemma effect_showControl_hidden (w : World) :
  showControl (st w) = false ->
  controlTimeoutRef (refs w) = None ->
  controlTimeoutRef (refs (effect_showControl w)) = None
  /\ timers (effect_showControl w) = timers w
  /\ nextTimer (effect_showControl w) = nextTimer w.
Proof.
  intros Hs Hr.
  destruct (effect_showControl_timers w) as (Ht & Hr' & _).
  rewrite Hs, Hr in Ht. rewrite Hs, andb_false_r, Hr in Hr'.
  split; [exact Hr'|]. split; [by destruct (strict_eq _ _)|].
  cbv [effect_showControl setControlTimeout clearControlTimeout clearTimeout
         headerControlRef_current setRef run when emit foldl].
  rewrite Hs.
  destruct (strict_eq (get (nexenConfig (st w)) "controlHideMode") (VStr "auto")),
    (strict_eq (get (nexenConfig (st w)) "layoutMode") (VStr "advanced"));
    cbn; rewrite ?Hr; reflexivity.
Qed.

(** The state the mount effects leave behind, before the re-render. *)
Lemma mount_effects (pr : NexenPlayerProps) :
  let w1 := run [effect_paused;
                 effect_showControl;
                 effect_playerConfig (config pr);
                 effect_playerSource (source pr);
                 effect_playerPlayList (Some (default DEFAULT_PLAYLIST (playListProp pr)))]
              (initial_world pr) in
  nexenConfig (st w1) = initial_config (config pr)
  /\ showControl (st w1) = false
  /\ fullScreen (st w1) = false
  /\ error (st w1) = false
  /\ isFullscreen (refs w1) = false
  /\ controlTimeoutRef (refs w1) = None
  /\ timers w1 = []
  /\ nextTimer w1 = 1%nat.
Proof.
  cbv zeta. unfold run. cbn [foldl].
  destruct (effect_playerPlayList_frame
              (Some (default DEFAULT_PLAYLIST (playListProp pr)))
              (effect_playerSource (source pr)
                 (effect_playerConfig (config pr)
                    (effect_showControl (effect_paused (initial_world pr))))))
    as (-> & -> & -> & -> & -> & -> & -> & ->).
  destruct (effect_playerSource_frame (source pr)
              (effect_playerConfig (config pr)
                 (effect_showControl (effect_paused (initial_world pr)))))
    as (-> & -> & -> & -> & -> & -> & -> & ->).
  destruct (effect_playerConfig_frame (config pr)
              (effect_showControl (effect_paused (initial_world pr))))
    as (-> & -> & -> & -> & -> & -> & -> & ->).
  set (wa := effect_paused (initial_world pr)).
  assert (Hsa : st wa = st (initial_world pr)) by apply effect_paused_st.
  destruct (effect_paused_frame (initial_world pr)) as (Ht & Hn & Hr & _).
  fold wa in Ht, Hn, Hr.
  destruct (effect_showControl_hidden wa) as (Hr' & Ht' & Hn');
    [by rewrite Hsa | by rewrite Hr |].
  destruct (effect_showControl_refs wa) as [Hf _].
  rewrite effect_showControl_st, Hr', Ht', Hn', Ht, Hn, Hf, Hsa.
  split; [apply spread_again|]. repeat split.
Qed.

Lemma rerender_sync (before w : World) :
  isFullscreen (refs w) = fullScreen (st w)
  \/ fullScreen (st before) ≠ fullScreen (st w) ->
  isFullscreen (refs (rerender before w)) = fullScreen (st w).
Proof.
  intros H. unfold rerender, run, when. cbn [foldl].
  destruct (negb (Bool.eqb (paused (st before)) (paused (st w))));
    rewrite ?effect_paused_st, ?effect_paused_configId;
    match goal with
    | |- context [if ?b then _ else _] => destruct b eqn:E
    end;
    try (destruct (effect_showControl_refs (effect_paused w)) as [-> _];
         by rewrite effect_paused_st);
    try (by destruct (effect_showControl_refs w) as [-> _]);
    rewrite ?effect_paused_isFullscreen;
    (destruct H as [H | H]; [exact H|]);
    destruct (fullScreen (st before)), (fullScreen (st w)); try done;
    rewrite ?orb_true_r in E; simpl in E;
    rewrite ?orb_true_r in E; discriminate.
Qed.

Lemma rerender_no_auto (before w : World) :
  strict_eq (get (nexenConfig (st w)) "controlHideMode") (VStr "auto") = false ->
  timers (rerender before w) = timers w
  /\ nextTimer (rerender before w) = nextTimer w
  /\ controlTimeoutRef (refs (rerender before w)) = controlTimeoutRef (refs w).
Proof.
  intros Hm.
  destruct (rerender_timers_cases before w)
    as [(Ht & Hr & _) | (w1 & E & Hst & Htm & Hnt & Href & _)].
  - repeat split; try assumption.
    unfold rerender, run, when. cbn [foldl].
    destruct (negb (Bool.eqb (paused (st before)) (paused (st w))));
      rewrite ?effect_paused_st, ?effect_paused_configId;
      match goal with
      | |- context [if ?b then _ else _] => destruct b
      end;
      try (destruct (effect_showControl_refs (effect_paused w)) as [_ ->];
           [|by rewrite effect_paused_st]);
      try (destruct (effect_showControl_refs w) as [_ ->]; [|assumption]);
      try reflexivity;
      by destruct (effect_paused_frame w) as (_ & -> & _).
  - rewrite E.
    destruct (effect_showControl_timers w1) as (Ht & Hr & _).
    destruct (effect_showControl_refs w1) as [_ Hn].
    rewrite Hst, Hm in Ht, Hr, Hn. simpl in Hr.
    rewrite Ht, Hr, Hn; [|reflexivity]. repeat split; assumption.
Qed.

Lemma steps_cons (i : Input) (inputs : list Input) (w : World) :
  steps (i :: inputs) w = steps inputs (step i w).
Proof. reflexivity. Qed.

(** ** Sessions *)

Ltac unfold_act :=
  cbv [act _onBackPress _onLoadStart _onLoad _onProgress _onSeek _onEnd
         handleStopPlayback_in _onPlayPress _onCcPress _onVideoListPress
         _onToggleVolume handleMuteVideo _onAirplayPress _onMoreItemPress
         handleLockScreen handleRepeatVideo _onSpeedUpdate _onPlaylistItemPress
         _onTextTrackSelect _onAudioTrackSelect _onSeekStart _onSeekUpdate
         _onSeekEnd _onVolumeSeekStart _onVolumeSeekUpdate _onVolumeSeekEnd
         _onSlideStart _onSlideEnd _onReachedToStart _onReachedToEnd
         _onLayoutChange onAppStateChange host_source host_playList
         effect_playerSource effect_playerPlayList hidePanel hideMainControl
         setTrackTime setNexenConfig setCurrentIndex setState setRef run when emit
         foldl fst snd].

(** What the handlers outside the inputs leave alone: none of them
    writes [isFullscreen.current], touches a timer or changes
    [controlHideMode], and only the load event writes [error]. *)
Lemma act_frame (pr : NexenPlayerProps) (hc : HostCallbacks) (c : PlayerState)
    (t : Turn) (w : World) :
  match t with
  | OfInput _ => True
  | _ =>
      let w' := act pr hc c t w in
      isFullscreen (refs w') = isFullscreen (refs w)
      /\ timers w' = timers w
      /\ nextTimer w' = nextTimer w
      /\ controlTimeoutRef (refs w') = controlTimeoutRef (refs w)
      /\ nexenConfig (st w') !! "controlHideMode"
         = nexenConfig (st w) !! "controlHideMode"
      /\ error (st w') = (if is_load t then false else error (st w))
  end.
Proof.
  destruct t; [exact I|..];
    unfold_act; cbv [is_load];
    destruct (isFullscreen (refs w)) eqn:Hfs;
    case_all; cbn; rewrite ?Hfs; repeat split;
    unfold with_field; by rewrite lookup_insert_ne.
Qed.

Lemma act_isFullscreen (pr : NexenPlayerProps) (hc : HostCallbacks) (c : PlayerState)
    (t : Turn) (w : World) :
  isFullscreen (refs (act pr hc c t w)) = isFullscreen (refs w).
Proof.
  pose proof (act_frame pr hc c t w) as H.
  destruct t; try (by destruct H as (-> & _)).
  apply handle_refs_frame.
Qed.

Lemma world_turn (pr : NexenPlayerProps) (hc : HostCallbacks) (t : Turn) (x : Running) :
  world (turn pr hc t x) = after (act pr hc (onEnd_closure x) t) (world x).
Proof. reflexivity. Qed.

Lemma resume_cons (pr : NexenPlayerProps) (hc : HostCallbacks) (t : Turn)
    (ts : list Turn) (x : Running) :
  resume pr hc (t :: ts) x = resume pr hc ts (turn pr hc t x).
Proof. reflexivity. Qed.

Lemma mount_sync (pr : NexenPlayerProps) :
  isFullscreen (refs (mount pr)) = fullScreen (st (mount pr)).
Proof.
  unfold mount. rewrite rerender_st. apply rerender_sync. left.
  destruct (mount_effects pr) as (_ & _ & -> & _ & -> & _). reflexivity.
Qed.

(** A handler that does not write the ref leaves it in step with the
    state once the re-render has run. *)
Lemma after_sync (a : Action) (w : World) :
  isFullscreen (refs (a w)) = isFullscreen (refs w) ->
  isFullscreen (refs w) = fullScreen (st w) ->
  isFullscreen (refs (after a w)) = fullScreen (st (after a w)).
Proof.
  intros Hf Hw. unfold after. rewrite rerender_st. apply rerender_sync.
  destruct (bool_decide (fullScreen (st w) = fullScreen (st (a w)))) eqn:E.
  - left. apply bool_decide_eq_true in E. by rewrite Hf, Hw.
  - right. by apply bool_decide_eq_false in E.
Qed.

Lemma session_fullscreen_sync (pr : NexenPlayerProps) (hc : HostCallbacks)
    (ts : list Turn) :
  isFullscreen (refs (world (play pr hc ts)))
  = fullScreen (st (world (play pr hc ts))).
Proof.
  unfold play.
  assert (Hm : isFullscreen (refs (world (started pr)))
               = fullScreen (st (world (started pr)))) by apply mount_sync.
  revert Hm. generalize (started pr).
  induction ts as [|t ts IH]; intros x Hx; [exact Hx|].
  rewrite resume_cons. apply IH. rewrite world_turn.
  apply after_sync; [apply act_isFullscreen | exact Hx].
Qed.

(** X7. [isFullscreen.current], which the hardware back button and the
    app-state listener read, equals the [fullScreen] state at mount and
    after every turn of a session, whatever the turns are: inputs, back
    presses, video events, button, panel, seek-bar and slider callbacks,
    layout passes, app-state changes and new [source] or [playList]
    props. *)
Theorem fullscreen_ref_in_sync
    (pr : NexenPlayerProps) (hc : HostCallbacks) (ts : list Turn) :
  let w := world (play pr hc ts) in
  isFullscreen (refs w) = fullScreen (st w).
Proof. apply session_fullscreen_sync. Qed.

Lemma mount_never_timed (pr : NexenPlayerProps) :
  strict_eq (get (initial_config (config pr)) "controlHideMode") (VStr "auto") = false ->
  never_timed (mount pr).
Proof.
  intros Hinit. unfold never_timed, mount.
  destruct (mount_effects pr) as (Hc & _ & _ & _ & _ & Hr & Ht & Hn).
  cbv zeta in Hc, Hr, Ht, Hn.
  set (w1 := run _ (initial_world pr)) in *.
  assert (Hmode1 : strict_eq (get (nexenConfig (st w1)) "controlHideMode")
                     (VStr "auto") = false) by (by rewrite Hc).
  destruct (rerender_no_auto (initial_world pr) w1 Hmode1) as (Ht' & Hn' & Hr').
  rewrite rerender_st, Ht', Hn', Hr'. by repeat split.
Qed.

Lemma step_never_timed (i : Input) (w : World) :
  keeps_touch i = true -> never_timed w -> never_timed (step i w).
Proof.
  intros Hi (Ht & Hr & Hn & Hmode).
  assert (Hmode' : strict_eq (get (nexenConfig (st (handle i w))) "controlHideMode")
                     (VStr "auto") = false).
  { unfold get in *. rewrite handle_mode.
    destruct i; try exact Hmode.
    simpl in Hi. unfold get in Hi.
    destruct (default ∅ playerConfig !! "controlHideMode");
      [by apply negb_true_iff in Hi | exact Hmode]. }
  assert (Hh : timers (handle i w) = [] /\ controlTimeoutRef (refs (handle i w)) = None).
  { assert (Hi' : (exists h, i = TimerFires h) \/ i = Unmount
                  \/ ((forall h, i ≠ TimerFires h) /\ i ≠ Unmount)).
    { destruct i; try (right; right; split; [intros h|]; discriminate).
      - left. by eexists.
      - right. by left. }
    destruct Hi' as [[h ->] | [-> | [Hf Hu]]].
    - unfold handle, timer_fires. rewrite Ht.
      rewrite bool_decide_eq_false_2 by (simpl; apply not_elem_of_nil).
      by split.
    - unfold handle, unmount, run. cbn. by rewrite Hr.
    - destruct (handle_frame i w Hf Hu) as [-> ->]. by split. }
  destruct Hh as [Ht' Hr'].
  destruct (handle_refs_frame i w) as [Hn' _].
  unfold never_timed, step. rewrite rerender_st.
  destruct (rerender_no_auto w (handle i w) Hmode') as (-> & -> & ->).
  rewrite Ht', Hr', Hn', Hn. repeat split. exact Hmode'.
Qed.

(** A handler that leaves the timers and [controlHideMode] alone cannot
    make the re-render create a timer. *)
Lemma after_never_timed (a : Action) (w : World) :
  timers (a w) = timers w ->
  nextTimer (a w) = nextTimer w ->
  controlTimeoutRef (refs (a w)) = controlTimeoutRef (refs w) ->
  nexenConfig (st (a w)) !! "controlHideMode" = nexenConfig (st w) !! "controlHideMode" ->
  never_timed w -> never_timed (after a w).
Proof.
  intros Et En Er Em (Ht & Hr & Hn & Hmode).
  assert (Hmode' : strict_eq (get (nexenConfig (st (a w))) "controlHideMode")
                     (VStr "auto") = false)
    by (unfold get in *; by rewrite Em).
  unfold never_timed, after. rewrite rerender_st.
  destruct (rerender_no_auto w (a w) Hmode') as (-> & -> & ->).
  rewrite Et, En, Er. repeat split; assumption.
Qed.

Lemma turn_never_timed (pr : NexenPlayerProps) (hc : HostCallbacks) (t : Turn)
    (x : Running) :
  turn_keeps_touch t = true ->
  never_timed (world x) -> never_timed (world (turn pr hc t x)).
Proof.
  intros Hk Hx. rewrite world_turn.
  pose proof (act_frame pr hc (onEnd_closure x) t (world x)) as H.
  destruct t;
    try (destruct H as (_ & Et & En & Er & Em & _);
         by apply after_never_timed).
  by apply step_never_timed.
Qed.

(** X8. In a session whose config never selects [controlHideMode]
    'auto' (neither at mount nor in a later config update) no timer is
    ever created, whatever else happens: after any turns the timer queue
    is empty, the handle ref is empty and no handle has been
    allocated. *)
Theorem touch_session_has_no_timer
    (pr : NexenPlayerProps) (hc : HostCallbacks) (ts : list Turn) :
  strict_eq (get (initial_config (config pr)) "controlHideMode") (VStr "auto") = false ->
  forallb turn_keeps_touch ts = true ->
  let w := world (play pr hc ts) in
  timers w = []
  /\ controlTimeoutRef (refs w) = None
  /\ nextTimer w = 1%nat
  /\ strict_eq (get (nexenConfig (st w)) "controlHideMode") (VStr "auto") = false.
Proof.
  intros Hinit Hin. cbv zeta. unfold play.
  assert (Hm : never_timed (world (started pr))) by by apply mount_never_timed.
  revert Hin Hm. generalize (started pr).
  induction ts as [|t ts IH]; intros x Hin Hx; [exact Hx|].
  rewrite resume_cons. simpl in Hin. apply andb_true_iff in Hin as [Ht Hin].
  apply IH; [exact Hin|]. by apply turn_never_timed.
Qed.

Lemma turn_error (pr : NexenPlayerProps) (hc : HostCallbacks) (t : Turn) (x : Running) :
  error (st (world (turn pr hc t x)))
  = if is_load t then false
    else error (st (act pr hc (onEnd_closure x) t (world x))).
Proof.
  rewrite world_turn. unfold after. rewrite rerender_st.
  pose proof (act_frame pr hc (onEnd_closure x) t (world x)) as H.
  destruct t; try reflexivity.
  by destruct H as (_ & _ & _ & _ & _ & ->).
Qed.

(** X9. Once a load error is shown, [error] stays set through every
    turn of a session except the video's load event, which clears it:
    no tap, gesture, button, panel, seek bar, slider, back press, handle
    method, timer, progress, seek or end event, and no new config,
    source or playlist resets it. *)
Theorem error_is_sticky
    (pr : NexenPlayerProps) (hc : HostCallbacks) (x : Running) (ts : list Turn) :
  error (st (world x)) = true ->
  (forallb (fun t => negb (is_load t)) ts = true ->
   error (st (world (resume pr hc ts x))) = true)
  /\ (forall data, error (st (world (turn pr hc (Loaded data) x))) = false).
Proof.
  intros Hx. split; [|intros data; by rewrite turn_error].
  revert x Hx. induction ts as [|t ts IH]; intros x Hx Hts; [exact Hx|].
  rewrite resume_cons. simpl in Hts. apply andb_true_iff in Hts as [Ht Hts].
  apply IH; [|exact Hts].
  rewrite turn_error. apply negb_true_iff in Ht. rewrite Ht.
  pose proof (act_frame pr hc (onEnd_closure x) t (world x)) as H.
  destruct t; try (destruct H as (_ & _ & _ & _ & _ & ->); simpl; exact Hx);
    try discriminate.
  by apply handle_error.
Qed.

(** ** Config updates from the host *)

Lemma step_host_config (c : option Config) (w : World) :
  nexenConfig (st (step (HostConfig c) w)) = spread (nexenConfig (st w)) (default ∅ c).
Proof.
  rewrite step_st. unfold handle, run. cbn [foldl].
  by destruct (effect_playerConfig_frame c
                 (set_props w
                    {| source := source (props w); config := c;
                       playListProp := playListProp (props w);
                       onFullScreenModeUpdate := onFullScreenModeUpdate (props w);
                       onPlay := onPlay (props w); onPause := onPause (props w);
                       onStop := onStop (props w); onSkipNext := onSkipNext (props w);
                       onSkipBack := onSkipBack (props w);
                       onVolumeUpdate := onVolumeUpdate (props w);
                       onBrightnessUpdate := onBrightnessUpdate (props w);
                       onError := onError (props w) |})) as (-> & _).
Qed.

(** X10. After mounting, the config is the defaults overridden by the
    host's fields. A later config update overrides exactly the fields it
    carries and keeps the current value of every other field, so a volume
    the user set by dragging survives an update without [volume] and is
    replaced by the host's value when the update carries one. *)
Theorem host_config_merge (pr : NexenPlayerProps) (w : World) (c : option Config) (v : Q) :
  nexenConfig (st (mount pr)) = initial_config (config pr)
  /\ (forall k,
        nexenConfig (st (step (HostConfig c) w)) !! k
        = match default ∅ c !! k with
          | Some x => Some x
          | None => nexenConfig (st w) !! k
          end)
  /\ get (nexenConfig (st (steps [GestureEnd VOLUME v; HostConfig c] w))) "volume"
     = match default ∅ c !! "volume" with
       | Some x => x
       | None => VNum v
       end.
Proof.
  split; [|split].
  - unfold mount. rewrite rerender_st. by destruct (mount_effects pr) as (-> & _).
  - intros k. rewrite step_host_config. apply lookup_spread.
  - unfold steps. cbn [foldl]. unfold get.
    rewrite step_host_config, lookup_spread.
    destruct (default ∅ c !! "volume"); [reflexivity|].
    rewrite step_st.
    assert (E : nexenConfig (st (handle (GestureEnd VOLUME v) w))
                = <["volume" := VNum v]> (nexenConfig (st w)))
      by (unfold_handle; case_all; reflexivity).
    by rewrite E, lookup_insert_eq.
Qed.

Lemma effect_paused_others (w : World) :
  props (effect_paused w) = props w
  /\ showPoster (refs (effect_paused w)) = showPoster (refs w)
  /\ gestureEnabled (refs (effect_paused w)) = gestureEnabled (refs w)
  /\ isSeeking (refs (effect_paused w)) = isSeeking (refs w)
  /\ isEnded (refs (effect_paused w)) = isEnded (refs w).
Proof. cbv [effect_paused setRef run when emit foldl]. case_all; repeat split. Qed.

Lemma effect_showControl_others (w : World) :
  props (effect_showControl w) = props w
  /\ configId (effect_showControl w) = configId w
  /\ showPoster (refs (effect_showControl w)) = showPoster (refs w)
  /\ gestureEnabled (refs (effect_showControl w)) = gestureEnabled (refs w)
  /\ isSeeking (refs (effect_showControl w)) = isSeeking (refs w)
  /\ isEnded (refs (effect_showControl w)) = isEnded (refs w)
  /\ isStopped (refs (effect_showControl w)) = isStopped (refs w).
Proof.
  cbv [effect_showControl setControlTimeout clearControlTimeout clearTimeout
         headerControlRef_current setRef run when emit foldl].
  destruct (showControl (st w)),
    (strict_eq (get (nexenConfig (st w)) "controlHideMode") (VStr "auto")),
    (strict_eq (get (nexenConfig (st w)) "layoutMode") (VStr "advanced"));
    cbn; try (repeat split; reflexivity);
    destruct (controlTimeoutRef (refs w)); repeat split.
Qed.

(** A re-render changes neither the React state nor the props, the
    running animations, or the refs that only handlers write. *)
Lemma rerender_frame (before w : World) :
  let w' := rerender before w in
  st w' = st w
  /\ props w' = props w
  /\ animating w' = animating w
  /\ showPoster (refs w') = showPoster (refs w)
  /\ gestureEnabled (refs w') = gestureEnabled (refs w)
  /\ isSeeking (refs w') = isSeeking (refs w)
  /\ isEnded (refs w') = isEnded (refs w).
Proof.
  cbv zeta. split; [apply rerender_st|].
  unfold rerender, run, when. cbn [foldl].
  destruct (negb (Bool.eqb (paused (st before)) (paused (st w))));
    match goal with
    | |- context [if ?b then _ else _] => destruct b
    end;
    try (destruct (effect_showControl_others (effect_paused w))
           as (-> & _ & -> & -> & -> & -> & _);
         destruct (effect_showControl_timers (effect_paused w)) as (_ & _ & ->));
    try (destruct (effect_showControl_others w) as (-> & _ & -> & -> & -> & -> & _);
         destruct (effect_showControl_timers w) as (_ & _ & ->));
    try (destruct (effect_paused_others w) as (-> & -> & -> & -> & ->);
         destruct (effect_paused_frame w) as (_ & _ & _ & ->));
    repeat split.
Qed.

Lemma handle_host_config (c : option Config) (w : World) :
  let merged := spread (nexenConfig (st w)) (default ∅ c) in
  let w' := handle (HostConfig c) w in
  nexenConfig (st w') = merged
  /\ (truthy (get merged "optimize") = true ->
      strict_eq (get merged "index") (get merged "activeIndex") = false ->
      paused (st w') = true
      /\ showPoster (refs w') = true
      /\ animating w' = animating w ++ [HideControlDone]
      /\ playList (st w') = playList (st w))
  /\ (truthy (get merged "optimize") = true ->
      strict_eq (get merged "index") (get merged "activeIndex") = true ->
      paused (st w') = paused (st w)
      /\ (playList (st w') ≫= currentIndex) = js_to_index (get merged "activeIndex")
      /\ (playList (st w') ≫= items) = (playList (st w) ≫= items))
  /\ (truthy (get merged "optimize") = false ->
      paused (st w') = paused (st w)
      /\ playList (st w') = playList (st w)
      /\ animating w' = animating w).
Proof.
  cbv zeta. unfold handle, effect_playerConfig, run, when. cbn [foldl].
  change (nexenConfig (st (set_props w _))) with (nexenConfig (st w)).
  split; [|split; [|split]].
  - case_all; reflexivity.
  - intros -> ->. repeat split.
  - intros -> ->. cbn. repeat split; by destruct (playList (st w)).
  - intros ->. repeat split.
Qed.

(** X11. Optimize mode, with [index] and [activeIndex] numbers or
    missing as their type declares. A config update that leaves
    [optimize] set and [index] different from [activeIndex] pauses the
    player, asks for the poster, starts hiding the controls and takes the
    video element out of the render; from then on volume drags and
    rewinds make no call on a video element. With [index] and
    [activeIndex] the same integer [n], [paused] is kept and the playlist
    moves to [n]: a render that finds its source draws the element, and
    it finds one exactly when there are no items or [n] is inside them;
    outside a non-empty list the render has no source to read. *)
Theorem optimize_update_spec (w : World) (c : option Config) (v : Q) :
  let merged := spread (nexenConfig (st w)) (default ∅ c) in
  let w' := step (HostConfig c) w in
  truthy (get merged "optimize") = true ->
  (optional_number (get merged "index") = true ->
   optional_number (get merged "activeIndex") = true ->
   strict_eq (get merged "index") (get merged "activeIndex") = false ->
     paused (st w') = true
     /\ showPoster (refs w') = true
     /\ animating w' = animating w ++ [HideControlDone]
     /\ (forall src, video_element (st w') src = None)
     /\ log (_onGestureEnd VOLUME v w')
        = log w' ++ opt (headerControlRef_current (st w')) (HeaderVolumeIcon v)
                 ++ opt (onVolumeUpdate (props w')) (HostVolumeUpdate v)
     /\ log (_onRewind w') = log w')
  /\ (forall n : Z,
        get merged "index" = VNum (inject_Z n) ->
        get merged "activeIndex" = VNum (inject_Z n) ->
        (playList (st w') ≫= currentIndex) = Some n
        /\ (playList (st w') ≫= items) = (playList (st w) ≫= items)
        /\ paused (st w') = paused (st w)
        /\ (forall src, newSource (st w') = Some src ->
              is_Some (video_element (st w') src))
        /\ (forall its, (playList (st w) ≫= items) = Some its -> its ≠ [] ->
              (0 <= n < Z.of_nat (length its) ->
                 newSource (st w') = its !! Z.to_nat n
                 /\ is_Some (newSource (st w')))
              /\ (n < 0 \/ Z.of_nat (length its) <= n ->
                 newSource (st w') = None))).
Proof.
  cbv zeta. intros Hopt.
  destruct (handle_host_config c w) as (Hcfg & Hmis & Hsame & _).
  destruct (rerender_frame w (handle (HostConfig c) w))
    as (Hst & Hprops & Han & Hposter & _).
  fold (step (HostConfig c) w) in Hst, Hprops, Han, Hposter.
  split.
  - intros _ _ Hne. destruct (Hmis Hopt Hne) as (Hp & Hsp & Ha & _).
    assert (Hv : videoRef_current (st (step (HostConfig c) w)) = false).
    { unfold videoRef_current. by rewrite Hst, Hcfg, Hopt, Hne. }
    rewrite Hposter, Han, Hst.
    split; [exact Hp|]. split; [exact Hsp|]. split; [exact Ha|].
    split; [intros src; unfold video_element; by rewrite Hcfg, Hopt, Hne|].
    rewrite <- Hst. split.
    + cbv [_onGestureEnd setNexenConfig run when emit foldl]. rewrite Hv.
      destruct (headerControlRef_current (st (step (HostConfig c) w))),
        (onVolumeUpdate (props (step (HostConfig c) w)));
        cbn; rewrite <- ?app_assoc, ?app_nil_r; reflexivity.
    + cbv [_onRewind setTrackTime setState run when emit foldl]. by rewrite Hv.
  - intros n Hi Ha.
    assert (Heq : strict_eq (get (spread (nexenConfig (st w)) (default ∅ c)) "index")
                    (get (spread (nexenConfig (st w)) (default ∅ c)) "activeIndex")
                  = true).
    { rewrite Hi, Ha. simpl. apply Qeq_bool_iff. reflexivity. }
    destruct (Hsame Hopt Heq) as (Hp & Hidx & Hits).
    assert (Hn : (playList (st (step (HostConfig c) w)) ≫= currentIndex) = Some n).
    { rewrite Hst, Hidx, Ha. unfold js_to_index.
      rewrite Stdlib.QArith.Qcanon.Qred_identity by (simpl; apply Z.gcd_1_r).
      reflexivity. }
    split; [exact Hn|]. split; [by rewrite Hst|]. split; [by rewrite Hst|]. split.
    + intros src _. rewrite Hst. unfold video_element.
      rewrite Hcfg, Hopt, Heq. by eexists.
    + intros its Hi' Hne.
      assert (Hlen : negb (Nat.eqb (length its) 0) = true)
        by (destruct its; [done | reflexivity]).
      assert (Hsrc : newSource (st (step (HostConfig c) w))
                     = if n <? 0 then None else its !! Z.to_nat n).
      { unfold newSource. rewrite Hn. rewrite Hst, Hits, Hi', Hlen. reflexivity. }
      split.
      * intros [H0 H1]. rewrite Hsrc.
        destruct (n <? 0) eqn:E; [apply Z.ltb_lt in E; lia|].
        split; [reflexivity|]. apply lookup_lt_is_Some. lia.
      * intros H. rewrite Hsrc.
        destruct (n <? 0) eqn:E; [reflexivity|]. apply Z.ltb_ge in E.
        apply lookup_ge_None. lia.
Qed.

(** ** Skipping through the playlist *)

Lemma step_skip_next (w : World) :
  step SkipNext w = _onSkipNext w.
Proof.
  unfold step, handle. apply rerender_unchanged;
    cbv [_onSkipNext setCurrentIndex setState run when emit foldl];
    case_all; reflexivity.
Qed.

Lemma step_skip_back (w : World) :
  step SkipBack w = _onSkipBack w.
Proof.
  unfold step, handle. apply rerender_unchanged;
    cbv [_onSkipBack setCurrentIndex setState run when emit foldl];
    case_all; reflexivity.
Qed.

(** X12. From an index that is not the last one, skip-next followed by
    skip-back brings the playlist back to where it was; the host hears
    [onSkipNext(i + 1)] and then [onSkipBack(i)]; and after the skip the
    render finds its source, the item at [i + 1]. *)
Theorem skip_round_trip
    (w : World) (l : PlayList) (i : Z) (its : list NexenSource) :
  playList (st w) = Some l ->
  currentIndex l = Some i ->
  items l = Some its ->
  0 <= i < Z.of_nat (length its) - 1 ->
  let w' := steps [SkipNext; SkipBack] w in
  playList (st w') = playList (st w)
  /\ log w' = log w ++ opt (onSkipNext (props w)) (HostSkipNext (i + 1))
                    ++ opt (onSkipBack (props w)) (HostSkipBack i)
  /\ newSource (st (step SkipNext w)) = its !! Z.to_nat (i + 1)
  /\ is_Some (newSource (st (step SkipNext w))).
Proof.
  intros Hl Hi Hits Hb. destruct l as [its0 i0]. simpl in Hi, Hits. subst its0 i0.
  cbv zeta. unfold steps. cbn [foldl]. rewrite step_skip_back, step_skip_next.
  assert (E1 : (i <? Z.of_nat (length its) - 1) = true) by (apply Z.ltb_lt; lia).
  assert (E2 : (0 <? i + 1) = true) by (apply Z.ltb_lt; lia).
  assert (Hnext : _onSkipNext w
                  = run [setCurrentIndex (Some (i + 1));
                         when (onSkipNext (props w)) (emit (HostSkipNext (i + 1)))] w).
  { unfold _onSkipNext. rewrite Hl. simpl. by rewrite E1. }
  assert (Hpl : playList (st (_onSkipNext w))
                = Some {| items := Some its; currentIndex := Some (i + 1) |}).
  { rewrite Hnext. unfold run, setCurrentIndex, setState. cbn [foldl].
    destruct (onSkipNext (props w)); simpl; by rewrite Hl. }
  assert (Hprops : props (_onSkipNext w) = props w).
  { rewrite Hnext. unfold run, setCurrentIndex, setState. cbn [foldl].
    destruct (onSkipNext (props w)); reflexivity. }
  assert (Hlog : log (_onSkipNext w)
                 = log w ++ opt (onSkipNext (props w)) (HostSkipNext (i + 1))).
  { rewrite Hnext. unfold run, setCurrentIndex, setState. cbn [foldl].
    destruct (onSkipNext (props w)); simpl; by rewrite ?app_nil_r. }
  split; [|split; [|split]].
  - unfold _onSkipBack at 1. rewrite Hpl. simpl. rewrite E2.
    unfold run, setCurrentIndex, setState. cbn [foldl]. rewrite Hprops.
    destruct (onSkipBack (props w)); simpl; rewrite Hpl, Hl; simpl;
      do 3 f_equal; lia.
  - unfold _onSkipBack at 1. rewrite Hpl. simpl. rewrite E2.
    unfold run, setCurrentIndex, setState. cbn [foldl]. rewrite Hprops.
    replace (i + 1 - 1) with i by lia.
    destruct (onSkipBack (props w)); simpl; rewrite Hlog, <- ?app_assoc, ?app_nil_r;
      reflexivity.
  - unfold newSource. rewrite Hpl. simpl.
    destruct its as [|a its']; [simpl in Hb; lia|]. simpl negb. cbv iota.
    assert (E3 : (i + 1 <? 0) = false) by (apply Z.ltb_ge; lia).
    by rewrite E3.
  - unfold newSource. rewrite Hpl. simpl.
    destruct its as [|a its']; [simpl in Hb; lia|]. simpl negb. cbv iota.
    assert (E3 : (i + 1 <? 0) = false) by (apply Z.ltb_ge; lia).
    rewrite E3. apply lookup_lt_is_Some. simpl length in *. lia.
Qed.

(** X13. Skipping at the edges does nothing at all, and calls no
    callback: skip-next without items, without an index or at or past the
    last index; skip-back without an index or at or below index 0. Both
    are so on a player mounted without a playlist, whatever its config. *)
Theorem skip_edges (w : World) (pr : NexenPlayerProps) :
  ((playList (st w) ≫= items) = None \/ (playList (st w) ≫= currentIndex) = None ->
     step SkipNext w = w)
  /\ (forall its i,
        (playList (st w) ≫= items) = Some its ->
        (playList (st w) ≫= currentIndex) = Some i ->
        Z.of_nat (length its) - 1 <= i ->
        step SkipNext w = w)
  /\ ((playList (st w) ≫= currentIndex) = None -> step SkipBack w = w)
  /\ (forall i, (playList (st w) ≫= currentIndex) = Some i -> i <= 0 ->
        step SkipBack w = w)
  /\ (playListProp pr = None ->
      step SkipNext (mount pr) = mount pr /\ step SkipBack (mount pr) = mount pr).
Proof.
  assert (Hnext : forall x its i,
            (playList (st x) ≫= items) = Some its ->
            (playList (st x) ≫= currentIndex) = Some i ->
            Z.of_nat (length its) - 1 <= i -> step SkipNext x = x).
  { intros x its i Hits Hi Hge. rewrite step_skip_next. unfold _onSkipNext.
    destruct (playList (st x)) as [l|]; [|reflexivity]. simpl in Hits, Hi.
    rewrite Hits, Hi.
    assert (E : (i <? Z.of_nat (length its) - 1) = false) by (apply Z.ltb_ge; lia).
    by rewrite E. }
  assert (Hback : forall x i,
            (playList (st x) ≫= currentIndex) = Some i -> i <= 0 -> step SkipBack x = x).
  { intros x i Hi Hle. rewrite step_skip_back. unfold _onSkipBack.
    destruct (playList (st x)) as [l|]; [|reflexivity]. simpl in Hi. rewrite Hi.
    assert (E : (0 <? i) = false) by (apply Z.ltb_ge; lia).
    by rewrite E. }
  split; [|split; [|split; [|split]]].
  - intros H. rewrite step_skip_next. unfold _onSkipNext.
    destruct (playList (st w)) as [l|]; [|reflexivity]. simpl in H.
    destruct H as [-> | ->]; [by destruct (currentIndex l) | reflexivity].
  - apply Hnext.
  - intros H. rewrite step_skip_back. unfold _onSkipBack.
    destruct (playList (st w)) as [l|]; [|reflexivity]. simpl in H. by rewrite H.
  - apply Hback.
  - intros Hnone.
    assert (Hpl : playList (st (mount pr)) = Some DEFAULT_PLAYLIST).
    { unfold mount. rewrite rerender_st. unfold run. cbn [foldl].
      cbv [effect_playerPlayList effect_playerSource run foldl setState setRef].
      cbn [st set_st set_refs playList set_playList set_disablePlaylistAndSkip
             set_nexenSource].
      rewrite Hnone. cbn [default mbind option_bind items currentIndex DEFAULT_PLAYLIST].
      reflexivity. }
    split.
    + apply (Hnext _ [] 0); rewrite ?Hpl; try reflexivity. simpl. lia.
    + apply (Hback _ 0); rewrite ?Hpl; try reflexivity.
Qed.

(** ** The overlay *)

(** X14. What the render never draws together. While [error] is set
    there is no poster, loader or play button. The on-screen play button
    appears only over the bare video: no controls, no panel, no loader,
    not locked. Header and footer come and go together and replace the
    thin progress line, which also hides under the more, speed and track
    panels but stays under the playlist panel. *)
Theorem overlay_exclusions (s : PlayerState) (r : Refs) (src : NexenSource) :
  let o := render_overlay s r src in
  (error s = true -> posterView o = false /\ loader o = false /\ playButton o = false)
  /\ (playButton o = true ->
      paused s = true /\ locked s = false
      /\ headerControl o = false /\ footerControl o = false
      /\ moreControl o = false /\ speedControl o = false
      /\ trackControl o = false /\ playlistControl o = false
      /\ loader o = false /\ lineSeekBar o = true)
  /\ headerControl o = footerControl o
  /\ (headerControl o = true -> lineSeekBar o = false)
  /\ (moreControl o = true \/ speedControl o = true \/ trackControl o = true ->
      lineSeekBar o = false)
  /\ (lineSeekBar o
      = negb (headerControl o || moreControl o || speedControl o || trackControl o))
  /\ (posterView o = true ->
      exists u, poster src = Some u /\ u ≠ "" /\ showPoster r = true).
Proof.
  cbv zeta. unfold render_overlay, posterDisabled. simpl.
  split; [|split; [|split; [|split; [|split; [|split]]]]].
  - intros ->. rewrite !andb_false_r. repeat split.
  - intros H. repeat (apply andb_true_iff in H as [H ?]).
    repeat match goal with
    | H : negb _ = true |- _ => apply negb_true_iff in H
    end.
    repeat match goal with
    | H : _ = _ |- _ => rewrite H
    end. repeat split.
  - reflexivity.
  - by intros ->.
  - intros [-> | [-> | ->]]; by rewrite ?andb_false_r.
  - by destruct (showControl s), (showMoreControl s), (showSpeedControl s),
      (showTrackControl s).
  - intros H. repeat (apply andb_true_iff in H as [H ?]).
    destruct (poster src) as [u|]; [|discriminate].
    exists u. repeat split; [|assumption].
    intros ->. discriminate.
Qed.

(** ** Progress *)

(** X15. A progress event always lets go of the poster. Outside a
    seek-bar drag it replaces the three displayed times by the event's;
    during one ([isSeeking]) it leaves the displayed times alone. It logs
    nothing and triggers no effect. *)
Theorem progress_spec (w : World) (data : OnProgressData) (src : NexenSource) :
  let w' := after (_onProgress data) w in
  showPoster (refs w') = false
  /\ posterView (render_overlay (st w') (refs w') src) = false
  /\ (isSeeking (refs w) = true -> st w' = st w)
  /\ (isSeeking (refs w) = false ->
      trackInfo (st w')
      = {| trackTime := progress_currentTime data;
           totalTrackTime := seekableDuration data;
           cachedTrackTime := playableDuration data |})
  /\ log w' = log w
  /\ timers w' = timers w.
Proof.
  cbv zeta.
  assert (E : after (_onProgress data) w = _onProgress data w).
  { unfold after. apply rerender_unchanged;
      cbv [_onProgress setState setRef run foldl]; cbn;
      destruct (isSeeking (refs w)); reflexivity. }
  rewrite E. cbv [_onProgress setState setRef run foldl render_overlay]. cbn.
  destruct (isSeeking (refs w)); cbn; rewrite ?andb_false_r;
    repeat split; try discriminate.
Qed.

(** ** The playlist panel *)

(** X16. With the current index inside the list, the playlist panel
    shows one entry per item, marks exactly the entry at the current
    index as on, draws the play icon on every other entry and on no
    marked one, and the marked entry carries the title of the source the
    player is rendering. An entry's image is the item's poster, or the
    stock image when the poster is missing or empty. *)
Theorem playlist_panel_marks_current
    (s : PlayerState) (l : PlayList) (its : list NexenSource) (i : Z) :
  playList s = Some l ->
  items l = Some its ->
  currentIndex l = Some i ->
  0 <= i < Z.of_nat (length its) ->
  length (playlist_panel s) = length its
  /\ (forall n v, playlist_panel s !! n = Some v ->
        (itemOn v = true <-> Z.of_nat n = i) /\ playIcon v = negb (itemOn v))
  /\ (exists src v,
        newSource s = Some src
        /\ playlist_panel s !! Z.to_nat i = Some v
        /\ itemOn v = true
        /\ titleText v = title src)
  /\ (forall n v item,
        playlist_panel s !! n = Some v ->
        its !! n = Some item ->
        imageUri v = match poster item with
                     | Some u => if String.eqb u "" then DEFAULT_ITEM_IMAGE else u
                     | None => DEFAULT_ITEM_IMAGE
                     end).
Proof.
  intros Hl Hits Hi Hb.
  assert (Hp : playlist_panel s = imap (renderPlayListItem (Some i)) its).
  { unfold playlist_panel, PlaylistControl_items. rewrite Hl. simpl.
    by rewrite Hits, Hi. }
  rewrite Hp. split; [apply length_imap|]. split; [|split].
  - intros n v Hv. rewrite list_lookup_imap in Hv.
    destruct (its !! n) as [item|]; [|discriminate]. injection Hv as <-.
    simpl. split; [|reflexivity]. rewrite Z.eqb_eq. split; intros; lia.
  - destruct (lookup_lt_is_Some_2 its (Z.to_nat i)) as [src Hsrc]; [lia|].
    exists src, (renderPlayListItem (Some i) (Z.to_nat i) src).
    split; [|split; [|split]].
    + unfold newSource. rewrite Hl. simpl. rewrite Hits, Hi.
      destruct its as [|a its']; [simpl in Hb; lia|]. simpl negb. cbv iota.
      assert (E : (i <? 0) = false) by (apply Z.ltb_ge; lia).
      by rewrite E.
    + by rewrite list_lookup_imap, Hsrc.
    + simpl. apply Z.eqb_eq. lia.
    + reflexivity.
  - intros n v item Hv Hitem. rewrite list_lookup_imap, Hitem in Hv.
    by injection Hv as <-.
Qed.

(** ** Opening and closing a panel *)

Lemma step_frame (i : Input) (w : World) :
  st (step i w) = st (handle i w)
  /\ animating (step i w) = animating (handle i w)
  /\ gestureEnabled (refs (step i w)) = gestureEnabled (refs (handle i w))
  /\ props (step i w) = props (handle i w).
Proof.
  unfold step.
  destruct (rerender_frame w (handle i w)) as (-> & -> & -> & _ & -> & _).
  repeat split.
Qed.

Lemma rerender_after_frame (a : Action) (w : World) :
  st (after a w) = st (a w)
  /\ animating (after a w) = animating (a w)
  /\ gestureEnabled (refs (after a w)) = gestureEnabled (refs (a w))
  /\ props (after a w) = props (a w).
Proof.
  unfold after.
  destruct (rerender_frame w (a w)) as (-> & -> & -> & _ & -> & _).
  repeat split.
Qed.

(** An opener ran on controls that were up, with nothing animating:
    when the hide animation completes the controls are down. *)
Lemma opened_when_hidden (a : Action) (w : World) :
  animating (a w) = [HideControlDone] ->
  let opened := steps [AnimationsEnd] (after a w) in
  st opened = set_showControl (st (a w)) false
  /\ animating opened = []
  /\ gestureEnabled (refs opened) = gestureEnabled (refs (a w)).
Proof.
  intros Han. cbv zeta. unfold steps. cbn [foldl].
  destruct (rerender_after_frame a w) as (Hst1 & Han1 & Hg1 & _).
  rewrite Han in Han1.
  set (w1 := after a w) in *. clearbody w1.
  destruct (step_frame AnimationsEnd w1) as (-> & -> & -> & _).
  unfold handle, animations_end. rewrite Han1. simpl.
  unfold run, setState. simpl. by rewrite Hst1, Hg1.
Qed.

(** A single tap on a world with exactly the panel [p] open, the
    controls down and nothing animating: the tap calls the panel's
    [hide] and hands it a callback; the callback, once called, clears the
    panel's flag. *)
Lemma tap_on_panel (p : Panel) (x : World) :
  showControl (st x) = false ->
  showMoreControl (st x) = match p with MorePanel => true | _ => false end ->
  showSpeedControl (st x) = match p with SpeedPanel => true | _ => false end ->
  showTrackControl (st x) = match p with TrackPanel => true | _ => false end ->
  showPlaylistControl (st x) = match p with PlaylistPanel => true | _ => false end ->
  animating x = [] ->
  let tapped := step (Tap SINGLE_TAP None) x in
  let back := after (run_callback (HidePanelDone p)) tapped in
  log (handle (Tap SINGLE_TAP None) x) = log x ++ [PanelHide p]
  /\ st tapped = st x
  /\ gestureEnabled (refs tapped) = true
  /\ animating tapped = [HidePanelDone p]
  /\ showControl (st back) = false
  /\ showMoreControl (st back) = false
  /\ showSpeedControl (st back) = false
  /\ showTrackControl (st back) = false
  /\ showPlaylistControl (st back) = false
  /\ gestureEnabled (refs back) = true
  /\ paused (st back) = paused (st x).
Proof.
  intros Hc Hm Hs Ht Hp Ha. cbv zeta.
  assert (Hh : handle (Tap SINGLE_TAP None) x
               = setRef (fun r => set_gestureEnabled r true)
                   (set_animating (set_log x (log x ++ [PanelHide p]))
                      (animating x ++ [HidePanelDone p]))).
  { unfold handle, _onTapDetected, hidePanel, panelRef_current.
    rewrite Hm, Hs, Ht, Hp. destruct p; simpl; rewrite ?Hm, ?Hs, ?Ht, ?Hp; reflexivity. }
  destruct (step_frame (Tap SINGLE_TAP None) x) as (Hst3 & Han3 & Hg3 & _).
  rewrite Hh in Hst3, Han3, Hg3. simpl in Hst3, Han3, Hg3. rewrite Ha in Han3.
  split; [by rewrite Hh|].
  set (w3 := step (Tap SINGLE_TAP None) x) in *. clearbody w3.
  split; [exact Hst3|]. split; [exact Hg3|]. split; [exact Han3|].
  destruct (rerender_after_frame (run_callback (HidePanelDone p)) w3)
    as (-> & _ & -> & _).
  destruct p; simpl; rewrite Hst3, ?Hg3; simpl; repeat split; assumption.
Qed.

(** X17. With the controls up, no panel open and no animation running,
    the header's "more" button, the footer's subtitle button and its
    playlist button each open their panel, switch gestures off and start
    hiding the main controls, which are gone when the animation
    completes. A single tap then goes to the panel: it calls the panel's
    [hide] with a callback, switches gestures on and changes no state;
    when the panel calls that callback, no panel and no controls are
    shown and [paused] is what it was. *)
Theorem panel_round_trip (w : World) :
  showControl (st w) = true ->
  showMoreControl (st w) = false ->
  showSpeedControl (st w) = false ->
  showTrackControl (st w) = false ->
  showPlaylistControl (st w) = false ->
  animating w = [] ->
  let round := fun (p : Panel) (opened : World) =>
    let tapped := step (Tap SINGLE_TAP None) opened in
    let back := after (run_callback (HidePanelDone p)) tapped in
    log (handle (Tap SINGLE_TAP None) opened) = log opened ++ [PanelHide p]
    /\ st tapped = st opened
    /\ gestureEnabled (refs tapped) = true
    /\ animating tapped = [HidePanelDone p]
    /\ showControl (st back) = false
    /\ showMoreControl (st back) = false
    /\ showSpeedControl (st back) = false
    /\ showTrackControl (st back) = false
    /\ showPlaylistControl (st back) = false
    /\ gestureEnabled (refs back) = true
    /\ paused (st back) = paused (st w) in
  (let opened := steps [AnimationsEnd] (after _onMorePress w) in
     (showMoreControl (st opened) = true /\ showControl (st opened) = false
      /\ gestureEnabled (refs opened) = false)
     /\ round MorePanel opened)
  /\ (let opened := steps [AnimationsEnd] (after _onCcPress w) in
     (showTrackControl (st opened) = true /\ showControl (st opened) = false
      /\ gestureEnabled (refs opened) = false)
     /\ round TrackPanel opened)
  /\ (let opened := steps [AnimationsEnd] (after _onVideoListPress w) in
     (showPlaylistControl (st opened) = true /\ showControl (st opened) = false
      /\ gestureEnabled (refs opened) = false)
     /\ round PlaylistPanel opened).
Proof.
  intros Hc Hm Hs Ht Hp Ha. cbv zeta. split; [|split].
  - destruct (opened_when_hidden _onMorePress w) as (Hst & Han & Hg);
      [unfold _onMorePress, hideMainControl, run; simpl; by rewrite Ha|].
    set (opened := steps [AnimationsEnd] (after _onMorePress w)) in *.
    clearbody opened. simpl in Hst, Hg.
    split; [rewrite Hst, Hg; repeat split|].
    destruct (tap_on_panel MorePanel opened)
      as (? & ? & ? & ? & ? & ? & ? & ? & ? & ? & Hpa);
      try (rewrite Hst; simpl; assumption); try (by rewrite Hst); [assumption|].
    rewrite Hst in Hpa. repeat split; assumption.
  - destruct (opened_when_hidden _onCcPress w) as (Hst & Han & Hg);
      [unfold _onCcPress, hideMainControl, run; simpl; by rewrite Ha|].
    set (opened := steps [AnimationsEnd] (after _onCcPress w)) in *.
    clearbody opened. simpl in Hst, Hg.
    split; [rewrite Hst, Hg; repeat split|].
    destruct (tap_on_panel TrackPanel opened)
      as (? & ? & ? & ? & ? & ? & ? & ? & ? & ? & Hpa);
      try (rewrite Hst; simpl; assumption); try (by rewrite Hst); [assumption|].
    rewrite Hst in Hpa. repeat split; assumption.
  - destruct (opened_when_hidden _onVideoListPress w) as (Hst & Han & Hg);
      [unfold _onVideoListPress, hideMainControl, run; simpl; by rewrite Ha|].
    set (opened := steps [AnimationsEnd] (after _onVideoListPress w)) in *.
    clearbody opened. simpl in Hst, Hg.
    split; [rewrite Hst, Hg; repeat split|].
    destruct (tap_on_panel PlaylistPanel opened)
      as (? & ? & ? & ? & ? & ? & ? & ? & ? & ? & Hpa);
      try (rewrite Hst; simpl; assumption); try (by rewrite Hst); [assumption|].
    rewrite Hst in Hpa. repeat split; assumption.
Qed.

(** ** Full screen *)

(** X18. The footer's full-screen button flips [fullScreen], hides the
    system bar on the way in and shows it on the way out, tells the host
    the new mode, and the re-render brings [isFullscreen.current] up to
    date; a second press restores the mode. [setFullScreenMode] on the
    handle changes the mode without touching the system bar. *)
Theorem toggle_fullscreen_spec (w : World) (b : bool) :
  let f := fullScreen (st w) in
  let w' := step ToggleFullScreen w in
  fullScreen (st w') = negb f
  /\ isFullscreen (refs w') = negb f
  /\ log (handle ToggleFullScreen w)
     = log w ++ [if f then ShowSystemBar else HideSystemBar]
             ++ opt (onFullScreenModeUpdate (props w))
                  (HostFullScreenModeUpdate (negb f) (reported_index (st w)))
  /\ fullScreen (st (step ToggleFullScreen w')) = f
  /\ (ShowSystemBar ∈ log (handle (RefSetFullScreenMode b) w)
        -> ShowSystemBar ∈ log w)
  /\ (HideSystemBar ∈ log (handle (RefSetFullScreenMode b) w)
        -> HideSystemBar ∈ log w).
Proof.
  cbv zeta.
  assert (Hst : forall x, fullScreen (st (handle ToggleFullScreen x))
                          = negb (fullScreen (st x))).
  { intros x. unfold handle, _onToggleFullScreen, run, setState. cbn [foldl].
    destruct (onFullScreenModeUpdate (props x)); reflexivity. }
  split; [by rewrite step_st, Hst|]. split; [|split; [|split; [|split]]].
  - unfold step. rewrite rerender_sync; [apply Hst|]. right.
    rewrite Hst. by destruct (fullScreen (st w)).
  - unfold_handle.
    destruct (fullScreen (st w)), (onFullScreenModeUpdate (props w)); cbn;
      rewrite <- ?app_assoc, ?app_nil_r; reflexivity.
  - rewrite !step_st, Hst, step_st, Hst. apply negb_involutive.
  - unfold_handle. destruct (onFullScreenModeUpdate (props w)); cbn; [|done].
    intros H. apply elem_of_app in H as [H | H]; [exact H|].
    apply list_elem_of_singleton in H. discriminate.
  - unfold_handle. destruct (onFullScreenModeUpdate (props w)); cbn; [|done].
    intros H. apply elem_of_app in H as [H | H]; [exact H|].
    apply list_elem_of_singleton in H. discriminate.
Qed.

(** ** Settings *)

(** No effect touches the refs that gate seeking. *)
Lemma rerender_seekable (before w : World) :
  isSeekable (refs (rerender before w)) = isSeekable (refs w)
  /\ isVolumeSeekable (refs (rerender before w)) = isVolumeSeekable (refs w).
Proof.
  assert (P : forall x, isSeekable (refs (effect_paused x)) = isSeekable (refs x)
                        /\ isVolumeSeekable (refs (effect_paused x))
                           = isVolumeSeekable (refs x)).
  { intros x. cbv [effect_paused setRef run when emit foldl]. case_all; by split. }
  assert (S : forall x, isSeekable (refs (effect_showControl x)) = isSeekable (refs x)
                        /\ isVolumeSeekable (refs (effect_showControl x))
                           = isVolumeSeekable (refs x)).
  { intros x.
    cbv [effect_showControl setControlTimeout clearControlTimeout clearTimeout
           headerControlRef_current setRef run when emit foldl].
    destruct (showControl (st x)),
      (strict_eq (get (nexenConfig (st x)) "controlHideMode") (VStr "auto")),
      (strict_eq (get (nexenConfig (st x)) "layoutMode") (VStr "advanced"));
      cbn; try (split; reflexivity);
      destruct (controlTimeoutRef (refs x)); by split. }
  unfold rerender, run, when. cbn [foldl].
  destruct (negb (Bool.eqb (paused (st before)) (paused (st w))));
    match goal with
    | |- context [if ?b then _ else _] => destruct b
    end;
    rewrite ?(proj1 (S _)), ?(proj2 (S _)), ?(proj1 (P _)), ?(proj2 (P _)); by split.
Qed.

(** What a press leaves behind once the re-render has run. *)
Lemma pressed_frame (h : Handler) (cb : MoreCallbacks) (w : World) :
  st (pressed h cb w) = st (h cb w).1
  /\ isSeekable (refs (pressed h cb w)) = isSeekable (refs (h cb w).1)
  /\ isVolumeSeekable (refs (pressed h cb w)) = isVolumeSeekable (refs (h cb w).1)
  /\ gestureEnabled (refs (pressed h cb w)) = gestureEnabled (refs (h cb w).1).
Proof.
  unfold pressed, after.
  destruct (rerender_seekable w (h cb w).1) as (-> & ->).
  destruct (rerender_frame w (h cb w).1) as (-> & _ & _ & _ & -> & _).
  repeat split.
Qed.

(** Whichever branch renders it, the video element takes these props
    from the state. *)
Lemma video_props (s : PlayerState) (src : NexenSource) (p : Video.Props) :
  video_element s src = Some p ->
  Video.paused p = paused s
  /\ Video.muted p = get (nexenConfig s) "muted"
  /\ Video.repeat p = get (nexenConfig s) "repeat"
  /\ Video.rate p = get (nexenConfig s) "playbackSpeed"
  /\ Video.resizeMode p = get (nexenConfig s) "resizeMode"
  /\ Video.volume p = div100 (get (nexenConfig s) "volume").
Proof.
  unfold video_element.
  destruct (truthy (get (nexenConfig s) "optimize"));
    [destruct (strict_eq (get (nexenConfig s) "index") (get (nexenConfig s) "activeIndex"))|];
    intros [= <-]; repeat split.
Qed.

(** X19. The footer's volume button flips [muted]: after the press and
    its re-render the new value is stored as a boolean in the config, the
    video element is rendered with it, [onMuteUpdate] hears it, and
    [isVolumeSeekable.current] is left equal to the negation of the new
    [muted]. No other config field moves, and a second press brings
    [muted] back. *)
Theorem mute_toggle_spec (cb : MoreCallbacks) (w : World) (src : NexenSource) :
  let m := truthy (get (nexenConfig (st w)) "muted") in
  let w' := pressed _onToggleVolume cb w in
  get (nexenConfig (st w')) "muted" = VBool (negb m)
  /\ isVolumeSeekable (refs w') = negb (truthy (get (nexenConfig (st w')) "muted"))
  /\ (_onToggleVolume cb w).2 = called (onMuteUpdate cb) (MuteUpdate (negb m))
  /\ (forall p, video_element (st w') src = Some p -> Video.muted p = VBool (negb m))
  /\ (forall k, k ≠ "muted" -> nexenConfig (st w') !! k = nexenConfig (st w) !! k)
  /\ get (nexenConfig (st (pressed _onToggleVolume cb w'))) "muted" = VBool m.
Proof.
  cbv zeta.
  assert (E0 : forall x,
            nexenConfig (st (_onToggleVolume cb x).1)
            = <["muted" := VBool (negb (truthy (get (nexenConfig (st x)) "muted")))]>
                (nexenConfig (st x))).
  { intros x. cbv [_onToggleVolume handleMuteVideo setNexenConfig setRef run when
                     emit foldl fst with_field].
    destruct (tipViewRef_current (st x)); reflexivity. }
  assert (E : forall x,
            nexenConfig (st (pressed _onToggleVolume cb x))
            = <["muted" := VBool (negb (truthy (get (nexenConfig (st x)) "muted")))]>
                (nexenConfig (st x))).
  { intros x. destruct (pressed_frame _onToggleVolume cb x) as (-> & _). apply E0. }
  split; [by rewrite E, get_insert_eq|]. split; [|split; [reflexivity|split; [|split]]].
  - rewrite E, get_insert_eq.
    destruct (pressed_frame _onToggleVolume cb w) as (_ & _ & -> & _).
    cbv [_onToggleVolume handleMuteVideo setNexenConfig setRef run when emit foldl fst].
    destruct (tipViewRef_current (st w)); simpl; by rewrite negb_involutive.
  - intros p Hp. apply video_props in Hp as (_ & -> & _).
    by rewrite E, get_insert_eq.
  - intros k Hk. rewrite E. by rewrite lookup_insert_ne.
  - rewrite !E, !get_insert_eq. simpl. by rewrite negb_involutive.
Qed.

(** X20. Pressing entry [n] of the playlist panel makes item [n] current:
    the next render plays that item, the panel marks exactly that entry,
    and [onPlayListItemSelect(n)] is called. The handler itself accepts
    any index: one past the end of a non-empty list leaves the render
    without a source. *)
Theorem playlist_item_press_spec
    (cb : MoreCallbacks) (w : World) (l : PlayList) (its : list NexenSource) (n : nat) :
  playList (st w) = Some l ->
  items l = Some its ->
  let w' := after (fun x => (_onPlaylistItemPress (Z.of_nat n) cb x).1) w in
  (_onPlaylistItemPress (Z.of_nat n) cb w).2
  = called (onPlayListItemSelect cb) (PlayListItemSelect (Z.of_nat n))
  /\ log w' = log w
  /\ (forall v, playlist_panel (st w) !! n = Some v ->
        newSource (st w') = its !! n
        /\ is_Some (newSource (st w'))
        /\ (forall k v', playlist_panel (st w') !! k = Some v' ->
              (itemOn v' = true <-> k = n)))
  /\ ((length its <= n)%nat -> its ≠ [] -> newSource (st w') = None).
Proof.
  intros Hl Hits. cbv zeta.
  assert (E : after (fun x => (_onPlaylistItemPress (Z.of_nat n) cb x).1) w
              = setCurrentIndex (Some (Z.of_nat n)) w).
  { unfold after. apply rerender_unchanged; reflexivity. }
  rewrite E.
  assert (Hpl : playList (st (setCurrentIndex (Some (Z.of_nat n)) w))
                = Some {| items := Some its; currentIndex := Some (Z.of_nat n) |}).
  { unfold setCurrentIndex, setState. simpl. by rewrite Hl, Hits. }
  assert (Hsrc : its ≠ [] ->
            newSource (st (setCurrentIndex (Some (Z.of_nat n)) w)) = its !! n).
  { intros Hne. unfold newSource. rewrite Hpl. simpl.
    destruct its as [|a its']; [done|]. simpl negb. cbv iota.
    assert (E0 : (Z.of_nat n <? 0) = false) by (apply Z.ltb_ge; lia).
    by rewrite E0, Nat2Z.id. }
  split; [reflexivity|]. split; [reflexivity|]. split.
  - intros v Hv.
    assert (Hlen : (n < length its)%nat).
    { apply lookup_lt_Some in Hv. unfold playlist_panel, PlaylistControl_items in Hv.
      rewrite length_imap, Hl in Hv. simpl in Hv. by rewrite Hits in Hv. }
    assert (Hne : its ≠ []) by (destruct its; [simpl in Hlen; lia | done]).
    split; [by apply Hsrc|]. split; [rewrite Hsrc by done; by apply lookup_lt_is_Some|].
    intros k v' Hv'. unfold playlist_panel, PlaylistControl_items in Hv'.
    rewrite Hpl in Hv'. simpl in Hv'. rewrite list_lookup_imap in Hv'.
    destruct (its !! k); [|discriminate]. injection Hv' as <-. simpl.
    rewrite Z.eqb_eq. split; intros; lia.
  - intros Hge Hne. rewrite Hsrc by done. by apply lookup_ge_None.
Qed.

(** X21. The more panel's items. "lock" asks the panel to hide, sets
    [locked], switches seeking and gestures off and tells the host
    [onScreenLockUpdate(true)]; the play button is not drawn while
    locked. The lock slider's end undoes it: [locked] off, seeking and
    gestures on, with a tip and without any word to the host; config and
    [paused] are as before the lock. An item whose id is none of lock,
    speed and repeat does nothing. The states are those after the
    re-render, the logs those of the handlers themselves. *)
Theorem lock_round_trip (cb : MoreCallbacks) (w : World) (id : string) (src : NexenSource) :
  let w1 := pressed (_onMoreItemPress "lock") cb w in
  let w2 := after _onReachedToEnd w1 in
  (locked (st w1) = true
   /\ isSeekable (refs w1) = false
   /\ gestureEnabled (refs w1) = false
   /\ (_onMoreItemPress "lock" cb w).2
      = called (onScreenLockUpdate cb) (ScreenLockUpdate true)
   /\ log (_onMoreItemPress "lock" cb w).1
      = log w ++ opt (showMoreControl (st w)) (PanelHide MorePanel)
              ++ opt (tipViewRef_current (st w)) (TipShow "加锁")
   /\ playButton (render_overlay (st w1) (refs w1) src) = false)
  /\ (locked (st w2) = false
   /\ isSeekable (refs w2) = true
   /\ gestureEnabled (refs w2) = true
   /\ log (_onReachedToEnd w1)
      = log w1 ++ opt (tipViewRef_current (st w)) (TipShow "解锁")
   /\ nexenConfig (st w2) = nexenConfig (st w)
   /\ paused (st w2) = paused (st w))
  /\ (id ≠ "lock" -> id ≠ "speed" -> id ≠ "repeat" ->
      _onMoreItemPress id cb w = (w, [])).
Proof.
  cbv zeta.
  assert (L : st (_onMoreItemPress "lock" cb w).1 = set_locked (st w) true
              /\ isSeekable (refs (_onMoreItemPress "lock" cb w).1) = false
              /\ gestureEnabled (refs (_onMoreItemPress "lock" cb w).1) = false
              /\ log (_onMoreItemPress "lock" cb w).1
                 = log w ++ opt (showMoreControl (st w)) (PanelHide MorePanel)
                         ++ opt (tipViewRef_current (st w)) (TipShow "加锁")).
  { cbv [_onMoreItemPress handleLockScreen hidePanel panelRef_current
           tipViewRef_current setState setRef run when emit foldl fst snd].
    simpl String.eqb. cbv iota.
    destruct (showMoreControl (st w)) eqn:Hm,
      (strict_eq (get (nexenConfig (st w)) "layoutMode") (VStr "basic")) eqn:Hl;
      cbn; rewrite ?Hl; cbn; rewrite <- ?app_assoc, ?app_nil_r; repeat split. }
  destruct L as (Lst & Lseek & Lgest & Llog).
  destruct (pressed_frame (_onMoreItemPress "lock") cb w) as (Pst & Pseek & _ & Pgest).
  assert (U : forall x,
            st (_onReachedToEnd x) = set_locked (st x) false
            /\ isSeekable (refs (_onReachedToEnd x)) = true
            /\ gestureEnabled (refs (_onReachedToEnd x)) = true
            /\ log (_onReachedToEnd x)
               = log x ++ opt (tipViewRef_current (st x)) (TipShow "解锁")).
  { intros x. cbv [_onReachedToEnd setState setRef run when emit foldl].
    destruct (tipViewRef_current (st x)); cbn; rewrite ?app_nil_r; repeat split. }
  split; [|split].
  - rewrite Pst, Pseek, Pgest, Lst, Lseek, Lgest.
    split; [reflexivity|]. split; [reflexivity|]. split; [reflexivity|].
    split; [|split; [exact Llog|]].
    + cbv [_onMoreItemPress handleLockScreen snd]. simpl String.eqb. cbv iota.
      reflexivity.
    + unfold render_overlay. simpl. by rewrite !andb_false_r.
  - set (w1 := pressed (_onMoreItemPress "lock") cb w) in *.
    destruct (U w1) as (Ust & Useek & Ugest & Ulog).
    destruct (rerender_seekable w1 (_onReachedToEnd w1)) as (Rseek & _).
    destruct (rerender_frame w1 (_onReachedToEnd w1)) as (Rst & _ & _ & _ & Rgest & _).
    unfold after. rewrite Rst, Rseek, Rgest, Ust, Useek, Ugest, Ulog, Pst, Lst.
    repeat split.
  - intros H1 H2 H3. unfold _onMoreItemPress.
    apply String.eqb_neq in H1, H2, H3. by rewrite H1, H2, H3.
Qed.

(** X22. The hardware back button, at any point of a session of any
    turns: it always reports the press as handled. In full-screen mode it
    leaves that mode, shows the system bar and tells the host the new
    mode together with the index of the first render; otherwise it
    changes nothing and hands the press to the host's [onBackPress]. *)
Theorem back_press_spec
    (pr : NexenPlayerProps) (hc : HostCallbacks) (ts : list Turn) :
  let w := world (play pr hc ts) in
  let r := _onBackPress (initial_state pr) (more hc) w in
  r.2 = true
  /\ world (play pr hc (ts ++ [BackPressed])) = rerender w r.1.1
  /\ (fullScreen (st w) = true ->
      fullScreen (st r.1.1) = false
      /\ r.1.2 = []
      /\ log r.1.1
         = log w ++ [ShowSystemBar]
                 ++ opt (onFullScreenModeUpdate (props w))
                      (HostFullScreenModeUpdate false
                         (reported_index (initial_state pr)))
      /\ isFullscreen (refs (rerender w r.1.1)) = false)
  /\ (fullScreen (st w) = false ->
      r.1.1 = w /\ r.1.2 = called (onBackPress (more hc)) BackPress).
Proof.
  cbv zeta.
  assert (Hnext : world (play pr hc (ts ++ [BackPressed]))
                  = rerender (world (play pr hc ts))
                      (_onBackPress (initial_state pr) (more hc)
                         (world (play pr hc ts))).1.1).
  { unfold play, resume. rewrite foldl_app. reflexivity. }
  pose proof (session_fullscreen_sync pr hc ts) as Hsync.
  set (w := world (play pr hc ts)) in *. clearbody w.
  split; [unfold _onBackPress; by destruct (isFullscreen (refs w))|].
  split; [exact Hnext|]. clear Hnext.
  unfold _onBackPress. rewrite Hsync.
  destruct (fullScreen (st w)) eqn:Hf; cbv iota; cbn [fst snd].
  - split; [|discriminate]. intros _.
    assert (Hfs : fullScreen
                    (st (run [setState (fun p => set_fullScreen p false);
                              emit ShowSystemBar;
                              when (onFullScreenModeUpdate (props w))
                                (emit (HostFullScreenModeUpdate false
                                         (reported_index (initial_state pr))))] w))
                  = false).
    { unfold run, setState. cbn [foldl].
      destruct (onFullScreenModeUpdate (props w)); reflexivity. }
    split; [exact Hfs|]. split; [reflexivity|]. split.
    + unfold run, setState. cbn [foldl].
      destruct (onFullScreenModeUpdate (props w)); simpl;
        rewrite <- ?app_assoc, ?app_nil_r; reflexivity.
    + rewrite rerender_sync; [exact Hfs|]. right. by rewrite Hfs, Hf.
  - split; [discriminate|]. intros _. split; reflexivity.
Qed.

(** X23. Repeat and speed reach the video element. The more panel's
    "repeat" item stores the negation of the current [repeat], the speed
    panel stores the chosen speed; after the re-render the element's
    [repeat] and [rate] props carry the stored values, the host hears the
    new value, and no other config field moves. After "repeat" gestures
    are on. *)
Theorem repeat_and_speed_spec
    (cb : MoreCallbacks) (w : World) (speed : string) (src : NexenSource) :
  let rp := negb (truthy (get (nexenConfig (st w)) "repeat")) in
  let w1 := pressed (_onMoreItemPress "repeat") cb w in
  let w2 := pressed (_onSpeedUpdate speed) cb w in
  (get (nexenConfig (st w1)) "repeat" = VBool rp
   /\ (forall p, video_element (st w1) src = Some p -> Video.repeat p = VBool rp)
   /\ (forall k, k ≠ "repeat" -> nexenConfig (st w1) !! k = nexenConfig (st w) !! k)
   /\ (_onMoreItemPress "repeat" cb w).2 = called (onRepeatUpdate cb) (RepeatUpdate rp)
   /\ gestureEnabled (refs w1) = true)
  /\ (get (nexenConfig (st w2)) "playbackSpeed" = VStr speed
   /\ (forall p, video_element (st w2) src = Some p -> Video.rate p = VStr speed)
   /\ (forall k, k ≠ "playbackSpeed" ->
         nexenConfig (st w2) !! k = nexenConfig (st w) !! k)
   /\ (_onSpeedUpdate speed cb w).2 = called (onSpeedUpdate cb) (SpeedUpdate speed)
   /\ log (_onSpeedUpdate speed cb w).1
      = log w ++ opt (tipViewRef_current (st w)) (TipShow (speed ++ "x 倍速"))).
Proof.
  cbv zeta.
  destruct (pressed_frame (_onMoreItemPress "repeat") cb w) as (P1 & _ & _ & G1).
  destruct (pressed_frame (_onSpeedUpdate speed) cb w) as (P2 & _).
  assert (E1 : nexenConfig (st (pressed (_onMoreItemPress "repeat") cb w))
               = <["repeat" := VBool (negb (truthy (get (nexenConfig (st w)) "repeat")))]>
                   (nexenConfig (st w))).
  { rewrite P1.
    cbv [_onMoreItemPress handleRepeatVideo hidePanel panelRef_current
           tipViewRef_current setNexenConfig setRef run when emit foldl fst
           with_field].
    simpl String.eqb. cbv iota.
    destruct (showMoreControl (st w)) eqn:Hm,
      (strict_eq (get (nexenConfig (st w)) "layoutMode") (VStr "basic")) eqn:Hl;
      cbn; rewrite ?Hl; reflexivity. }
  assert (E2 : nexenConfig (st (pressed (_onSpeedUpdate speed) cb w))
               = <["playbackSpeed" := VStr speed]> (nexenConfig (st w))).
  { rewrite P2.
    cbv [_onSpeedUpdate setNexenConfig run when emit foldl fst with_field].
    destruct (tipViewRef_current (st w)); reflexivity. }
  split; (split; [|split; [|split; [|split]]]).
  - by rewrite E1, get_insert_eq.
  - intros p Hp. apply video_props in Hp as (_ & _ & -> & _).
    by rewrite E1, get_insert_eq.
  - intros k Hk. by rewrite E1, lookup_insert_ne.
  - cbv [_onMoreItemPress handleRepeatVideo snd]. simpl String.eqb. cbv iota.
    reflexivity.
  - rewrite G1.
    cbv [_onMoreItemPress handleRepeatVideo hidePanel panelRef_current
           tipViewRef_current setNexenConfig setRef run when emit foldl fst].
    simpl String.eqb. cbv iota.
    destruct (showMoreControl (st w)) eqn:Hm,
      (strict_eq (get (nexenConfig (st w)) "layoutMode") (VStr "basic")) eqn:Hl;
      cbn; rewrite ?Hl; reflexivity.
  - by rewrite E2, get_insert_eq.
  - intros p Hp. apply video_props in Hp as (_ & _ & _ & -> & _).
    by rewrite E2, get_insert_eq.
  - intros k Hk. by rewrite E2, lookup_insert_ne.
  - reflexivity.
  - cbv [_onSpeedUpdate setNexenConfig run when emit foldl fst].
    destruct (tipViewRef_current (st w)); simpl; by rewrite ?app_nil_r.
Qed.

(** ** The on-screen play button *)

(** X24. Whenever the on-screen play button is drawn, pressing it
    resumes playback: [paused] goes off, the [paused] effect forgets a
    pending stop and calls [onPlay] once, and the next render no longer
    draws the button. *)
Theorem play_button_press_spec (w : World) (src : NexenSource) :
  playButton (render_overlay (st w) (refs w) src) = true ->
  let w' := after _onPlayPress w in
  paused (st w') = false
  /\ playButton (render_overlay (st w') (refs w') src) = false
  /\ log w' = log w ++ opt (onPlay (props w)) (HostPlay (reported_index (st w)))
  /\ isStopped (refs w') = false
  /\ trackInfo (st w') = trackInfo (st w).
Proof.
  intros Hb. cbv zeta.
  assert (Hp : paused (st w) = true).
  { unfold render_overlay in Hb. simpl in Hb.
    by repeat (apply andb_true_iff in Hb as [Hb _]). }
  unfold after.
  rewrite rerender_paused_only by reflexivity.
  cbv [_onPlayPress effect_paused setState setRef run when emit foldl render_overlay].
  cbn. rewrite Hp. cbn.
  destruct (onPlay (props w)); cbn; rewrite ?app_nil_r; repeat split.
Qed.

(** * The further properties at work on the sample sessions *)

(** After the stop button, the video's seek event at 0 resets the times. *)
Lemma seek_event_completes_stop_witness :
  trackTime (trackInfo (st (after (_onSeek {| seekTime := 0; seek_currentTime := 0 |})
                              (step StopPress (mount (demo_props None)))))) = 0%Q.
Proof.
  destruct (seek_event_completes_stop (mount (demo_props None))
              {| seekTime := 0; seek_currentTime := 0 |}) as (_ & _ & H).
  destruct H as (Ht & _); [reflexivity | reflexivity |]. exact Ht.
Defined.

(** The track ends on a player that was started with [play()]. *)
Lemma track_end_spec_witness :
  let w := step RefPlay (mount (demo_props None)) in
  paused (st (after (_onEnd (st w)) w)) = negb (truthy (get (nexenConfig (st w)) "repeat")).
Proof.
  cbv zeta.
  assert (Hp : paused (st (step RefPlay (mount (demo_props None)))) = false)
    by (vm_compute; reflexivity).
  exact (proj1 (proj2 (proj2
    (track_end_spec (step RefPlay (mount (demo_props None)))
       (st (step RefPlay (mount (demo_props None)))) eq_refl eq_refl Hp)))).
Defined.

(** Freshly mounted and paused: the footer button starts playback. *)
Lemma play_pause_toggle_spec_witness :
  isStopped (refs (step TogglePlayPause (mount (demo_props None)))) = false.
Proof.
  assert (Hp : paused (st (mount (demo_props None))) = true)
    by (vm_compute; reflexivity).
  destruct (play_pause_toggle_spec (mount (demo_props None)) None) as [(_ & _ & H & _) _].
  exact (H Hp).
Defined.

(** A double tap that asks for time 0 is dropped. *)
Lemma double_tap_seek_spec_witness :
  step (Tap DOUBLE_TAP_LEFT (Some 0%Q)) (mount (demo_props None))
  = mount (demo_props None).
Proof.
  refine (proj1 (double_tap_seek_spec (mount (demo_props None)) DOUBLE_TAP_LEFT
                   (Some 0%Q) (or_introl eq_refl)) _).
  reflexivity.
Defined.

(** A touch-mode session in which a video loads, plays and ends. *)
Lemma touch_session_has_no_timer_witness :
  timers (world (play (demo_props None) demo_callbacks
                   [OfInput (Tap SINGLE_TAP None); LoadStart;
                    Loaded {| load_currentTime := 0; duration := 90 |};
                    OfInput (HostConfig (Some touch_config)); VolumePress;
                    BackPressed; Ended])) = [].
Proof.
  assert (H1 : strict_eq (get (initial_config (config (demo_props None)))
                            "controlHideMode") (VStr "auto") = false)
    by (vm_compute; reflexivity).
  assert (H2 : forallb turn_keeps_touch
                 [OfInput (Tap SINGLE_TAP None); LoadStart;
                  Loaded {| load_currentTime := 0; duration := 90 |};
                  OfInput (HostConfig (Some touch_config)); VolumePress;
                  BackPressed; Ended]
               = true)
    by (vm_compute; reflexivity).
  exact (proj1 (touch_session_has_no_timer (demo_props None) demo_callbacks _ H1 H2)).
Defined.

(** A load error; then a tap, the volume button, a progress event and a
    back press: the error is still shown. *)
Lemma error_is_sticky_witness :
  error (st (world
    (resume (demo_props None) demo_callbacks
       [OfInput (Tap SINGLE_TAP None); VolumePress;
        Progress {| progress_currentTime := 1; playableDuration := 2;
                    seekableDuration := 90 |};
        BackPressed]
       (play (demo_props None) demo_callbacks
          [LoadStart; OfInput (VideoError {| errorString := "404" |})]))))
  = true.
Proof.
  refine (proj1 (error_is_sticky (demo_props None) demo_callbacks
                   (play (demo_props None) demo_callbacks
                      [LoadStart; OfInput (VideoError {| errorString := "404" |})])
                   _ _) _).
  - vm_compute. reflexivity.
  - vm_compute. reflexivity.
Defined.

(** The host moves the active index away from this player's index. *)
Lemma optimize_update_spec_witness :
  let c := Some (<["optimize" := VBool true]>
                   (<["index" := VNum 1]> ({[ "activeIndex" := VNum 2 ]} : Config))) in
  paused (st (step (HostConfig c) (mount (demo_props None)))) = true
  /\ video_element (st (step (HostConfig c) (mount (demo_props None)))) demo_source = None.
Proof.
  cbv zeta.
  set (c := Some (<["optimize" := VBool true]>
                    (<["index" := VNum 1]> ({[ "activeIndex" := VNum 2 ]} : Config)))).
  assert (Ho : truthy (get (spread (nexenConfig (st (mount (demo_props None))))
                              (default ∅ c)) "optimize") = true)
    by (vm_compute; reflexivity).
  assert (Hi : optional_number
                 (get (spread (nexenConfig (st (mount (demo_props None))))
                         (default ∅ c)) "index") = true)
    by (vm_compute; reflexivity).
  assert (Ha : optional_number
                 (get (spread (nexenConfig (st (mount (demo_props None))))
                         (default ∅ c)) "activeIndex") = true)
    by (vm_compute; reflexivity).
  assert (Hne : strict_eq
                  (get (spread (nexenConfig (st (mount (demo_props None))))
                          (default ∅ c)) "index")
                  (get (spread (nexenConfig (st (mount (demo_props None))))
                          (default ∅ c)) "activeIndex") = false)
    by (vm_compute; reflexivity).
  destruct (optimize_update_spec (mount (demo_props None)) c 30 Ho) as [H _].
  destruct (H Hi Ha Hne) as (Hp & _ & _ & Hv & _).
  split; [exact Hp | exact (Hv demo_source)].
Defined.

(** Three items, the second one current: next, then back. *)
Lemma skip_round_trip_witness :
  playList (st (steps [SkipNext; SkipBack] (mount demo_playlist_props)))
  = playList (st (mount demo_playlist_props)).
Proof.
  refine (proj1 (skip_round_trip (mount demo_playlist_props) demo_playlist 1
                   [demo_source; demo_source; demo_source] _ eq_refl eq_refl _)).
  - vm_compute. reflexivity.
  - simpl. lia.
Defined.

(** No playlist from the host: skip-next does nothing. *)
Lemma skip_edges_witness :
  step SkipNext (mount (demo_props None)) = mount (demo_props None).
Proof.
  destruct (skip_edges (mount (demo_props None)) (demo_props None)) as (_ & _ & _ & _ & H).
  exact (proj1 (H eq_refl)).
Defined.

(** After a load error nothing but the error is drawn over the video. *)
Lemma overlay_exclusions_witness :
  let w := step (VideoError {| errorString := "404" |}) (mount (demo_props None)) in
  playButton (render_overlay (st w) (refs w) demo_source) = false.
Proof.
  cbv zeta.
  assert (He : error (st (step (VideoError {| errorString := "404" |})
                            (mount (demo_props None)))) = true)
    by (vm_compute; reflexivity).
  destruct (overlay_exclusions
              (st (step (VideoError {| errorString := "404" |}) (mount (demo_props None))))
              (refs (step (VideoError {| errorString := "404" |}) (mount (demo_props None))))
              demo_source) as (H & _).
  exact (proj2 (proj2 (H He))).
Defined.

(** A progress event outside a drag sets the displayed time. *)
Lemma progress_spec_witness :
  trackTime (trackInfo (st (after (_onProgress
      {| progress_currentTime := 12; playableDuration := 30; seekableDuration := 90 |})
      (mount (demo_props None))))) = 12%Q.
Proof.
  assert (Hs : isSeeking (refs (mount (demo_props None))) = false)
    by (vm_compute; reflexivity).
  destruct (progress_spec (mount (demo_props None))
              {| progress_currentTime := 12; playableDuration := 30;
                 seekableDuration := 90 |} demo_source) as (_ & _ & _ & H & _).
  rewrite (H Hs). reflexivity.
Defined.

(** Three items, the second one current. *)
Lemma playlist_panel_marks_current_witness :
  length (playlist_panel (st (mount demo_playlist_props))) = 3%nat.
Proof.
  refine (proj1 (playlist_panel_marks_current (st (mount demo_playlist_props))
                   demo_playlist [demo_source; demo_source; demo_source] 1
                   _ eq_refl eq_refl _)).
  - vm_compute. reflexivity.
  - simpl. lia.
Defined.

(** Controls up after the first tap; the more panel is opened. *)
Lemma panel_round_trip_witness :
  showMoreControl
    (st (steps [AnimationsEnd]
           (after _onMorePress (step (Tap SINGLE_TAP None) (mount (demo_props None))))))
  = true.
Proof.
  assert (Hc : showControl (st (step (Tap SINGLE_TAP None) (mount (demo_props None))))
               = true) by (vm_compute; reflexivity).
  assert (Hm : showMoreControl (st (step (Tap SINGLE_TAP None) (mount (demo_props None))))
               = false) by (vm_compute; reflexivity).
  assert (Hs : showSpeedControl (st (step (Tap SINGLE_TAP None) (mount (demo_props None))))
               = false) by (vm_compute; reflexivity).
  assert (Ht : showTrackControl (st (step (Tap SINGLE_TAP None) (mount (demo_props None))))
               = false) by (vm_compute; reflexivity).
  assert (Hp : showPlaylistControl
                 (st (step (Tap SINGLE_TAP None) (mount (demo_props None))))
               = false) by (vm_compute; reflexivity).
  assert (Ha : animating (step (Tap SINGLE_TAP None) (mount (demo_props None))) = [])
    by (vm_compute; reflexivity).
  exact (proj1 (proj1 (proj1 (panel_round_trip _ Hc Hm Hs Ht Hp Ha)))).
Defined.

(** Into full screen and out again, then [setFullScreenMode(true)]: the
    one system-bar call in the log was made by the button. *)
Lemma toggle_fullscreen_spec_witness :
  ShowSystemBar
  ∈ log (steps [ToggleFullScreen; ToggleFullScreen] (mount (demo_props None))).
Proof.
  refine (proj1 (proj2 (proj2 (proj2 (proj2
            (toggle_fullscreen_spec
               (steps [ToggleFullScreen; ToggleFullScreen] (mount (demo_props None)))
               true))))) _).
  vm_compute. repeat constructor.
Defined.

(** Muting leaves the volume field alone. *)
Lemma mute_toggle_spec_witness :
  let cb := {| onBackPress := true; onMuteUpdate := true; onRepeatUpdate := true;
               onSpeedUpdate := true; onPlayListItemSelect := true;
               onScreenLockUpdate := true |} in
  nexenConfig (st (pressed _onToggleVolume cb (mount (demo_props None)))) !! "volume"
  = nexenConfig (st (mount (demo_props None))) !! "volume".
Proof.
  cbv zeta.
  destruct (mute_toggle_spec
              {| onBackPress := true; onMuteUpdate := true; onRepeatUpdate := true;
                 onSpeedUpdate := true; onPlayListItemSelect := true;
                 onScreenLockUpdate := true |}
              (mount (demo_props None)) demo_source) as (_ & _ & _ & _ & H & _).
  apply H. discriminate.
Defined.

(** The third entry of a three-item panel is pressed. *)
Lemma playlist_item_press_spec_witness :
  let cb := {| onBackPress := true; onMuteUpdate := true; onRepeatUpdate := true;
               onSpeedUpdate := true; onPlayListItemSelect := true;
               onScreenLockUpdate := true |} in
  (_onPlaylistItemPress (Z.of_nat 2) cb (mount demo_playlist_props)).2
  = [PlayListItemSelect 2].
Proof.
  cbv zeta.
  refine (proj1 (playlist_item_press_spec _ (mount demo_playlist_props) demo_playlist
                   [demo_source; demo_source; demo_source] 2 _ eq_refl)).
  vm_compute. reflexivity.
Defined.

(** An item the more panel does not know. *)
Lemma lock_round_trip_witness :
  let cb := {| onBackPress := true; onMuteUpdate := true; onRepeatUpdate := true;
               onSpeedUpdate := true; onPlayListItemSelect := true;
               onScreenLockUpdate := true |} in
  _onMoreItemPress "airplay" cb (mount (demo_props None)) = (mount (demo_props None), []).
Proof.
  cbv zeta.
  destruct (lock_round_trip
              {| onBackPress := true; onMuteUpdate := true; onRepeatUpdate := true;
                 onSpeedUpdate := true; onPlayListItemSelect := true;
                 onScreenLockUpdate := true |}
              (mount (demo_props None)) "airplay" demo_source) as (_ & _ & H).
  apply H; discriminate.
Defined.

(** The video loads, the user goes full screen and presses back. *)
Lemma back_press_spec_witness :
  fullScreen
    (st (_onBackPress (initial_state (demo_props None)) (more demo_callbacks)
           (world (play (demo_props None) demo_callbacks
                     [LoadStart; Loaded {| load_currentTime := 0; duration := 90 |};
                      OfInput ToggleFullScreen]))).1.1) = false.
Proof.
  assert (Hf : fullScreen
                 (st (world (play (demo_props None) demo_callbacks
                               [LoadStart;
                                Loaded {| load_currentTime := 0; duration := 90 |};
                                OfInput ToggleFullScreen]))) = true)
    by (vm_compute; reflexivity).
  destruct (back_press_spec (demo_props None) demo_callbacks
              [LoadStart; Loaded {| load_currentTime := 0; duration := 90 |};
               OfInput ToggleFullScreen]) as (_ & _ & H & _).
  exact (proj1 (H Hf)).
Defined.

(** Choosing a speed leaves the volume field alone. *)
Lemma repeat_and_speed_spec_witness :
  let cb := {| onBackPress := true; onMuteUpdate := true; onRepeatUpdate := true;
               onSpeedUpdate := true; onPlayListItemSelect := true;
               onScreenLockUpdate := true |} in
  nexenConfig (st (pressed (_onSpeedUpdate "1.5") cb (mount (demo_props None)))) !! "volume"
  = nexenConfig (st (mount (demo_props None))) !! "volume".
Proof.
  cbv zeta.
  destruct (repeat_and_speed_spec
              {| onBackPress := true; onMuteUpdate := true; onRepeatUpdate := true;
                 onSpeedUpdate := true; onPlayListItemSelect := true;
                 onScreenLockUpdate := true |}
              (mount (demo_props None)) "1.5" demo_source) as (_ & _ & _ & H & _).
  apply H. discriminate.
Defined.

(** A fresh player draws the play button; pressing it starts playback. *)
Lemma play_button_press_spec_witness :
  paused (st (after _onPlayPress (mount (demo_props None)))) = false.
Proof.
  assert (Hb : playButton (render_overlay (st (mount (demo_props None)))
                             (refs (mount (demo_props None))) demo_source) = true)
    by (vm_compute; reflexivity).
  exact (proj1 (play_button_press_spec (mount (demo_props None)) demo_source Hb)).
Defined.
